(** * visualize_performance.py: output parsing and metrics derivation

    A shallow embedding of [parse_output], [print_summary_table],
    [create_visualizations] and [main] of [src/visualize_performance.py],
    and the properties of the parsing and metrics pipeline.

    Modelling conventions.
    - Text is a [string] of 8-bit characters (code points below 256).  On
      that range Python's [\d] is [0-9] and Python's [\s] is the set
      {9..13, 28..31, 32, 133, 160}.
    - Python [int] is [Z]; Python [float] is the kernel's binary64 [float].
    - A raised exception is the [Raise] branch of [result]; printed lines
      and the saved figure are [event]s of an output trace.
    - matplotlib and numpy are outside the script: every call
      [create_visualizations] makes to them is a [call], and what a call
      does, return or raise, is the [backend] the script runs on.
    - [int(...)] refuses a numeral of more than 4300 digits, the default
      of [sys.int_max_str_digits] (CPython 3.11 and later); [float(...)]
      has no such limit. *)

From Stdlib Require Import ZArith String Ascii List.
From Stdlib Require Import PrimFloat.
From Stdlib Require SpecFloat FloatOps FloatAxioms.
From stdpp Require Import base option list gmap sorting.

Local Open Scope string_scope.
Local Open Scope Z_scope.

(** ** Exceptions *)

Inductive exn :=
| ValueError | IndexError | KeyError | ZeroDivisionError | OverflowError
| TypeError.

Inductive result (A : Type) := Ok (a : A) | Raise (e : exn).
Arguments Ok {A} a.
Arguments Raise {A} e.

#[global] Instance result_ret : MRet result := fun A a => Ok a.
#[global] Instance result_bind : MBind result := fun A B f m =>
  match m with
  | Ok a => f a
  | Raise e => Raise e
  end.
#[global] Instance result_fmap : FMap result := fun A B f m =>
  match m with
  | Ok a => Ok (f a)
  | Raise e => Raise e
  end.

(** ** Characters and the [re] fragment the script uses *)

Module Re.

Definition is_digit (c : ascii) : bool :=
  let n := nat_of_ascii c in (48 <=? n)%nat && (n <=? 57)%nat.

Definition is_space (c : ascii) : bool :=
  let n := nat_of_ascii c in
  ((9 <=? n)%nat && (n <=? 13)%nat) || ((28 <=? n)%nat && (n <=? 32)%nat)
  || (n =? 133)%nat || (n =? 160)%nat.

(** [[\d.]] *)
Definition is_digit_or_dot (c : ascii) : bool :=
  is_digit c || Ascii.eqb c "."%char.

(** Every character of [s] is in the class. *)
Fixpoint all_in (cls : ascii -> bool) (s : string) : bool :=
  match s with
  | EmptyString => true
  | String c s' => cls c && all_in cls s'
  end.

(** The pieces the three patterns are made of: literal text, [cls*],
    [cls+] and the capturing group [(cls+)], all greedy. *)
Inductive re :=
| Lit (t : string)
| Star (cls : ascii -> bool)
| Plus (cls : ascii -> bool)
| Group (cls : ascii -> bool).

(** [lit t s]: what is left of [s] after the literal [t], if [s] starts
    with it. *)
Fixpoint lit (t s : string) : option string :=
  match t, s with
  | EmptyString, _ => Some s
  | String a t', String b s' => if Ascii.eqb a b then lit t' s' else None
  | String _ _, EmptyString => None
  end.

Section Backtrack.
Context {R : Type}.

(** Greedy repetition with backtracking: take one more character if
    the rest of the pattern still matches afterwards, otherwise go on
    with what has been taken so far. *)
Fixpoint star (cls : ascii -> bool) (taken s : string)
    (k : string -> string -> option R) : option R :=
  match s with
  | String c s' =>
      if cls c then
        match star cls (taken ++ String c "") s' k with
        | Some r => Some r
        | None => k taken s
        end
      else k taken s
  | EmptyString => k taken s
  end.

Definition plus (cls : ascii -> bool) (s : string)
    (k : string -> string -> option R) : option R :=
  match s with
  | String c s' => if cls c then star cls (String c "") s' k else None
  | EmptyString => None
  end.
End Backtrack.

(** A match of the pattern [p] at the start of [s]: the captured groups,
    in order. *)
Fixpoint run (p : list re) (s : string) : option (list string) :=
  match p with
  | [] => Some []
  | Lit t :: p' =>
      match lit t s with
      | Some s' => run p' s'
      | None => None
      end
  | Star cls :: p' => star cls "" s (fun _ s' => run p' s')
  | Plus cls :: p' => plus cls s (fun _ s' => run p' s')
  | Group cls :: p' =>
      plus cls s (fun g s' => cons g <$> run p' s')
  end.

(** [re.match] *)
Definition re_match (p : list re) (s : string) : option (list string) :=
  run p s.

(** [re.search]: the leftmost position at which the pattern matches. *)
Fixpoint re_search (p : list re) (s : string) : option (list string) :=
  match run p s with
  | Some gs => Some gs
  | None =>
      match s with
      | String _ s' => re_search p s'
      | EmptyString => None
      end
  end.

(** [m.group(k)], for [k >= 1] *)
Definition group (gs : list string) (k : nat) : string :=
  default "" (gs !! (k - 1)%nat).

(** [t in s] *)
Fixpoint contains (t s : string) : bool :=
  match lit t s with
  | Some _ => true
  | None =>
      match s with
      | String _ s' => contains t s'
      | EmptyString => false
      end
  end.

(** [s.split('\n')] *)
Fixpoint split_lines (s : string) : list string :=
  match s with
  | EmptyString => [EmptyString]
  | String c s' =>
      if Ascii.eqb c "010"%char then EmptyString :: split_lines s'
      else
        match split_lines s' with
        | l :: ls => String c l :: ls
        | [] => [String c EmptyString]
        end
  end.

End Re.

Import Re.

(** [r'Matrix size:\s*(\d+)\s*x\s*\d+'] *)
Definition size_re : list re :=
  [Lit "Matrix size:"; Star is_space; Group is_digit; Star is_space;
   Lit "x"; Star is_space; Plus is_digit].

(** [r'Time:\s*([\d.]+)\s*ms'] *)
Definition time_re : list re :=
  [Lit "Time:"; Star is_space; Group is_digit_or_dot; Star is_space; Lit "ms"].

(** [r'\s*(\d+)\s+([\d.]+)\s+([\d.]+)\s+([\d.]+)%'] *)
Definition thread_re : list re :=
  [Star is_space; Group is_digit; Plus is_space; Group is_digit_or_dot;
   Plus is_space; Group is_digit_or_dot; Plus is_space; Group is_digit_or_dot;
   Lit "%"].


(** ** Python numbers *)

Module Py.

Abbreviation float := PrimFloat.float.

(** A Python number as the script meets them: the [int] literals [0],
    [1], [100] and the parsed thread counts, and [float]s. *)
Inductive num := PInt (n : Z) | PFloat (f : float).

Definition digit_value (c : ascii) : Z := Z.of_nat (nat_of_ascii c) - 48.

Fixpoint digits_value (acc : Z) (s : string) : Z :=
  match s with
  | EmptyString => acc
  | String c s' => digits_value (10 * acc + digit_value c) s'
  end.

Definition all_digits (s : string) : bool := all_in is_digit s.

(** [sys.get_int_max_str_digits()], at its default. *)
Definition int_max_str_digits : Z := 4300.

(** [int(s)] on an unsigned decimal numeral.  The digits are counted
    with their leading zeros, and more than [int_max_str_digits] of them
    are a [ValueError]. *)
Definition py_int (s : string) : result Z :=
  match s with
  | EmptyString => Raise ValueError
  | _ =>
      if all_digits s then
        if Z.of_nat (String.length s) <=? int_max_str_digits
        then Ok (digits_value 0 s)
        else Raise ValueError
      else Raise ValueError
  end.

(** The integer [n] as an exact operand of the binary64 operations. *)
Definition Z2SF (n : Z) : SpecFloat.spec_float :=
  match n with
  | Z0 => SpecFloat.S754_zero false
  | Zpos p => SpecFloat.S754_finite false p 0
  | Zneg p => SpecFloat.S754_finite true p 0
  end.

(** The quotient [a / b] of two integers rounded once, to nearest even,
    to binary64 (an infinity when it is out of range). *)
Definition round_quotient (a b : Z) : float :=
  FloatOps.SF2Prim (SpecFloat.SFdiv FloatOps.prec FloatOps.emax (Z2SF a) (Z2SF b)).

(** The integer [n] rounded to nearest even to binary64. *)
Definition round_int (n : Z) : float :=
  FloatOps.SF2Prim
    (SpecFloat.binary_normalize FloatOps.prec FloatOps.emax n 0 false).

(** [s.partition('.')]: the text before the first dot and, when there is
    a dot, the text after it. *)
Fixpoint split_dot (s : string) : string * option string :=
  match s with
  | EmptyString => (EmptyString, None)
  | String c s' =>
      if Ascii.eqb c "."%char then (EmptyString, Some s')
      else let '(a, b) := split_dot s' in (String c a, b)
  end.

(** [float(s)] on a token of [[\d.]+]: digits with at most one dot and at
    least one digit, read as a decimal and rounded correctly; anything
    else is a [ValueError].  A numeral too large for binary64 reads as
    [inf]. *)
Definition py_float (s : string) : result float :=
  let '(ip, rest) := split_dot s in
  let fp := default EmptyString rest in
  if all_digits ip && all_digits fp
     && negb (String.eqb (ip ++ fp) EmptyString)
  then Ok (round_quotient (digits_value 0 (ip ++ fp))
                          (10 ^ Z.of_nat (String.length fp)))
  else Raise ValueError.

(** [float(n)] as the arithmetic operators apply it to an [int]
    operand. *)
Definition int_to_float (n : Z) : result float :=
  let f := round_int n in
  if PrimFloat.is_infinity f then Raise OverflowError else Ok f.

(** [x > 0] *)
Definition gt0 (x : num) : bool :=
  match x with
  | PInt n => 0 <? n
  | PFloat f => PrimFloat.ltb PrimFloat.zero f
  end.

Definition float_truediv (a b : float) : result num :=
  if PrimFloat.eqb b PrimFloat.zero then Raise ZeroDivisionError
  else Ok (PFloat (PrimFloat.div a b)).

(** [x / y] *)
Definition truediv (x y : num) : result num :=
  match x, y with
  | PInt a, PInt b =>
      if b =? 0 then Raise ZeroDivisionError
      else
        let f := round_quotient a b in
        if PrimFloat.is_infinity f then Raise OverflowError else Ok (PFloat f)
  | PFloat a, PFloat b => float_truediv a b
  | PFloat a, PInt b => fb ← int_to_float b; float_truediv a fb
  | PInt a, PFloat b => fa ← int_to_float a; float_truediv fa b
  end.

(** [x * y] *)
Definition mul (x y : num) : result num :=
  match x, y with
  | PInt a, PInt b => Ok (PInt (a * b))
  | PFloat a, PFloat b => Ok (PFloat (PrimFloat.mul a b))
  | PFloat a, PInt b => fb ← int_to_float b; Ok (PFloat (PrimFloat.mul a fb))
  | PInt a, PFloat b => fa ← int_to_float a; Ok (PFloat (PrimFloat.mul fa b))
  end.

End Py.

Import Py.

(** ** The dataset and [parse_output] *)

(** The dictionary [data]: ['sizes'], ['sequential_times'] and
    ['parallel_results'], the latter as [{threads: {size: time}}]. *)
Record dataset := Dataset {
  sizes : list Z;
  sequential_times : list float;
  parallel_results : gmap Z (gmap Z float)
}.

(** The variables of the scanning loop: [data], [current_size] and
    [seq_time] ([None] is Python's [None]). *)
Record scan := Scan {
  data : dataset;
  current_size : option Z;
  seq_time : option float
}.

Definition empty_dataset : dataset := Dataset [] [] ∅.

Definition scan_init : scan := Scan empty_dataset None None.

(** Lines 48-52: a size header selects the size and appends it when it is
    new. *)
Definition on_size (st : scan) (line : string) : result scan :=
  match re_search size_re line with
  | Some gs =>
      n ← py_int (group gs 1);
      let d := data st in
      let d' :=
        if bool_decide (n ∈ sizes d) then d
        else Dataset (sizes d ++ [n]) (sequential_times d) (parallel_results d) in
      Ok (Scan d' (Some n) (seq_time st))
  | None => Ok st
  end.

(** Lines 57-62: the [for j] loop over the window [lines[i : min(i+5,
    len(lines))]], left at the first line that holds a time. *)
Fixpoint find_time (st : scan) (window : list string) : result scan :=
  match window with
  | [] => Ok st
  | lj :: window' =>
      match re_search time_re lj with
      | Some gs =>
          t ← py_float (group gs 1);
          let d := data st in
          Ok (Scan (Dataset (sizes d) (sequential_times d ++ [t])
                            (parallel_results d))
                   (current_size st) (Some t))
      | None => find_time st window'
      end
  end.

(** Lines 55-62. *)
Definition on_sequential (st : scan) (line : string) (window : list string)
    : result scan :=
  if contains "Sequential:" line then find_time st window else Ok st.

(** Lines 70-72: [parallel_results[threads][current_size] = time_ms], the
    inner dictionary created on first use. *)
Definition record_time (pr : gmap Z (gmap Z float)) (threads size : Z)
    (time_ms : float) : gmap Z (gmap Z float) :=
  <[threads := <[size := time_ms]> (default ∅ (pr !! threads))]> pr.

(** Lines 65-72. *)
Definition on_row (st : scan) (line : string) : result scan :=
  match re_match thread_re line, current_size st with
  | Some gs, Some size =>
      threads ← py_int (group gs 1);
      time_ms ← py_float (group gs 2);
      let d := data st in
      Ok (Scan (Dataset (sizes d) (sequential_times d)
                        (record_time (parallel_results d) threads size time_ms))
               (current_size st) (seq_time st))
  | _, _ => Ok st
  end.

(** One turn of the [while] loop at index [i]: [line] is [lines[i]] and
    [window] is [lines[i : min(i+5, len(lines))]]. *)
Definition step (st : scan) (line : string) (window : list string)
    : result scan :=
  st1 ← on_size st line;
  st2 ← on_sequential st1 line window;
  on_row st2 line.

(** The [while i < len(lines)] loop; the argument is [lines[i:]]. *)
Fixpoint scan_lines (st : scan) (lines : list string) : result scan :=
  match lines with
  | [] => Ok st
  | line :: rest =>
      st' ← step st line (take 5 lines);
      scan_lines st' rest
  end.

Definition parse_lines (lines : list string) : result dataset :=
  st ← scan_lines scan_init lines; Ok (data st).

Definition parse_output (output : string) : result dataset :=
  parse_lines (split_lines output).

(** ** Output trace *)

Definition nl : string := String "010"%char EmptyString.

Fixpoint str_repeat (s : string) (n : nat) : string :=
  match n with
  | O => EmptyString
  | S n' => s ++ str_repeat s n'
  end.

(** The data [create_visualizations] computes for the four panels. *)
Record charts := Charts {
  bar_sequential : list float;
  bar_parallel : list (Z * list num);
  speedup_lines : list (Z * list num);
  efficiency_lines : list (Z * list num);
  speedup_matrix : list (list num)
}.

(** What the script emits: a verbatim line, the header and the rows of
    the summary table (with the numbers they format), and the figure. *)
Inductive event :=
| Print (text : string)
| PrintHeader (thread_counts : list Z)
| PrintRow (size : Z) (seq : float) (cells : list (num * num))
| Figure (c : charts).

(** A computation that has emitted [trace] and then returned or raised. *)
Record io (A : Type) := IO { trace : list event; outcome : result A }.
Arguments IO {A} trace outcome.
Arguments trace {A} i.
Arguments outcome {A} i.

#[global] Instance io_ret : MRet io := fun A a => IO [] (Ok a).
#[global] Instance io_bind : MBind io := fun A B f m =>
  match outcome m with
  | Ok a => IO (trace m ++ trace (f a)) (outcome (f a))
  | Raise e => IO (trace m) (Raise e)
  end.

Definition emit (ev : event) : io unit := IO [ev] (Ok tt).
Definition lift {A} (r : result A) : io A := IO [] r.

(** ** Metrics and reports *)

(** [enumerate(l)], counting from [i] *)
Fixpoint enumerate_from {A} (i : nat) (l : list A) : list (nat * A) :=
  match l with
  | [] => []
  | x :: l' => (i, x) :: enumerate_from (S i) l'
  end.

(** [sorted(parallel_results.keys())] *)
Definition sorted_keys (pr : gmap Z (gmap Z float)) : list Z :=
  merge_sort Z.le (elements (dom pr)).

(** [parallel_results[threads].get(size, dflt)] *)
Definition get_time (pr : gmap Z (gmap Z float)) (threads size : Z)
    (dflt : Z) : result num :=
  match pr !! threads with
  | Some inner =>
      Ok (match inner !! size with
          | Some t => PFloat t
          | None => PInt dflt
          end)
  | None => Raise KeyError
  end.

(** [seq_times[idx]] *)
Definition getitem (seq_times : list float) (idx : nat) : result float :=
  match seq_times !! idx with
  | Some t => Ok t
  | None => Raise IndexError
  end.

(** [seq_times[idx] / par_time if par_time > 0 else 0] *)
Definition speedup_of (seq_times : list float) (idx : nat) (par_time : num)
    : result num :=
  if gt0 par_time then
    s ← getitem seq_times idx; truediv (PFloat s) par_time
  else Ok (PInt 0).

(** Lines 227-228: one cell of the table, the time and its speedup. *)
Definition table_cell (d : dataset) (idx : nat) (size threads : Z)
    : result (num * num) :=
  par_time ← get_time (parallel_results d) threads size 0;
  speedup ← speedup_of (sequential_times d) idx par_time;
  Ok (par_time, speedup).

(** Lines 225-230: the row of [size]; the sequential time is formatted
    first, then the cells, then the row is printed. *)
Definition table_row (d : dataset) (thread_counts : list Z) (idx : nat)
    (size : Z) : io unit :=
  seq ← lift (getitem (sequential_times d) idx);
  cells ← lift (mapM (table_cell d idx size) thread_counts);
  emit (PrintRow size seq cells).

Fixpoint table_rows (d : dataset) (thread_counts : list Z)
    (rows : list (nat * Z)) : io unit :=
  match rows with
  | [] => mret tt
  | (idx, size) :: rows' =>
      table_row d thread_counts idx size;;
      table_rows d thread_counts rows'
  end.

Definition print_summary_table (d : dataset) : io unit :=
  let thread_counts := sorted_keys (parallel_results d) in
  emit (Print (nl ++ str_repeat "=" 80));;
  emit (Print "PERFORMANCE SUMMARY TABLE");;
  emit (Print (str_repeat "=" 80));;
  emit (PrintHeader thread_counts);;
  emit (Print (str_repeat "-" 80));;
  table_rows d thread_counts (enumerate_from 0 (sizes d));;
  emit (Print (str_repeat "=" 80)).

(** Line 103: the bars of one thread count. *)
Definition bar_times (d : dataset) (threads : Z) : result (Z * list num) :=
  times ← mapM (fun size => get_time (parallel_results d) threads size 0)
               (sizes d);
  Ok (threads, times).

(** Lines 123-124 (and 172-173): the speedup the charts plot. *)
Definition chart_speedup (d : dataset) (idx : nat) (size threads : Z)
    : result num :=
  par_time ← get_time (parallel_results d) threads size 1;
  speedup_of (sequential_times d) idx par_time.

(** Lines 146-148: the efficiency the chart plots. *)
Definition chart_efficiency (d : dataset) (idx : nat) (size threads : Z)
    : result num :=
  speedup ← chart_speedup d idx size threads;
  q ← truediv speedup (PInt threads);
  mul q (PInt 100).

(** One series per size: [f idx size threads] over the thread counts. *)
Definition per_size (f : nat -> Z -> Z -> result num)
    (thread_counts : list Z) (szs : list Z) : result (list (Z * list num)) :=
  mapM (fun '(idx, size) =>
          ys ← mapM (f idx size) thread_counts; Ok (size, ys))
       (enumerate_from 0 szs).

(** The data of the four panels, computed in the order of the source,
    without the calls that draw them. *)
Definition chart_data (d : dataset) : result charts :=
  let thread_counts := sorted_keys (parallel_results d) in
  bars ← mapM (bar_times d) thread_counts;
  speedups ← per_size (chart_speedup d) thread_counts (sizes d);
  efficiencies ← per_size (chart_efficiency d) thread_counts (sizes d);
  matrix ← per_size (chart_speedup d) thread_counts (sizes d);
  Ok (Charts (sequential_times d) bars speedups efficiencies matrix.*2).

(** *** The plotting collaborator *)

(** The two panels with one line per size. *)
Inductive panel := SpeedupPanel | EfficiencyPanel.

(** The calls [create_visualizations] makes to matplotlib and numpy, with
    the data they are given.  A call stands for the statements of its
    lines once the data are computed, the formatting of its labels
    included. *)
Inductive call :=
| Subplots
    (* lines 87-88: [plt.subplots], [fig.suptitle] *)
| Colors (n : nat)
    (* line 90: [plt.cm.viridis(np.linspace(0.2, 0.8, n))] *)
| BarSequential (positions : nat) (heights : list float)
    (* lines 94-99: [ax1.bar] at [np.arange(positions)], shifted *)
| BarParallel (positions : nat) (idx : nat) (threads : Z) (heights : list num)
    (* lines 104-106: [ax1.bar] of one thread count, in [colors[idx]] *)
| DecorateBars (szs : list Z)
    (* lines 108-115: labels, ticks, legend, log scale, grid *)
| PlotLine (p : panel) (xs : list Z) (ys : list num) (size : Z)
    (* lines 127-128 and 151-152: [plot(thread_counts, ys, ...)] *)
| PlotIdeal (xs : list Z)
    (* line 131: [ax2.plot(thread_counts, thread_counts, ...)] *)
| DecorateLines (p : panel) (xs : list Z)
    (* lines 133-138; lines 155-163, with [ax3.axhline] *)
| Imshow (matrix : list (list num))
    (* lines 177-178: [np.array], [ax4.imshow] *)
| DecorateHeatmap (xs : list Z) (szs : list Z)
    (* lines 180-186 *)
| Annotate (j i : nat) (v : num)
    (* lines 191-192: [ax4.text(j, i, ...)] *)
| Colorbar
    (* lines 194-195 *)
| TightLayout
    (* line 197 *)
| Savefig (file : string)
    (* line 201 *)
| ShowFigure.
    (* line 204 *)

(** What a call does, return or raise: the libraries the script runs
    on.  The two exceptions [main] catches belong to the build and the
    run of the benchmark and are not among those of a call. *)
Definition backend : Type := call -> result unit.

(** The backend whose calls all return. *)
Definition accepting : backend := fun _ => Ok tt.

(** [speedup_array[i, j]] *)
Definition matrix_at (matrix : list (list num)) (i j : nat) : result num :=
  match matrix !! i ≫= (fun row => row !! j) with
  | Some v => Ok v
  | None => Raise IndexError
  end.

(** Lines 102-106: the times of one thread count, then its bars. *)
Definition draw_bars (draw : backend) (d : dataset) (idx : nat) (threads : Z)
    : result (Z * list num) :=
  p ← bar_times d threads;
  draw (BarParallel (length (sizes d)) idx threads p.2);;
  Ok p.

(** Lines 120-128 and 143-152: the values of one size, then its line. *)
Definition draw_line (draw : backend) (p : panel)
    (f : nat -> Z -> Z -> result num) (thread_counts : list Z)
    (idx : nat) (size : Z) : result (Z * list num) :=
  ys ← mapM (f idx size) thread_counts;
  draw (PlotLine p thread_counts ys size);;
  Ok (size, ys).

(** Lines 189-192: one annotation per cell of the heat matrix. *)
Definition annotate (draw : backend) (matrix : list (list num))
    (n_sizes n_threads : nat) : result (list (list unit)) :=
  mapM (fun i =>
          mapM (fun j => v ← matrix_at matrix i j; draw (Annotate j i v))
               (seq 0 n_threads))
       (seq 0 n_sizes).

(** Lines 80-201: the figure, panel by panel, up to the file it is saved
    to; the result is the data that have been drawn. *)
Definition draw_figure (draw : backend) (d : dataset) : result charts :=
  let thread_counts := sorted_keys (parallel_results d) in
  draw Subplots;;
  draw (Colors (length thread_counts));;
  draw (BarSequential (length (sizes d)) (sequential_times d));;
  bars ← mapM (fun '(idx, threads) => draw_bars draw d idx threads)
              (enumerate_from 0 thread_counts);
  draw (DecorateBars (sizes d));;
  speedups ← mapM (fun '(idx, size) =>
                     draw_line draw SpeedupPanel (chart_speedup d)
                               thread_counts idx size)
                  (enumerate_from 0 (sizes d));
  draw (PlotIdeal thread_counts);;
  draw (DecorateLines SpeedupPanel thread_counts);;
  efficiencies ← mapM (fun '(idx, size) =>
                         draw_line draw EfficiencyPanel (chart_efficiency d)
                                   thread_counts idx size)
                      (enumerate_from 0 (sizes d));
  draw (DecorateLines EfficiencyPanel thread_counts);;
  matrix ← per_size (chart_speedup d) thread_counts (sizes d);
  draw (Imshow matrix.*2);;
  draw (DecorateHeatmap thread_counts (sizes d));;
  annotate draw matrix.*2 (length (sizes d)) (length thread_counts);;
  draw Colorbar;;
  draw TightLayout;;
  draw (Savefig "jacobi_performance.png");;
  Ok (Charts (sequential_times d) bars speedups efficiencies matrix.*2).

(** [create_visualizations]: the figure is drawn and saved, the name of
    the file is printed and the figure is shown. *)
Definition create_visualizations (draw : backend) (d : dataset) : io unit :=
  c ← lift (draw_figure draw d);
  emit (Figure c);;
  emit (Print (nl ++ "Chart saved to: jacobi_performance.png"));;
  lift (draw ShowFigure).

(** [compile_and_run_parallel] for a build and a run that succeed and
    write [stdout]; a failing one never reaches the parser. *)
Definition compile_and_run_parallel (stdout : string) : io string :=
  emit (Print "Compiling jacobi_parallel.cpp...");;
  emit (Print "Running jacobi_parallel...");;
  mret stdout.

(** [main], where [stdout] is what the benchmark program writes and
    [draw] the plotting backend.  The exceptions of the parser and of the
    reports are not among those [main] catches, so they leave it. *)
Definition main (draw : backend) (stdout : string) : io unit :=
  emit (Print (str_repeat "=" 60));;
  emit (Print "  Jacobi Method Performance Visualization Tool");;
  emit (Print (str_repeat "=" 60));;
  output ← compile_and_run_parallel stdout;
  d ← lift (parse_output output);
  match sizes d with
  | [] =>
      emit (Print "Error: Could not parse program output");;
      emit (Print "Raw output:");;
      emit (Print output)
  | _ :: _ =>
      print_summary_table d;;
      emit (Print (nl ++ "Generating visualizations..."));;
      create_visualizations draw d
  end.

(** ** Reading the specification *)

(** The value a [SizeHeader] line declares. *)
Definition header_of (line : string) : option Z :=
  match re_search size_re line with
  | Some gs =>
      match py_int (group gs 1) with
      | Ok n => Some n
      | Raise _ => None
      end
  | None => None
  end.

(** The declared sizes of the [SizeHeader] lines, in input order. *)
Definition headers (lines : list string) : list Z := omap header_of lines.

(** First-seen order: each value once, at the place of its first
    occurrence. *)
Fixpoint first_seen (l : list Z) : list Z :=
  match l with
  | [] => []
  | x :: l' => x :: filter (fun y => y ≠ x) (first_seen l')
  end.

(** A line with a "time in milliseconds" token, and the token. *)
Definition time_token (line : string) : option string :=
  (fun gs => group gs 1) <$> re_search time_re line.

(** The token of the first line of a window that has one. *)
Fixpoint first_token (window : list string) : option string :=
  match window with
  | [] => None
  | lj :: window' =>
      match time_token lj with
      | Some tok => Some tok
      | None => first_token window'
      end
  end.

Definition is_marker (line : string) : bool := contains "Sequential:" line.

(** The tokens the markers of the input find, marker by marker: the window
    of a marker is its own line and the four lines after it. *)
Fixpoint marker_tokens (lines : list string) : list string :=
  match lines with
  | [] => []
  | line :: rest =>
      (if is_marker line then option_list (first_token (take 5 lines)) else [])
      ++ marker_tokens rest
  end.

(** [sizes] after a header that declares [n]. *)
Definition add_size (l : list Z) (n : Z) : list Z :=
  if bool_decide (n ∈ l) then l else l ++ [n].

(** The tokens of one turn of the loop. *)
Definition turn_tokens (line : string) (window : list string) : list string :=
  if is_marker line then option_list (first_token window) else [].

Definition reads (toks : list string) (ts : list float) : Prop :=
  Forall2 (fun tok t => py_float tok = Ok t) toks ts.

(** Two scans that agree on everything but the sequential times. *)
Definition same_rows (st1 st2 : scan) : Prop :=
  sizes (data st1) = sizes (data st2)
  /\ parallel_results (data st1) = parallel_results (data st2)
  /\ current_size st1 = current_size st2.

(** No [SizeHeader] among the lines. *)
Definition no_header (lines : list string) : Prop :=
  Forall (fun l => re_search size_re l = None) lines.


(** A line of none of the recognised shapes. *)
Definition unclassified (line : string) : Prop :=
  re_search size_re line = None
  /\ is_marker line = false
  /\ time_token line = None
  /\ re_match thread_re line = None.

(** What [main] prints before it parses. *)
Definition preamble : list event :=
  [Print (str_repeat "=" 60);
   Print "  Jacobi Method Performance Visualization Tool";
   Print (str_repeat "=" 60);
   Print "Compiling jacobi_parallel.cpp...";
   Print "Running jacobi_parallel..."].

(** The diagnostic of [main] for an output without sizes. *)
Definition diagnostic (output : string) : list event :=
  [Print "Error: Could not parse program output";
   Print "Raw output:";
   Print output].

Definition is_print (ev : event) : Prop := exists text, ev = Print text.

Definition is_figure (ev : event) : Prop := exists c, ev = Figure c.

(** The size a printed table row is for. *)
Definition row_size (ev : event) : option Z :=
  match ev with
  | PrintRow size _ _ => Some size
  | _ => None
  end.

(** The sizes of the table rows a trace holds, in order. *)
Definition printed_rows (evs : list event) : list Z := omap row_size evs.

(** What a printed table row shows: the size, the sequential time and
    the cells, each a time and its speedup. *)
Definition shown_row (ev : event) : option (Z * float * list (num * num)) :=
  match ev with
  | PrintRow size s cells => Some (size, s, cells)
  | _ => None
  end.

(** The table rows a trace holds, in order. *)
Definition shown_rows (evs : list event)
    : list (Z * float * list (num * num)) := omap shown_row evs.

(** The derived speedup [v] of a recorded parallel time [t], where [seq]
    is the sequential time of the size: the integer 0 when [t] is 0.0,
    and more generally when [t] is not above zero; the quotient of the
    two times when [t] is positive. *)
Definition guarded_speedup (seq : option float) (t : float) (v : num) : Prop :=
  (t = 0.0%float -> v = PInt 0)
  /\ (PrimFloat.ltb 0.0 t = false -> v = PInt 0)
  /\ (PrimFloat.ltb 0.0 t = true ->
      exists s, seq = Some s /\ v = PFloat (s / t)).

(** Line 148: the efficiency of a speedup. *)
Definition efficiency_of (speedup : num) (threads : Z) : result num :=
  q ← truediv speedup (PInt threads); mul q (PInt 100).

(** ** Concrete inputs *)

Definition scenario_a : string :=
  "Matrix size: 4 x 4" ++ nl ++ "Sequential: ... Time: 10.0 ms" ++ nl
  ++ "  2   5.0   2.00   100.0%".

Definition dup_headers : string :=
  "Matrix size: 4 x 4" ++ nl ++ "Matrix size: 8 x 8" ++ nl
  ++ "Matrix size: 4 x 4".

(** A marker with no size header in sight. *)
Definition lone_marker : string := "Sequential: Time: 1 ms".

(** A table row ahead of the first size header. *)
Definition early_row : string :=
  "  2   5.0   2.00   100.0%" ++ nl ++ "Matrix size: 4 x 4" ++ nl
  ++ "  3   1.5   2.00   100.0%".



(** Times with two dots or with no digit. *)
Definition bad_time : string := "Sequential: Time: 1.2.3 ms".

Definition bad_row : string :=
  "Matrix size: 4 x 4" ++ nl ++ "  2   .   2.00   100.0%".

(** Two sizes, the second without a row for 2 threads. *)
Definition two_sizes : string :=
  "Matrix size: 4 x 4" ++ nl ++ "Sequential: Time: 10.0 ms" ++ nl
  ++ "  2   5.0   2.00   100.0%" ++ nl
  ++ "Matrix size: 8 x 8" ++ nl ++ "Sequential: Time: 20.0 ms".

(** A size and a row, and no sequential time. *)
Definition missing_time : string :=
  "Matrix size: 4 x 4" ++ nl ++ "  2   5.0   2.00   100.0%".

(** Two sizes, the second with a parallel time of 0.0. *)
Definition zero_time : string :=
  "Matrix size: 4 x 4" ++ nl ++ "Sequential: Time: 10.0 ms" ++ nl
  ++ "  2   5.0   2.00   100.0%" ++ nl
  ++ "Matrix size: 8 x 8" ++ nl ++ "Sequential: Time: 20.0 ms" ++ nl
  ++ "  2   0.0   0.00   0.0%".


(** ** Further readings of the source *)

(** Two lines in which the loop sees the same: the same size match, the
    same marker test, the same time match and the same row match. *)
Definition same_shape (l l' : string) : Prop :=
  re_search size_re l = re_search size_re l'
  /\ is_marker l = is_marker l'
  /\ re_search time_re l = re_search time_re l'
  /\ re_match thread_re l = re_match thread_re l'.

(** The tokens of a line that [float] may be applied to: the time of the
    time pattern and the second group of the row pattern. *)
Definition captured_times (line : string) : list string :=
  (option_list (time_token line)
   ++ option_list ((fun gs => group gs 2) <$> re_match thread_re line))%list.

(** The tokens of a line that [int] may be applied to: the size of the
    size pattern and the first group of the row pattern. *)
Definition captured_ints (line : string) : list string :=
  (option_list ((fun gs => group gs 1) <$> re_search size_re line)
   ++ option_list ((fun gs => group gs 1) <$> re_match thread_re line))%list.

(** A line with a number the parser cannot read: a time [float] refuses,
    or a size or thread count of more digits than [int] accepts. *)
Definition unreadable (line : string) : Prop :=
  (exists tok, tok ∈ captured_times line /\ py_float tok = Raise ValueError)
  \/ (exists tok, tok ∈ captured_ints line
        /\ int_max_str_digits < Z.of_nat (String.length tok)).

(** [parallel_results[threads][size]], [None] when either key is
    missing. *)
Definition recorded (pr : gmap Z (gmap Z float)) (threads size : Z)
    : option float :=
  pr !! threads ≫= (fun inner => inner !! size).

(** The current size after a line. *)
Definition next_size (cur : option Z) (line : string) : option Z :=
  match header_of line with
  | Some n => Some n
  | None => cur
  end.

(** The table row of a line, under the current size: the size and the
    two tokens that are read. *)
Definition row_of (cur : option Z) (line : string)
    : option (Z * string * string) :=
  match re_match thread_re line, cur with
  | Some gs, Some n => Some (n, group gs 1, group gs 2)
  | _, _ => None
  end.

(** The table rows of the input, each under the size of the closest
    size header at or before its line. *)
Fixpoint row_events (cur : option Z) (lines : list string)
    : list (Z * string * string) :=
  match lines with
  | [] => []
  | line :: rest =>
      let cur' := next_size cur line in
      (option_list (row_of cur' line) ++ row_events cur' rest)%list
  end.

(** A row as read: size, thread count and time. *)
Definition reads_row (ev : Z * string * string) (r : Z * Z * float) : Prop :=
  ev.1.1 = r.1.1 /\ py_int ev.1.2 = Ok r.1.2 /\ py_float ev.2 = Ok r.2.

(** Rows filed one after the other. *)
Definition file_rows (pr : gmap Z (gmap Z float)) (rows : list (Z * Z * float))
    : gmap Z (gmap Z float) :=
  foldl (fun pr r => record_time pr r.1.2 r.1.1 r.2) pr rows.

(** ["\n".join(lines)] *)
Fixpoint join_lines (lines : list string) : string :=
  match lines with
  | [] => EmptyString
  | [l] => l
  | l :: ls => l ++ nl ++ join_lines ls
  end.

(** Inputs for the witnesses. *)
Definition chatter : string := "hello" ++ nl ++ "Iterations: 12".

Definition zero_threads : string :=
  "Matrix size: 4 x 4" ++ nl ++ "Sequential: Time: 10.0 ms" ++ nl
  ++ "  0   5.0   2.00   100.0%".

(** What the scan keeps between turns: recorded sizes are known sizes,
    a known thread count has a recorded time, and the current size is a
    known size. *)
Definition rows_known (st : scan) : Prop :=
  (forall threads size t,
     recorded (parallel_results (data st)) threads size = Some t ->
     size ∈ sizes (data st))
  /\ (forall threads,
        is_Some (parallel_results (data st) !! threads) ->
        exists size t,
          recorded (parallel_results (data st)) threads size = Some t)
  /\ (forall size, current_size st = Some size -> size ∈ sizes (data st)).

(** A printed row shows a size of the dataset with its sequential time
    and one cell per thread count of the header. *)
Definition row_shown (d : dataset) (ev : event) : Prop :=
  match ev with
  | PrintRow size s cells =>
      exists idx,
        sizes d !! idx = Some size
        /\ sequential_times d !! idx = Some s
        /\ mapM (table_cell d idx size) (sorted_keys (parallel_results d))
           = Ok cells
        /\ length cells = length (sorted_keys (parallel_results d))
  | _ => True
  end.

(** The lines of the table up to its rows. *)
Definition table_head (d : dataset) : list event :=
  [Print (nl ++ str_repeat "=" 80);
   Print "PERFORMANCE SUMMARY TABLE";
   Print (str_repeat "=" 80);
   PrintHeader (sorted_keys (parallel_results d));
   Print (str_repeat "-" 80)].

(** The calls of the figure of [d], each with the data the source gives
    it. *)
Definition figure_call (d : dataset) (c : call) : Prop :=
  let thread_counts := sorted_keys (parallel_results d) in
  match c with
  | Subplots | Colorbar | TightLayout | ShowFigure => True
  | Colors n => n = length thread_counts
  | BarSequential positions heights =>
      positions = length (sizes d) /\ heights = sequential_times d
  | BarParallel positions idx threads heights =>
      positions = length (sizes d)
      /\ thread_counts !! idx = Some threads
      /\ bar_times d threads = Ok (threads, heights)
  | DecorateBars szs => szs = sizes d
  | PlotLine p xs ys size =>
      xs = thread_counts
      /\ exists idx,
           sizes d !! idx = Some size
           /\ mapM (match p with
                    | SpeedupPanel => chart_speedup d idx size
                    | EfficiencyPanel => chart_efficiency d idx size
                    end) thread_counts = Ok ys
  | PlotIdeal xs => xs = thread_counts
  | DecorateLines _ xs => xs = thread_counts
  | Imshow matrix =>
      exists series,
        per_size (chart_speedup d) thread_counts (sizes d) = Ok series
        /\ matrix = series.*2
  | DecorateHeatmap xs szs => xs = thread_counts /\ szs = sizes d
  | Annotate j i v =>
      exists size threads,
        sizes d !! i = Some size /\ thread_counts !! j = Some threads
        /\ chart_speedup d i size threads = Ok v
  | Savefig file => file = "jacobi_performance.png"
  end.

(** The calls made before the efficiencies are computed (lines 87-138). *)
Definition before_efficiency (c : call) : bool :=
  match c with
  | Subplots | Colors _ | BarSequential _ _ | BarParallel _ _ _ _
  | DecorateBars _ | PlotLine SpeedupPanel _ _ _ | PlotIdeal _
  | DecorateLines SpeedupPanel _ => true
  | _ => false
  end.

(** A thread count the efficiency can be divided by: as a float it is
    finite and not zero. *)
Definition divisor_ok (threads : Z) : Prop :=
  exists f, int_to_float threads = Ok f /\ PrimFloat.eqb f PrimFloat.zero = false.

(** The first character of [s], if any, is not in the class. *)
Definition starts_outside (cls : ascii -> bool) (s : string) : Prop :=
  match s with
  | EmptyString => True
  | String c _ => cls c = false
  end.

(** The character [c0] does not occur in [s]. *)
Definition free_of (c0 : ascii) (s : string) : bool :=
  all_in (fun c => negb (Ascii.eqb c0 c)) s.

(** A block of the report in the benchmark's layout: a size header, the
    sequential line and one table row. *)
Definition header_line (g : string) : string :=
  "Matrix size: " ++ g ++ " x " ++ g.

Definition sequential_line (tok : string) : string :=
  "Sequential: Time: " ++ tok ++ " ms".

Definition row_line (th tm a b : string) : string :=
  "  " ++ th ++ "   " ++ tm ++ "   " ++ a ++ "   " ++ b ++ "%".

(** A size header whose numeral has one digit more than [int] accepts. *)
Definition long_size : string := header_line (str_repeat "1" 4301).

(** A scan with one more sequential time. *)
Definition with_time (st : scan) (t : float) : scan :=
  Scan (Dataset (sizes (data st)) (sequential_times (data st) ++ [t])
                (parallel_results (data st)))
       (current_size st) (Some t).

(** A line that is a marker and nothing else, and a line that holds a
    time and nothing else. *)
Definition marker_only (l : string) : Prop :=
  re_search size_re l = None /\ is_marker l = true
  /\ time_token l = None /\ re_match thread_re l = None.

Definition time_only (l : string) (tok : string) : Prop :=
  re_search size_re l = None /\ is_marker l = false
  /\ time_token l = Some tok /\ re_match thread_re l = None.

(** ** Basic facts *)

Lemma bind_Ok {A B} (m : result A) (f : A -> result B) (b : B) :
  m ≫= f = Ok b <-> exists a, m = Ok a /\ f a = Ok b.
Proof.
  destruct m as [a|e]; simpl; split.
  - intros H. exists a. auto.
  - intros (a' & Ha & Hf). injection Ha as ->. exact Hf.
  - discriminate.
  - intros (a' & Ha & _). discriminate.
Qed.

Ltac inv_bind H :=
  let a := fresh "a" in
  let Ha := fresh "Ha" in
  apply bind_Ok in H; destruct H as (a & Ha & H).


Section ScanFacts.

Lemma on_size_None st line :
  re_search size_re line = None -> on_size st line = Ok st.
Proof. unfold on_size. intros ->. reflexivity. Qed.

Lemma on_size_inv st line st' :
  on_size st line = Ok st' ->
  sequential_times (data st') = sequential_times (data st)
  /\ parallel_results (data st') = parallel_results (data st)
  /\ seq_time st' = seq_time st
  /\ match header_of line with
     | Some n => current_size st' = Some n
                 /\ sizes (data st') = add_size (sizes (data st)) n
     | None => st' = st
     end.
Proof.
  unfold on_size, header_of, add_size.
  destruct (re_search size_re line) as [gs|].
  - destruct (py_int (group gs 1)) as [n|e]; simpl; [|discriminate].
    intros [= <-]. simpl.
    destruct (bool_decide (n ∈ sizes (data st))); auto.
  - intros [= <-]. auto.
Qed.

Lemma find_time_inv st window st' :
  find_time st window = Ok st' ->
  sizes (data st') = sizes (data st)
  /\ parallel_results (data st') = parallel_results (data st)
  /\ current_size st' = current_size st
  /\ match first_token window with
     | Some tok => exists t, py_float tok = Ok t
                   /\ sequential_times (data st')
                      = (sequential_times (data st) ++ [t])%list
                   /\ seq_time st' = Some t
     | None => st' = st
     end.
Proof.
  induction window as [|lj w IH]; simpl.
  - intros [= <-]. auto.
  - unfold time_token.
    destruct (re_search time_re lj) as [gs|]; simpl; [|exact IH].
    destruct (py_float (group gs 1)) as [t|e]; simpl; [|discriminate].
    intros [= <-]. simpl. eauto 8.
Qed.

Lemma on_sequential_inv st line window st' :
  on_sequential st line window = Ok st' ->
  sizes (data st') = sizes (data st)
  /\ parallel_results (data st') = parallel_results (data st)
  /\ current_size st' = current_size st
  /\ match (if is_marker line then first_token window else None) with
     | Some tok => exists t, py_float tok = Ok t
                   /\ sequential_times (data st')
                      = (sequential_times (data st) ++ [t])%list
                   /\ seq_time st' = Some t
     | None => st' = st
     end.
Proof.
  unfold on_sequential, is_marker.
  destruct (contains "Sequential:" line).
  - apply find_time_inv.
  - intros [= <-]. auto.
Qed.

Lemma on_row_inv st line st' :
  on_row st line = Ok st' ->
  sizes (data st') = sizes (data st)
  /\ sequential_times (data st') = sequential_times (data st)
  /\ current_size st' = current_size st
  /\ seq_time st' = seq_time st
  /\ (current_size st = None -> st' = st).
Proof.
  unfold on_row.
  destruct (re_match thread_re line) as [gs|], (current_size st) as [size|] eqn:Hc;
    try (intros [= <-]; auto 6; fail).
  intros H. inv_bind H. inv_bind H. injection H as <-. simpl.
  repeat split; auto. discriminate.
Qed.

End ScanFacts.

(** ** What the scan accumulates *)


Lemma step_inv st line window st' :
  step st line window = Ok st' ->
  sizes (data st')
    = match header_of line with
      | Some n => add_size (sizes (data st)) n
      | None => sizes (data st)
      end
  /\ (exists ts, reads (turn_tokens line window) ts
       /\ sequential_times (data st') = (sequential_times (data st) ++ ts)%list)
  /\ current_size st'
    = match header_of line with
      | Some n => Some n
      | None => current_size st
      end
  /\ (header_of line = None -> current_size st = None ->
      parallel_results (data st') = parallel_results (data st)).
Proof.
  unfold step. intros H.
  apply bind_Ok in H as (st1 & H1 & H). apply bind_Ok in H as (st2 & H2 & H3).
  apply on_size_inv in H1 as (Hq1 & Hp1 & _ & Hh).
  apply on_sequential_inv in H2 as (Hs2 & Hp2 & Hc2 & Ht).
  apply on_row_inv in H3 as (Hs3 & Hq3 & Hc3 & _ & Hn3).
  assert (Hseq : exists ts, reads (turn_tokens line window) ts
            /\ sequential_times (data st2)
               = (sequential_times (data st1) ++ ts)%list).
  { unfold turn_tokens.
    destruct (if is_marker line then first_token window else None) as [tok|] eqn:E.
    - destruct Ht as (t & Hf & Hq & _). exists [t]. split; [|exact Hq].
      destruct (is_marker line); [|discriminate]. rewrite E. simpl.
      constructor; [exact Hf|constructor].
    - subst st2. exists []. rewrite app_nil_r. split; [|reflexivity].
      destruct (is_marker line); [rewrite E|]; constructor. }
  destruct Hseq as (ts & Hr & Hq2).
  rewrite Hs3, Hs2, Hq3, Hq2, Hq1, Hc3, Hc2.
  destruct (header_of line) as [n|].
  - destruct Hh as (Hc & Hs). rewrite Hs, Hc. repeat split; eauto. discriminate.
  - subst st1. repeat split; eauto.
    intros _ Hnone. rewrite Hn3; [exact Hp2|]. rewrite Hc2. exact Hnone.
Qed.

Lemma scan_lines_sizes lines : forall st st',
  scan_lines st lines = Ok st' ->
  sizes (data st') = foldl add_size (sizes (data st)) (headers lines).
Proof.
  induction lines as [|line rest IH]; intros st st' H; simpl in H.
  - injection H as <-. reflexivity.
  - apply bind_Ok in H as (st1 & H1 & H). apply IH in H. rewrite H.
    apply step_inv in H1 as (Hs & _). rewrite Hs.
    unfold headers. simpl. destruct (header_of line); reflexivity.
Qed.

Lemma scan_lines_times lines : forall st st',
  scan_lines st lines = Ok st' ->
  exists ts, reads (marker_tokens lines) ts
    /\ sequential_times (data st') = (sequential_times (data st) ++ ts)%list.
Proof.
  induction lines as [|line rest IH]; intros st st' H; simpl in H.
  - injection H as <-. exists []. rewrite app_nil_r. split; [constructor|reflexivity].
  - apply bind_Ok in H as (st1 & H1 & H).
    apply IH in H as (ts2 & Hr2 & Hq2).
    apply step_inv in H1 as (_ & (ts1 & Hr1 & Hq1) & _).
    exists (ts1 ++ ts2)%list. split.
    + simpl. apply Forall2_app; assumption.
    + rewrite Hq2, Hq1, app_assoc. reflexivity.
Qed.

(** *** First-seen order *)

Lemma first_seen_NoDup l : NoDup (first_seen l).
Proof.
  induction l as [|x l IH]; simpl; constructor.
  - rewrite list_elem_of_filter. intros [Hne _]. apply Hne. reflexivity.
  - apply NoDup_filter. exact IH.
Qed.

Lemma filter_not_in_snoc (acc : list Z) (h : Z) (l : list Z) :
  filter (fun x => x ∉ (acc ++ [h])%list) l
  = filter (fun x => x ∉ acc) (filter (fun y => y ≠ h) l).
Proof.
  induction l as [|y l IH]; [reflexivity|].
  rewrite (filter_cons (fun y => y ≠ h)).
  destruct (decide (y ≠ h)) as [Hne|Heq].
  - rewrite !filter_cons. rewrite IH.
    destruct (decide (y ∉ acc)) as [Hn|Hi].
    + rewrite decide_True; [reflexivity|].
      rewrite elem_of_app, list_elem_of_singleton. tauto.
    + rewrite decide_False; [reflexivity|].
      rewrite elem_of_app. tauto.
  - rewrite filter_cons, IH. rewrite decide_False; [reflexivity|].
    rewrite elem_of_app, list_elem_of_singleton.
    destruct (decide (y = h)); tauto.
Qed.

Lemma filter_not_in_known (acc : list Z) (h : Z) (l : list Z) :
  h ∈ acc ->
  filter (fun x => x ∉ acc) (filter (fun y => y ≠ h) l)
  = filter (fun x => x ∉ acc) l.
Proof.
  intros Hin. induction l as [|y l IH]; [reflexivity|].
  rewrite (filter_cons (fun y => y ≠ h)).
  destruct (decide (y ≠ h)) as [Hne|Heq].
  - rewrite !filter_cons, IH. reflexivity.
  - assert (y = h) as -> by (destruct (decide (y = h)); tauto).
    rewrite filter_cons, decide_False; [exact IH|]. tauto.
Qed.

Lemma foldl_add_size hs : forall acc,
  foldl add_size acc hs
  = (acc ++ filter (fun x => x ∉ acc) (first_seen hs))%list.
Proof.
  induction hs as [|h hs IH]; intros acc; simpl.
  - rewrite app_nil_r. reflexivity.
  - rewrite IH. unfold add_size. rewrite filter_cons.
    destruct (decide (h ∈ acc)) as [Hin|Hout].
    + rewrite bool_decide_true by exact Hin.
      rewrite decide_False by tauto.
      rewrite filter_not_in_known by exact Hin. reflexivity.
    + rewrite bool_decide_false by exact Hout.
      rewrite decide_True by exact Hout.
      rewrite filter_not_in_snoc, <- app_assoc. reflexivity.
Qed.

Lemma filter_not_in_nil (l : list Z) : filter (fun x => x ∉ @nil Z) l = l.
Proof.
  induction l as [|y l IH]; [reflexivity|].
  rewrite filter_cons, decide_True, IH; [reflexivity|]. apply not_elem_of_nil.
Qed.

Lemma parse_lines_inv lines d :
  parse_lines lines = Ok d ->
  exists st, scan_lines scan_init lines = Ok st /\ data st = d.
Proof.
  unfold parse_lines. intros H. apply bind_Ok in H as (st & Hs & [= <-]). eauto.
Qed.

Lemma marker_tokens_length lines :
  (length (marker_tokens lines) <= length (filter (fun l => is_marker l = true) lines))%nat.
Proof.
  induction lines as [|line rest IH]; [reflexivity|].
  cbn [marker_tokens]. rewrite length_app, filter_cons.
  destruct (is_marker line) eqn:E.
  - rewrite decide_True by reflexivity.
    destruct (first_token (take 5 (line :: rest))); simpl; lia.
  - rewrite decide_False by discriminate. simpl. exact IH.
Qed.


(** *** Rows and sizes do not depend on the sequential times *)

Lemma on_size_same_rows st1 st2 line r1 :
  same_rows st1 st2 -> on_size st1 line = Ok r1 ->
  exists r2, on_size st2 line = Ok r2 /\ same_rows r1 r2.
Proof.
  intros (Hs & Hp & Hc). unfold on_size.
  destruct (re_search size_re line) as [gs|].
  - destruct (py_int (group gs 1)) as [n|e]; simpl; [|discriminate].
    intros [= <-]. eexists. split; [reflexivity|].
    unfold same_rows. simpl. rewrite <- Hs.
    destruct (bool_decide (n ∈ sizes (data st1))); simpl; auto.
  - intros [= <-]. exists st2. unfold same_rows. auto.
Qed.

Lemma find_time_same_rows w : forall st1 st2 r1,
  same_rows st1 st2 -> find_time st1 w = Ok r1 ->
  exists r2, find_time st2 w = Ok r2 /\ same_rows r1 r2.
Proof.
  induction w as [|lj w IH]; intros st1 st2 r1 Hrel; simpl.
  - intros [= <-]. eauto.
  - destruct (re_search time_re lj) as [gs|]; [|apply IH; exact Hrel].
    destruct (py_float (group gs 1)) as [t|e]; simpl; [|discriminate].
    intros [= <-]. eexists. split; [reflexivity|].
    destruct Hrel as (Hs & Hp & Hc). unfold same_rows. simpl. auto.
Qed.

Lemma on_row_same_rows st1 st2 line r1 :
  same_rows st1 st2 -> on_row st1 line = Ok r1 ->
  exists r2, on_row st2 line = Ok r2 /\ same_rows r1 r2.
Proof.
  intros (Hs & Hp & Hc). unfold on_row. rewrite <- Hc.
  destruct (re_match thread_re line) as [gs|],
           (current_size st1) as [size|] eqn:E;
    try (intros [= <-]; exists st2; unfold same_rows; rewrite E; auto; fail).
  destruct (py_int (group gs 1)) as [n|e]; simpl; [|discriminate].
  destruct (py_float (group gs 2)) as [t|e]; simpl; [|discriminate].
  intros [= <-]. eexists. split; [reflexivity|].
  unfold same_rows. simpl. rewrite Hp, Hs. auto.
Qed.

Lemma step_same_rows st1 st2 line w r1 :
  same_rows st1 st2 -> step st1 line w = Ok r1 ->
  exists r2, step st2 line w = Ok r2 /\ same_rows r1 r2.
Proof.
  intros Hrel H. unfold step in *.
  apply bind_Ok in H as (a1 & H1 & H). apply bind_Ok in H as (b1 & H2 & H3).
  destruct (on_size_same_rows _ _ _ _ Hrel H1) as (a2 & -> & Ha). simpl.
  assert (exists b2, on_sequential a2 line w = Ok b2 /\ same_rows b1 b2)
    as (b2 & -> & Hb).
  { unfold on_sequential in *. destruct (contains "Sequential:" line).
    - eapply find_time_same_rows; eassumption.
    - injection H2 as <-. eauto. }
  simpl. eapply on_row_same_rows; eassumption.
Qed.

Lemma scan_lines_same_rows lines : forall st1 st2 r1,
  same_rows st1 st2 -> scan_lines st1 lines = Ok r1 ->
  exists r2, scan_lines st2 lines = Ok r2 /\ same_rows r1 r2.
Proof.
  induction lines as [|line rest IH]; intros st1 st2 r1 Hrel H; simpl in *.
  - injection H as <-. eauto.
  - apply bind_Ok in H as (a1 & H1 & H).
    destruct (step_same_rows _ _ _ _ _ Hrel H1) as (a2 & -> & Ha). simpl.
    eapply IH; eassumption.
Qed.

Lemma header_of_no_match line :
  re_search size_re line = None -> header_of line = None.
Proof. unfold header_of. intros ->. reflexivity. Qed.

(** *** What a group captures *)

Lemma string_app_nil_r (s : string) : s ++ "" = s.
Proof.
  induction s as [|c s IH]; [reflexivity|].
  change (String c s ++ "") with (String c (s ++ "")). rewrite IH. reflexivity.
Qed.

Lemma string_app_assoc (a b c : string) : (a ++ b) ++ c = a ++ (b ++ c).
Proof.
  induction a as [|x a IH]; [reflexivity|].
  change (String x ((a ++ b) ++ c) = String x (a ++ (b ++ c))).
  rewrite IH. reflexivity.
Qed.

Lemma star_inv {R} cls (k : string -> string -> option R) r : forall s taken,
  star cls taken s k = Some r ->
  exists more s', k (taken ++ more) s' = Some r /\ all_in cls more = true.
Proof.
  induction s as [|c s IH]; intros taken H; simpl in H.
  - exists "", "". rewrite string_app_nil_r. auto.
  - destruct (cls c) eqn:Hc.
    + destruct (star cls (taken ++ String c "") s k) as [r'|] eqn:E.
      * injection H as ->. apply IH in E as (more & s' & Hk & Hall).
        exists (String c more), s'. rewrite string_app_assoc in Hk.
        split; [exact Hk|]. cbn [all_in]. rewrite Hc. exact Hall.
      * exists "", (String c s). rewrite string_app_nil_r. auto.
    + exists "", (String c s). rewrite string_app_nil_r. auto.
Qed.

Lemma plus_inv {R} cls (k : string -> string -> option R) r s :
  plus cls s k = Some r ->
  exists g s', k g s' = Some r /\ all_in cls g = true /\ g <> "".
Proof.
  unfold plus. destruct s as [|c s]; [discriminate|].
  destruct (cls c) eqn:Hc; [|discriminate].
  intros H. apply star_inv in H as (more & s' & Hk & Hall).
  exists (String c more), s'. split; [exact Hk|]. split; [|discriminate].
  cbn [all_in]. rewrite Hc. exact Hall.
Qed.

Lemma re_search_run p gs : forall s,
  re_search p s = Some gs -> exists s', run p s' = Some gs.
Proof.
  induction s as [|c s IH]; simpl; intros H.
  - destruct (run p "") eqn:E; [|discriminate]. injection H as ->. eauto.
  - destruct (run p (String c s)) eqn:E; [injection H as ->; eauto|].
    apply IH. exact H.
Qed.

Lemma py_int_digits g :
  all_in is_digit g = true -> g <> "" ->
  Z.of_nat (String.length g) <= int_max_str_digits ->
  py_int g = Ok (digits_value 0 g).
Proof.
  intros Hall Hne Hlen. unfold py_int, all_digits.
  destruct g as [|c g]; [congruence|].
  rewrite Hall. apply Z.leb_le in Hlen. rewrite Hlen. reflexivity.
Qed.

Lemma py_int_long g :
  int_max_str_digits < Z.of_nat (String.length g) -> py_int g = Raise ValueError.
Proof.
  intros Hlen. unfold py_int. destruct g as [|c g]; [reflexivity|].
  destruct (all_digits (String c g)); [|reflexivity].
  apply Z.leb_gt in Hlen. rewrite Hlen. reflexivity.
Qed.

(** [int] raises nothing but [ValueError], and on a numeral only for its
    length. *)
Lemma py_int_raises g e :
  py_int g = Raise e ->
  e = ValueError
  /\ (all_in is_digit g = true -> g <> "" ->
      int_max_str_digits < Z.of_nat (String.length g)).
Proof.
  unfold py_int, all_digits. destruct g as [|c g].
  - intros [= <-]. split; [reflexivity|congruence].
  - destruct (all_in is_digit (String c g)).
    + destruct (Z.leb_spec (Z.of_nat (String.length (String c g)))
                           int_max_str_digits) as [Hle|Hgt]; [discriminate|].
      intros [= <-]. split; [reflexivity|]. intros _ _. exact Hgt.
    + intros [= <-]. split; [reflexivity|discriminate].
Qed.

(** The group of a size header is a numeral. *)
Lemma size_group_numeral line gs :
  re_search size_re line = Some gs ->
  all_in is_digit (group gs 1) = true /\ group gs 1 <> "".
Proof.
  intros H. apply re_search_run in H as (s & H).
  unfold size_re in H. cbn [run] in H.
  destruct (lit "Matrix size:" s) as [s1|]; [|discriminate].
  apply star_inv in H as (_ & s2 & H & _).
  apply plus_inv in H as (g & s3 & H & Hall & Hne).
  destruct (star is_space "" s3 _) as [gs'|]; [|discriminate].
  injection H as <-. split; assumption.
Qed.

(** [int] reads it unless it is longer than the limit. *)
Lemma size_group_int line gs :
  re_search size_re line = Some gs ->
  Z.of_nat (String.length (group gs 1)) <= int_max_str_digits ->
  py_int (group gs 1) = Ok (digits_value 0 (group gs 1)).
Proof.
  intros H Hlen. destruct (size_group_numeral _ _ H) as (Hall & Hne).
  apply py_int_digits; assumption.
Qed.

Lemma on_size_raises st line e :
  on_size st line = Raise e ->
  e = ValueError
  /\ exists gs, re_search size_re line = Some gs
       /\ int_max_str_digits < Z.of_nat (String.length (group gs 1)).
Proof.
  unfold on_size. destruct (re_search size_re line) as [gs|] eqn:E; [|discriminate].
  destruct (py_int (group gs 1)) as [n|e'] eqn:Hint; [discriminate|].
  intros [= <-]. apply py_int_raises in Hint as (-> & Hlong).
  split; [reflexivity|]. exists gs. split; [reflexivity|].
  destruct (size_group_numeral _ _ E) as (Hall & Hne). auto.
Qed.

Lemma header_of_None line :
  header_of line = None <->
  re_search size_re line = None
  \/ exists gs, re_search size_re line = Some gs
       /\ int_max_str_digits < Z.of_nat (String.length (group gs 1)).
Proof.
  unfold header_of. destruct (re_search size_re line) as [gs|] eqn:E.
  - destruct (size_group_numeral _ _ E) as (Hall & Hne). split.
    + destruct (py_int (group gs 1)) as [n|e] eqn:Hint; [discriminate|].
      intros _. right. exists gs. split; [reflexivity|].
      apply py_int_raises in Hint as (_ & Hlong). auto.
    + intros [H|(gs' & [= <-] & Hlong)]; [discriminate|].
      rewrite (py_int_long _ Hlong). reflexivity.
  - split; [auto|reflexivity].
Qed.

(** Lines scanned before any size header leave sizes, rows and the
    current size as they were. *)
Lemma scan_lines_before_header pre post : forall st r,
  no_header pre -> current_size st = None ->
  scan_lines st (pre ++ post) = Ok r ->
  exists st', scan_lines st' post = Ok r /\ same_rows st st'.
Proof.
  induction pre as [|line pre IH]; intros st r Hpre Hc H.
  - exists st. split; [exact H|]. unfold same_rows. auto.
  - apply Forall_cons in Hpre as (Hl & Hpre).
    apply header_of_no_match in Hl.
    cbn [app scan_lines] in H. apply bind_Ok in H as (st1 & H1 & H).
    apply step_inv in H1 as (Hs & _ & Hc1 & Hp). rewrite Hl in *.
    specialize (Hp eq_refl Hc).
    destruct (IH st1 r Hpre) as (st' & Hscan & (Hs' & Hp' & Hc')).
    { rewrite Hc1. exact Hc. }
    { exact H. }
    exists st'. split; [exact Hscan|].
    unfold same_rows. rewrite <- Hs', <- Hp', <- Hc'. auto.
Qed.

(** *** The window of a marker *)

Lemma time_token_None line :
  time_token line = None <-> re_search time_re line = None.
Proof.
  unfold time_token. destruct (re_search time_re line); simpl; split;
    congruence.
Qed.

Lemma find_time_first before : forall st lj after tok t,
  Forall (fun l => time_token l = None) before ->
  time_token lj = Some tok -> py_float tok = Ok t ->
  find_time st (before ++ lj :: after)
  = Ok (Scan (Dataset (sizes (data st)) (sequential_times (data st) ++ [t])
                      (parallel_results (data st)))
             (current_size st) (Some t)).
Proof.
  induction before as [|l before IH]; intros st lj after tok t Hb Hl Hf.
  - simpl. unfold time_token in Hl.
    destruct (re_search time_re lj) as [gs|]; [|discriminate].
    injection Hl as <-. rewrite Hf. reflexivity.
  - apply Forall_cons in Hb as (H0 & Hb). apply time_token_None in H0.
    simpl. rewrite H0. eapply IH; eassumption.
Qed.


(** *** Lines of no recognised shape *)

Lemma step_unclassified st line window :
  unclassified line -> step st line window = Ok st.
Proof.
  intros (Hs & Hm & _ & Hr). unfold step, on_size, on_sequential, on_row.
  unfold is_marker in Hm. rewrite Hs, Hm, Hr. reflexivity.
Qed.

Lemma find_time_unclassified st line window :
  unclassified line -> find_time st (line :: window) = find_time st window.
Proof.
  intros (_ & _ & Ht & _). apply time_token_None in Ht.
  simpl. rewrite Ht. reflexivity.
Qed.

(** *** Floats *)

Lemma positive_nonzero (t : float) :
  PrimFloat.ltb PrimFloat.zero t = true -> PrimFloat.eqb t PrimFloat.zero = false.
Proof.
  rewrite FloatAxioms.ltb_spec, FloatAxioms.eqb_spec.
  change (FloatOps.Prim2SF PrimFloat.zero) with (SpecFloat.S754_zero false).
  destruct (FloatOps.Prim2SF t) as [[|]|[|]| |[|] m e]; cbv; congruence.
Qed.

Lemma truediv_positive (s t : float) :
  gt0 (PFloat t) = true ->
  truediv (PFloat s) (PFloat t) = Ok (PFloat (PrimFloat.div s t)).
Proof.
  simpl. intros H. unfold float_truediv.
  rewrite (positive_nonzero t H). reflexivity.
Qed.

(** *** The metric *)

Lemma sorted_keys_elem (pr : gmap Z (gmap Z float)) (threads : Z) :
  threads ∈ sorted_keys pr <-> is_Some (pr !! threads).
Proof.
  unfold sorted_keys. rewrite merge_sort_Permutation.
  rewrite elem_of_elements. apply elem_of_dom.
Qed.

Lemma speedup_of_zero seq_times idx par_time :
  gt0 par_time = false -> speedup_of seq_times idx par_time = Ok (PInt 0).
Proof. unfold speedup_of. intros ->. reflexivity. Qed.

Lemma speedup_of_positive seq_times idx (s t : float) :
  gt0 (PFloat t) = true -> seq_times !! idx = Some s ->
  speedup_of seq_times idx (PFloat t) = Ok (PFloat (PrimFloat.div s t)).
Proof.
  intros Hgt Hs. unfold speedup_of, getitem. rewrite Hgt, Hs. simpl.
  unfold float_truediv. rewrite (positive_nonzero t Hgt). reflexivity.
Qed.

(** With a sequential time at hand a cell of the table never raises. *)
Lemma table_cell_ok d idx size threads s :
  sequential_times d !! idx = Some s ->
  is_Some (parallel_results d !! threads) ->
  exists cell, table_cell d idx size threads = Ok cell.
Proof.
  intros Hs [inner Hi]. unfold table_cell, get_time. rewrite Hi. simpl.
  destruct (inner !! size) as [t|].
  - destruct (gt0 (PFloat t)) eqn:E.
    + rewrite (speedup_of_positive _ _ s t E Hs). simpl. eauto.
    + rewrite speedup_of_zero by exact E. simpl. eauto.
  - rewrite speedup_of_zero by reflexivity. simpl. eauto.
Qed.

Lemma mapM_ok {A B} (f : A -> result B) (l : list A) :
  (forall x, x ∈ l -> exists y, f x = Ok y) ->
  exists ys, mapM f l = Ok ys.
Proof.
  induction l as [|x l IH]; intros H; simpl.
  - eexists. reflexivity.
  - destruct (H x) as (y & ->); [left|].
    destruct IH as (ys & ->); [intros; apply H; right; assumption|].
    simpl. eexists. reflexivity.
Qed.

(** *** Traces *)

Lemma outcome_bind {A B} (m : io A) (f : A -> io B) :
  outcome (m ≫= f)
  = match outcome m with
    | Ok a => outcome (f a)
    | Raise e => Raise e
    end.
Proof. unfold mbind, io_bind. destruct (outcome m); reflexivity. Qed.

Lemma trace_bind {A B} (m : io A) (f : A -> io B) :
  trace (m ≫= f)
  = match outcome m with
    | Ok a => (trace m ++ trace (f a))%list
    | Raise e => trace m
    end.
Proof. unfold mbind, io_bind. destruct (outcome m); reflexivity. Qed.

Lemma main_parse_raise draw output e :
  parse_output output = Raise e -> main draw output = IO preamble (Raise e).
Proof.
  intros H. unfold main, compile_and_run_parallel, lift, emit, mbind, io_bind, mret, io_ret.
  simpl. rewrite H. reflexivity.
Qed.

Lemma main_no_sizes draw output d :
  parse_output output = Ok d -> sizes d = [] ->
  main draw output = IO (preamble ++ diagnostic output) (Ok tt).
Proof.
  intros H Hs. unfold main, compile_and_run_parallel, lift, emit, mbind, io_bind, mret, io_ret.
  simpl. rewrite H. simpl. rewrite Hs. reflexivity.
Qed.

Lemma main_report draw output d :
  parse_output output = Ok d -> sizes d <> [] ->
  let report :=
    print_summary_table d;;
    emit (Print (nl ++ "Generating visualizations..."));;
    create_visualizations draw d in
  main draw output = IO (preamble ++ trace report) (outcome report).
Proof.
  intros H Hs report. subst report.
  unfold main, compile_and_run_parallel, lift.
  unfold mbind at 1 2 3 4 5 6. unfold io_bind. simpl.
  rewrite H. simpl. destruct (sizes d); [congruence|].
  match goal with |- context [outcome ?r] => destruct (outcome r) end;
    reflexivity.
Qed.

Lemma headers_no_header lines : no_header lines -> headers lines = [].
Proof.
  unfold headers. induction 1 as [|l ls Hl _ IH]; [reflexivity|].
  simpl. rewrite (header_of_no_match l Hl). exact IH.
Qed.

Lemma parse_no_header output d :
  no_header (split_lines output) -> parse_output output = Ok d -> sizes d = [].
Proof.
  intros Hn H. apply parse_lines_inv in H as (st & Hs & <-).
  apply scan_lines_sizes in Hs. rewrite Hs, (headers_no_header _ Hn).
  reflexivity.
Qed.

(** *** The summary table *)

Lemma table_row_ok d tcs idx size s :
  sequential_times d !! idx = Some s ->
  (forall threads, threads ∈ tcs -> is_Some (parallel_results d !! threads)) ->
  exists cells, table_row d tcs idx size = IO [PrintRow size s cells] (Ok tt).
Proof.
  intros Hs Hk. unfold table_row, getitem. rewrite Hs.
  destruct (mapM_ok (table_cell d idx size) tcs) as (cells & Hc).
  { intros threads Hin. eapply table_cell_ok; eauto. }
  exists cells. unfold lift, emit, mbind, io_bind. simpl. rewrite Hc. reflexivity.
Qed.

Lemma table_row_missing d tcs idx size :
  sequential_times d !! idx = None ->
  table_row d tcs idx size = IO [] (Raise IndexError).
Proof.
  intros Hs. unfold table_row, getitem. rewrite Hs. reflexivity.
Qed.

Lemma table_rows_short d tcs rest : forall i,
  (forall threads, threads ∈ tcs -> is_Some (parallel_results d !! threads)) ->
  (i <= length (sequential_times d))%nat ->
  (length (sequential_times d) < i + length rest)%nat ->
  outcome (table_rows d tcs (enumerate_from i rest)) = Raise IndexError.
Proof.
  induction rest as [|size rest IH]; intros i Hk Hle Hlt; simpl in *; [lia|].
  rewrite outcome_bind.
  destruct (sequential_times d !! i) as [s|] eqn:E.
  - destruct (table_row_ok d tcs i size s E Hk) as (cells & ->). simpl.
    apply lookup_lt_Some in E. apply IH; [exact Hk|lia|lia].
  - rewrite (table_row_missing _ _ _ _ E). reflexivity.
Qed.

Lemma table_row_trace d tcs idx size :
  Forall (fun ev => ~ is_figure ev) (trace (table_row d tcs idx size)).
Proof.
  unfold table_row, lift, emit, mbind, io_bind. simpl.
  destruct (getitem (sequential_times d) idx); simpl; [|constructor].
  destruct (mapM (table_cell d idx size) tcs); simpl; [|constructor].
  constructor; [|constructor]. intros (c & Hc). discriminate.
Qed.

Lemma table_rows_trace d tcs rows :
  Forall (fun ev => ~ is_figure ev) (trace (table_rows d tcs rows)).
Proof.
  induction rows as [|[idx size] rows IH]; simpl; [constructor|].
  rewrite trace_bind. pose proof (table_row_trace d tcs idx size) as Hr.
  destruct (outcome (table_row d tcs idx size)); [|exact Hr].
  apply Forall_app. split; assumption.
Qed.

Lemma print_neq_figure text : ~ is_figure (Print text).
Proof. intros (c & Hc). discriminate. Qed.

Lemma outcome_emit {B} (ev : event) (k : io B) :
  outcome (emit ev;; k) = outcome k.
Proof. reflexivity. Qed.

Lemma trace_emit {B} (ev : event) (k : io B) :
  trace (emit ev;; k) = ev :: trace k.
Proof. reflexivity. Qed.

Lemma print_summary_table_outcome d :
  outcome (print_summary_table d)
  = match outcome (table_rows d (sorted_keys (parallel_results d))
                     (enumerate_from 0 (sizes d))) with
    | Ok _ => Ok tt
    | Raise e => Raise e
    end.
Proof.
  unfold print_summary_table. rewrite !outcome_emit, outcome_bind.
  destruct (outcome (table_rows _ _ _)); reflexivity.
Qed.

Lemma print_summary_table_trace d :
  Forall (fun ev => ~ is_figure ev) (trace (print_summary_table d)).
Proof.
  unfold print_summary_table. rewrite !trace_emit, trace_bind.
  pose proof (table_rows_trace d (sorted_keys (parallel_results d))
                (enumerate_from 0 (sizes d))) as Hrows.
  repeat (constructor; [first [apply print_neq_figure
                              | intros (c & Hc); discriminate]|]).
  destruct (outcome (table_rows _ _ _)).
  - apply Forall_app. split; [exact Hrows|].
    constructor; [apply print_neq_figure|constructor].
  - exact Hrows.
Qed.

Lemma printed_rows_app evs1 evs2 :
  printed_rows (evs1 ++ evs2) = (printed_rows evs1 ++ printed_rows evs2)%list.
Proof. apply omap_app. Qed.

(** The rows printed are those of the sizes that have a sequential
    time. *)
Lemma table_rows_printed d tcs rest : forall i,
  (forall threads, threads ∈ tcs -> is_Some (parallel_results d !! threads)) ->
  (i <= length (sequential_times d))%nat ->
  printed_rows (trace (table_rows d tcs (enumerate_from i rest)))
  = take (length (sequential_times d) - i) rest.
Proof.
  induction rest as [|size rest IH]; intros i Hk Hle; simpl.
  - rewrite take_nil. reflexivity.
  - rewrite trace_bind.
    destruct (sequential_times d !! i) as [s|] eqn:E.
    + destruct (table_row_ok d tcs i size s E Hk) as (cells & ->).
      apply lookup_lt_Some in E. cbn [outcome trace].
      rewrite printed_rows_app, IH by (try exact Hk; lia).
      replace (length (sequential_times d) - i)%nat
        with (S (length (sequential_times d) - S i)) by lia.
      reflexivity.
    + rewrite (table_row_missing _ _ _ _ E). cbn [outcome trace].
      apply lookup_ge_None in E.
      replace (length (sequential_times d) - i)%nat with 0%nat by lia.
      reflexivity.
Qed.

Lemma print_summary_table_rows d :
  printed_rows (trace (print_summary_table d))
  = take (length (sequential_times d)) (sizes d).
Proof.
  unfold print_summary_table. rewrite !trace_emit, trace_bind.
  assert (Hrows := table_rows_printed d (sorted_keys (parallel_results d))
                     (sizes d) 0).
  rewrite Nat.sub_0_r in Hrows.
  specialize (Hrows (fun threads => proj1 (sorted_keys_elem _ threads))
                    (Nat.le_0_l _)).
  repeat match goal with
         | |- printed_rows (?ev :: ?evs) = _ =>
             change (printed_rows (ev :: evs)) with (printed_rows evs)
         end.
  destruct (outcome (table_rows _ _ _)).
  - rewrite printed_rows_app, Hrows. apply app_nil_r.
  - exact Hrows.
Qed.

Lemma preamble_trace : Forall (fun ev => ~ is_figure ev) preamble.
Proof. repeat constructor; apply print_neq_figure. Qed.

(** ** Sizes *)

(** C10: the sizes of a parsed dataset are pairwise distinct
    ([len(sizes) == len(set(sizes))]), they are the declared sizes of the
    [SizeHeader] lines in first-seen order, and a header that declares a
    size already in [sizes] makes it the current size and leaves the
    dataset as it is. *)
Theorem C10_sizes_distinct_first_seen (output : string) (d : dataset)
    (H : parse_output output = Ok d) :
  NoDup (sizes d)
  /\ length (sizes d) = size (list_to_set (sizes d) : gset Z)
  /\ sizes d = first_seen (headers (split_lines output))
  /\ (forall st line n,
        header_of line = Some n -> n ∈ sizes (data st) ->
        on_size st line = Ok (Scan (data st) (Some n) (seq_time st))).
Proof.
  apply parse_lines_inv in H as (st & Hs & <-).
  apply scan_lines_sizes in Hs. simpl in Hs.
  rewrite foldl_add_size, filter_not_in_nil in Hs. simpl in Hs.
  assert (Hnd : NoDup (sizes (data st))).
  { rewrite Hs. apply first_seen_NoDup. }
  split; [exact Hnd|]. split; [|split; [exact Hs|]].
  - symmetry. apply size_list_to_set. exact Hnd.
  - intros st0 line n Hh Hin. unfold header_of in Hh. unfold on_size.
    destruct (re_search size_re line) as [gs|]; [|discriminate].
    destruct (py_int (group gs 1)) as [m|e]; [|discriminate].
    injection Hh as ->. simpl.
    rewrite bool_decide_true by exact Hin. reflexivity.
Qed.

Lemma C10_witness :
  parse_output dup_headers = Ok (Dataset [4; 8] [] ∅)
  /\ NoDup [4; 8]
  /\ headers (split_lines dup_headers) = [4; 8; 4]
  /\ first_seen [4; 8; 4] = [4; 8].
Proof.
  assert (H : parse_output dup_headers = Ok (Dataset [4; 8] [] ∅))
    by (vm_compute; reflexivity).
  split; [exact H|].
  destruct (C10_sizes_distinct_first_seen dup_headers _ H) as (Hnd & _ & _ & _).
  split; [exact Hnd|]. split; vm_compute; reflexivity.
Defined.

(** ** Sequential times *)

(** C5, as stated, fails: a marker line with a time and no size header
    gives one sequential time and no size. *)
Lemma C5_counterexample :
  parse_output lone_marker = Ok (Dataset [] [1.0%float] ∅)
  /\ ~ (length [1.0%float] <= length (@nil Z))%nat.
Proof.
  split; [vm_compute; reflexivity|]. simpl. lia.
Qed.

(** C5, amended: the parser appends one sequential time per marker line
    whose window holds a time, in input order and whatever the sizes are;
    so [sequential_times] reads the tokens the markers find, one by one,
    and is no longer than the number of marker lines. *)
Theorem C5_times_follow_markers (output : string) (d : dataset)
    (H : parse_output output = Ok d) :
  reads (marker_tokens (split_lines output)) (sequential_times d)
  /\ (length (sequential_times d)
      <= length (filter (fun l => is_marker l = true) (split_lines output)))%nat.
Proof.
  apply parse_lines_inv in H as (st & Hs & <-).
  apply scan_lines_times in Hs as (ts & Hr & Hq). simpl in Hq. subst ts.
  split; [exact Hr|].
  rewrite <- (Forall2_length _ _ _ Hr). apply marker_tokens_length.
Qed.

Lemma C5_witness :
  parse_output scenario_a = Ok (Dataset [4] [10.0%float] {[2 := {[4 := 5.0%float]}]})
  /\ reads (marker_tokens (split_lines scenario_a)) [10.0%float]
  /\ (length [10.0%float]
      <= length (filter (fun l => is_marker l = true) (split_lines scenario_a)))%nat.
Proof.
  assert (H : parse_output scenario_a
              = Ok (Dataset [4] [10.0%float] {[2 := {[4 := 5.0%float]}]}))
    by (vm_compute; reflexivity).
  split; [exact H|]. exact (C5_times_follow_markers scenario_a _ H).
Defined.

(** ** Rows ahead of the first size header *)

(** C9: while no [SizeHeader] has been seen a table row is dropped without
    being read, and the rows of a parsed dataset are those that the lines
    from the first [SizeHeader] on give by themselves: whatever stands
    before leaves no thread count and no time (and with no [SizeHeader]
    at all there are no rows). *)
Theorem C9_rows_before_header_discarded (output : string)
    (pre post : list string) (d : dataset)
    (Hsplit : split_lines output = (pre ++ post)%list)
    (Hpre : no_header pre)
    (H : parse_output output = Ok d) :
  (forall st line, current_size st = None -> on_row st line = Ok st)
  /\ (exists d', parse_lines post = Ok d'
        /\ parallel_results d = parallel_results d'
        /\ sizes d = sizes d')
  /\ (post = [] -> parallel_results d = ∅).
Proof.
  unfold parse_output in H. rewrite Hsplit in H.
  apply parse_lines_inv in H as (st & Hs & <-).
  apply scan_lines_before_header in Hs as (st0 & Hs & (Hs0 & Hp0 & Hc0));
    [|exact Hpre|reflexivity].
  assert (Hrel : same_rows st0 scan_init).
  { unfold same_rows. rewrite <- Hs0, <- Hp0, <- Hc0. auto. }
  destruct (scan_lines_same_rows _ _ _ _ Hrel Hs) as (st1 & Hs1 & (Ha & Hb & _)).
  split; [|split].
  - intros st' line Hc. unfold on_row. rewrite Hc.
    destruct (re_match thread_re line); reflexivity.
  - exists (data st1). unfold parse_lines. rewrite Hs1. auto.
  - intros ->. simpl in Hs1. injection Hs1 as <-. exact Hb.
Qed.

Lemma C9_witness :
  split_lines early_row
    = (["  2   5.0   2.00   100.0%"]
       ++ ["Matrix size: 4 x 4"; "  3   1.5   2.00   100.0%"])%list
  /\ no_header ["  2   5.0   2.00   100.0%"]
  /\ parse_output early_row = Ok (Dataset [4] [] {[3 := {[4 := 1.5%float]}]})
  /\ exists d', parse_lines ["Matrix size: 4 x 4"; "  3   1.5   2.00   100.0%"]
                = Ok d'
       /\ ({[3 := {[4 := 1.5%float]}]} : gmap Z (gmap Z float))
          = parallel_results d'
       /\ [4] = sizes d'.
Proof.
  assert (H1 : split_lines early_row
    = (["  2   5.0   2.00   100.0%"]
       ++ ["Matrix size: 4 x 4"; "  3   1.5   2.00   100.0%"])%list)
    by (vm_compute; reflexivity).
  assert (H2 : no_header ["  2   5.0   2.00   100.0%"])
    by (constructor; [vm_compute; reflexivity|constructor]).
  assert (H3 : parse_output early_row
               = Ok (Dataset [4] [] {[3 := {[4 := 1.5%float]}]}))
    by (vm_compute; reflexivity).
  split; [exact H1|]. split; [exact H2|]. split; [exact H3|].
  exact (proj1 (proj2 (C9_rows_before_header_discarded _ _ _ _ H1 H2 H3))).
Defined.

(** ** The window of a sequential marker *)




(** ** Lines of no recognised shape, and malformed numbers *)

(** C4: a line of none of the recognised shapes changes nothing, in its
    own turn of the loop and inside the window of a marker; but parsing
    does raise on some inputs: a time or a table row whose number has two
    dots, or no digit, matches the pattern and [float] rejects it with a
    [ValueError]. *)
Theorem C4_malformed_number_raises :
  (forall st line window, unclassified line ->
     step st line window = Ok st
     /\ find_time st (line :: window) = find_time st window)
  /\ parse_output bad_time = Raise ValueError
  /\ parse_output bad_row = Raise ValueError.
Proof.
  split; [|split; vm_compute; reflexivity].
  intros st line window Hu. split.
  - apply step_unclassified. exact Hu.
  - apply find_time_unclassified. exact Hu.
Qed.

(** ** Derived metrics *)


Lemma mapM_lookup {A B} (f : A -> result B) (l : list A) : forall ys j x,
  mapM f l = Ok ys -> l !! j = Some x ->
  exists y, ys !! j = Some y /\ f x = Ok y.
Proof.
  induction l as [|a l IH]; intros ys j x H Hj; [discriminate|].
  simpl in H. apply bind_Ok in H as (y & Hy & H).
  apply bind_Ok in H as (ys' & Hys & H). injection H as <-.
  destruct j as [|j]; simpl in Hj.
  - injection Hj as <-. exists y. split; [reflexivity|exact Hy].
  - exact (IH ys' j x Hys Hj).
Qed.

Lemma enumerate_from_at {A} (l : list A) : forall i k x,
  l !! k = Some x -> enumerate_from i l !! k = Some ((i + k)%nat, x).
Proof.
  induction l as [|y l IH]; intros i k x H; [discriminate|].
  destruct k as [|k]; simpl in *.
  - injection H as <-. rewrite Nat.add_0_r. reflexivity.
  - rewrite (IH (S i) k x H). do 2 f_equal. lia.
Qed.

Lemma per_size_lookup (f : nat -> Z -> Z -> result num) tcs szs series idx size :
  per_size f tcs szs = Ok series -> szs !! idx = Some size ->
  exists ys, series !! idx = Some (size, ys) /\ mapM (f idx size) tcs = Ok ys.
Proof.
  intros H Hl. unfold per_size in H.
  destruct (mapM_lookup _ _ _ idx _ H (enumerate_from_at szs 0 idx size Hl))
    as (p & Hp & Hf).
  simpl in Hf. apply bind_Ok in Hf as (ys & Hys & Hf). injection Hf as <-.
  exists ys. split; [exact Hp|exact Hys].
Qed.

(** The guard of lines 124, 147, 173 and 228. *)
Lemma speedup_of_guarded seq_times idx t v :
  speedup_of seq_times idx (PFloat t) = Ok v ->
  guarded_speedup (seq_times !! idx) t v.
Proof.
  unfold speedup_of, guarded_speedup. intros H.
  split; [|split].
  - intros ->. change (gt0 (PFloat 0.0)) with false in H.
    injection H as <-. reflexivity.
  - intros Hneg. change (gt0 (PFloat t)) with (PrimFloat.ltb 0.0 t) in H.
    rewrite Hneg in H. injection H as <-. reflexivity.
  - intros Hpos. change (gt0 (PFloat t)) with (PrimFloat.ltb 0.0 t) in H.
    rewrite Hpos in H. unfold getitem in H.
    destruct (seq_times !! idx) as [s|]; [|discriminate].
    simpl in H. unfold float_truediv in H.
    rewrite (positive_nonzero t Hpos) in H. injection H as <-.
    exists s. split; reflexivity.
Qed.

Lemma shown_rows_app evs1 evs2 :
  shown_rows (evs1 ++ evs2) = (shown_rows evs1 ++ shown_rows evs2)%list.
Proof. apply omap_app. Qed.

(** The row at position [k] of the table, when the sizes up to it have a
    sequential time. *)
Lemma table_rows_shown_at d tcs rest : forall i k size s,
  (forall threads, threads ∈ tcs -> is_Some (parallel_results d !! threads)) ->
  rest !! k = Some size -> sequential_times d !! (i + k)%nat = Some s ->
  exists cells,
    shown_rows (trace (table_rows d tcs (enumerate_from i rest))) !! k
    = Some (size, s, cells)
    /\ mapM (table_cell d (i + k) size) tcs = Ok cells.
Proof.
  induction rest as [|size0 rest IH]; intros i k size s Hk Hl Hs;
    [discriminate|].
  cbn [enumerate_from table_rows]. rewrite trace_bind.
  destruct k as [|k]; simpl in Hl.
  - injection Hl as ->. rewrite Nat.add_0_r in *.
    destruct (mapM_ok (table_cell d i size) tcs) as (cells & Hc).
    { intros threads Hin. eapply table_cell_ok; eauto. }
    exists cells. split; [|exact Hc].
    unfold table_row, getitem. rewrite Hs.
    unfold lift, emit, mbind at 2 3, io_bind. simpl. rewrite Hc. reflexivity.
  - destruct (lookup_lt_is_Some_2 (sequential_times d) i) as (s0 & Hs0).
    { apply lookup_lt_Some in Hs. lia. }
    destruct (table_row_ok d tcs i size0 s0 Hs0 Hk) as (cells0 & ->).
    cbn [outcome trace]. rewrite shown_rows_app.
    change (shown_rows [PrintRow size0 s0 cells0]) with [(size0, s0, cells0)].
    replace (i + S k)%nat with (S i + k)%nat in * by lia.
    exact (IH (S i) k size s Hk Hl Hs).
Qed.

Lemma print_summary_table_shown_at d idx size s :
  sizes d !! idx = Some size -> sequential_times d !! idx = Some s ->
  exists cells,
    shown_rows (trace (print_summary_table d)) !! idx = Some (size, s, cells)
    /\ mapM (table_cell d idx size) (sorted_keys (parallel_results d))
       = Ok cells.
Proof.
  intros Hl Hs.
  destruct (table_rows_shown_at d (sorted_keys (parallel_results d)) (sizes d)
              0 idx size s) as (cells & Hrow & Hc);
    [intros threads; apply sorted_keys_elem|exact Hl|exact Hs|].
  exists cells. split; [|exact Hc].
  unfold print_summary_table. rewrite !trace_emit, trace_bind.
  repeat match goal with
         | |- shown_rows (?ev :: ?evs) !! _ = _ =>
             change (shown_rows (ev :: evs)) with (shown_rows evs)
         end.
  destruct (outcome (table_rows _ _ _)); [|exact Hrow].
  rewrite shown_rows_app. apply lookup_app_l_Some. exact Hrow.
Qed.

(** The cell and the chart values of a pair with a recorded time. *)
Lemma table_cell_recorded d idx size threads inner t cell :
  parallel_results d !! threads = Some inner -> inner !! size = Some t ->
  table_cell d idx size threads = Ok cell ->
  exists v, cell = (PFloat t, v)
            /\ guarded_speedup (sequential_times d !! idx) t v.
Proof.
  intros Hi Ht. unfold table_cell, get_time. rewrite Hi, Ht.
  cbn [mbind result_bind]. intros H.
  apply bind_Ok in H as (v & Hv & H). injection H as <-.
  exists v. split; [reflexivity|]. apply speedup_of_guarded. exact Hv.
Qed.

Lemma chart_speedup_recorded d idx size threads inner t v :
  parallel_results d !! threads = Some inner -> inner !! size = Some t ->
  chart_speedup d idx size threads = Ok v ->
  guarded_speedup (sequential_times d !! idx) t v.
Proof.
  intros Hi Ht. unfold chart_speedup, get_time. rewrite Hi, Ht.
  cbn [mbind result_bind]. apply speedup_of_guarded.
Qed.

(** *** The calls of the figure *)

Lemma mapM_ext {A B} (f g : A -> result B) (l : list A) :
  (forall x, x ∈ l -> f x = g x) -> mapM f l = mapM g l.
Proof.
  induction l as [|x l IH]; intros H; [reflexivity|].
  simpl. rewrite (H x) by left. rewrite IH; [reflexivity|].
  intros y Hy. apply H. right. exact Hy.
Qed.

(** A loop that draws what it computes computes the same when it
    returns. *)
Lemma mapM_drawn_inv {A B} (draw : backend) (f : A -> result B)
    (c : A -> B -> call) (l : list A) : forall ys,
  mapM (fun x => y ← f x; draw (c x y);; Ok y) l = Ok ys -> mapM f l = Ok ys.
Proof.
  induction l as [|x l IH]; intros ys H; [exact H|].
  simpl in H. apply bind_Ok in H as (y & Hy & H).
  apply bind_Ok in H as (ys' & Hys & H). injection H as <-.
  apply bind_Ok in Hy as (y' & Hy' & Hy). apply bind_Ok in Hy as ([] & _ & Hy).
  injection Hy as <-. simpl. rewrite Hy', (IH _ Hys). reflexivity.
Qed.

(** And it computes the same, returning or raising, when the calls it
    makes return. *)
Lemma mapM_drawn {A B} (draw : backend) (f : A -> result B)
    (c : A -> B -> call) (l : list A) :
  (forall x y, x ∈ l -> f x = Ok y -> draw (c x y) = Ok tt) ->
  mapM (fun x => y ← f x; draw (c x y);; Ok y) l = mapM f l.
Proof.
  induction l as [|x l IH]; intros H; [reflexivity|].
  simpl. rewrite IH by (intros x' y' Hin; apply H; right; exact Hin).
  destruct (f x) as [y|e] eqn:E; [|reflexivity].
  simpl. rewrite (H x y (list_elem_of_here _ _) E). reflexivity.
Qed.

Lemma bars_loop draw d (l : list (nat * Z)) :
  mapM (fun '(idx, threads) => draw_bars draw d idx threads) l
  = mapM (fun x : nat * Z =>
            y ← bar_times d x.2;
            draw (BarParallel (length (sizes d)) x.1 x.2 y.2);; Ok y) l.
Proof. apply mapM_ext. intros [idx threads] _. reflexivity. Qed.

Lemma bars_pure d (tcs : list Z) : forall i,
  mapM (fun x : nat * Z => bar_times d x.2) (enumerate_from i tcs)
  = mapM (bar_times d) tcs.
Proof.
  induction tcs as [|th tcs IH]; intros i; [reflexivity|].
  simpl. rewrite IH. reflexivity.
Qed.

Lemma lines_loop draw p f tcs (l : list (nat * Z)) :
  mapM (fun '(idx, size) => draw_line draw p f tcs idx size) l
  = mapM (fun x : nat * Z =>
            y ← (ys ← mapM (f x.1 x.2) tcs; Ok (x.2, ys));
            draw (PlotLine p tcs y.2 x.2);; Ok y) l.
Proof.
  apply mapM_ext. intros [idx size] _. unfold draw_line. simpl.
  destruct (mapM (f idx size) tcs); reflexivity.
Qed.

Lemma lines_pure (f : nat -> Z -> Z -> result num) tcs szs :
  mapM (fun x : nat * Z => ys ← mapM (f x.1 x.2) tcs; Ok (x.2, ys))
       (enumerate_from 0 szs)
  = per_size f tcs szs.
Proof. unfold per_size. apply mapM_ext. intros [idx size] _. reflexivity. Qed.

(** A figure that has been drawn holds the chart data. *)
Lemma draw_figure_data draw d c :
  draw_figure draw d = Ok c -> chart_data d = Ok c.
Proof.
  unfold draw_figure, chart_data. intros H.
  repeat match type of H with
         | (draw _ ≫= _) = Ok _ => apply bind_Ok in H as ([] & _ & H)
         end.
  apply bind_Ok in H as (bars & Hb & H).
  rewrite bars_loop in Hb. apply mapM_drawn_inv in Hb. rewrite bars_pure in Hb.
  apply bind_Ok in H as ([] & _ & H).
  apply bind_Ok in H as (sp & Hsp & H).
  rewrite lines_loop in Hsp. apply mapM_drawn_inv in Hsp.
  rewrite lines_pure in Hsp.
  apply bind_Ok in H as ([] & _ & H). apply bind_Ok in H as ([] & _ & H).
  apply bind_Ok in H as (ef & Hef & H).
  rewrite lines_loop in Hef. apply mapM_drawn_inv in Hef.
  rewrite lines_pure in Hef.
  apply bind_Ok in H as ([] & _ & H).
  apply bind_Ok in H as (mx & Hmx & H).
  apply bind_Ok in H as ([] & _ & H). apply bind_Ok in H as ([] & _ & H).
  apply bind_Ok in H as (ann & _ & H).
  apply bind_Ok in H as ([] & _ & H). apply bind_Ok in H as ([] & _ & H).
  apply bind_Ok in H as ([] & _ & H). injection H as <-.
  rewrite Hsp in Hmx. injection Hmx as <-.
  rewrite Hb, Hsp, Hef. reflexivity.
Qed.

(** ** The pipeline *)

Lemma no_sizes_diagnostic draw output :
  no_header (split_lines output) ->
  Forall is_print (trace (main draw output))
  /\ (forall d, parse_output output = Ok d ->
        sizes d = []
        /\ main draw output = IO (preamble ++ diagnostic output) (Ok tt))
  /\ (forall e, parse_output output = Raise e ->
        main draw output = IO preamble (Raise e)).
Proof.
  intros Hnone.
  assert (Hp : Forall is_print preamble).
  { repeat constructor; eexists; reflexivity. }
  assert (Hd : forall d, parse_output output = Ok d ->
             sizes d = []
             /\ main draw output = IO (preamble ++ diagnostic output) (Ok tt)).
  { intros d H. pose proof (parse_no_header _ _ Hnone H) as Hs.
    split; [exact Hs|]. exact (main_no_sizes draw output d H Hs). }
  split; [|split; [exact Hd|apply main_parse_raise]].
  destruct (parse_output output) as [d|e] eqn:E.
  - destruct (Hd d eq_refl) as (_ & ->). cbn [trace].
    apply Forall_app. split; [exact Hp|].
    repeat constructor; eexists; reflexivity.
  - rewrite (main_parse_raise _ _ _ E). exact Hp.
Qed.

(** C8: for an output in which no line is recognised as a [SizeHeader],
    [main] emits nothing but verbatim lines (no table header, no table
    row, no figure), and when the parser returns its dataset the sizes
    are empty and [main] prints the diagnostic, which echoes the raw
    output, and returns.  But the parser does not always return: on
    [bad_time], a marker line whose time has two dots and no size
    header, it raises [ValueError], and [main] ends with that exception
    after its preamble, without the diagnostic. *)
Theorem C8_diagnostic_lost_on_malformed_time :
  (forall draw output, no_header (split_lines output) ->
     Forall is_print (trace (main draw output))
     /\ (forall d, parse_output output = Ok d ->
           sizes d = []
           /\ main draw output = IO (preamble ++ diagnostic output) (Ok tt))
     /\ (forall e, parse_output output = Raise e ->
           main draw output = IO preamble (Raise e)))
  /\ no_header (split_lines bad_time)
  /\ parse_output bad_time = Raise ValueError
  /\ (forall draw, main draw bad_time = IO preamble (Raise ValueError))
  /\ Forall (fun ev => ev <> Print "Error: Could not parse program output")
            preamble.
Proof.
  split; [exact no_sizes_diagnostic|].
  assert (Hp : parse_output bad_time = Raise ValueError)
    by (vm_compute; reflexivity).
  split; [constructor; [vm_compute; reflexivity|constructor]|].
  split; [exact Hp|].
  split; [intros draw; exact (main_parse_raise draw _ _ Hp)|].
  repeat constructor; discriminate.
Qed.

(** ** Missing measurements *)

(** C2, as stated, fails: with a size and no sequential time the table
    and the chart data raise [IndexError], and so does [main]. *)
Lemma C2_counterexample :
  let d := Dataset [4] [] {[2 := {[4 := 5.0%float]}]} in
  parse_output missing_time = Ok d
  /\ (length (sequential_times d) < length (sizes d))%nat
  /\ outcome (print_summary_table d) = Raise IndexError
  /\ chart_data d = Raise IndexError
  /\ (forall draw, outcome (main draw missing_time) = Raise IndexError).
Proof.
  intros d. repeat split; try intros draw; vm_compute; reflexivity.
Qed.

(** C2, amended: when the sequential times are fewer than the sizes,
    the summary table prints the rows of the sizes that have a sequential
    time and raises [IndexError] at the first size that has none (no
    missing time is read as 0); [main], which prints the table first,
    ends with that error and never hands a figure to the plotting
    library, whatever the plotting calls would do. *)
Theorem C2_missing_sequential_time_raises (d : dataset)
    (Hshort : (length (sequential_times d) < length (sizes d))%nat) :
  outcome (print_summary_table d) = Raise IndexError
  /\ printed_rows (trace (print_summary_table d))
     = take (length (sequential_times d)) (sizes d)
  /\ (forall draw output, parse_output output = Ok d ->
        outcome (main draw output) = Raise IndexError
        /\ Forall (fun ev => ~ is_figure ev) (trace (main draw output))).
Proof.
  assert (Ht : outcome (print_summary_table d) = Raise IndexError).
  { rewrite print_summary_table_outcome, table_rows_short; [reflexivity| |lia|lia].
    intros threads. apply sorted_keys_elem. }
  split; [exact Ht|]. split; [apply print_summary_table_rows|].
  intros draw output H.
  assert (Hne : sizes d <> []).
  { intros E. rewrite E in Hshort. simpl in Hshort. lia. }
  rewrite (main_report draw output d H Hne). cbn [outcome trace].
  rewrite outcome_bind, trace_bind, Ht. split; [reflexivity|].
  apply Forall_app. split; [apply preamble_trace|].
  apply print_summary_table_trace.
Qed.

Lemma C2_witness :
  let d := Dataset [4] [] {[2 := {[4 := 5.0%float]}]} in
  (length (sequential_times d) < length (sizes d))%nat
  /\ outcome (print_summary_table d) = Raise IndexError.
Proof.
  intros d.
  assert (H : (length (sequential_times d) < length (sizes d))%nat)
    by (simpl; lia).
  split; [exact H|]. exact (proj1 (C2_missing_sequential_time_raises d H)).
Defined.

(** C1: for a pair without a recorded time the table takes the time as
    0 and shows the speedup 0; the charts take the time as 1 instead and
    plot the sequential time divided by 1.  So for size 8 and 2 threads
    of [two_sizes] the speedup lines and the heat matrix hold 20.0 and
    the efficiency line holds 1000.0, where 0 is due. *)
Theorem C1_absent_pair_in_charts :
  let d := Dataset [4; 8] [10.0%float; 20.0%float] {[2 := {[4 := 5.0%float]}]} in
  (forall d' idx size threads inner,
     parallel_results d' !! threads = Some inner -> inner !! size = None ->
     table_cell d' idx size threads = Ok (PInt 0, PInt 0)
     /\ chart_speedup d' idx size threads
        = getitem (sequential_times d') idx
          ≫= (fun s => Ok (PFloat (s / 1.0))))
  /\ parse_output two_sizes = Ok d
  /\ (parallel_results d !! 2) ≫= (fun inner => inner !! 8) = None
  /\ table_cell d 1 8 2 = Ok (PInt 0, PInt 0)
  /\ chart_speedup d 1 8 2 = Ok (PFloat 20.0)
  /\ chart_efficiency d 1 8 2 = Ok (PFloat 1000.0)
  /\ speedup_lines <$> chart_data d
     = Ok [(4, [PFloat 2.0]); (8, [PFloat 20.0])]
  /\ efficiency_lines <$> chart_data d
     = Ok [(4, [PFloat 100.0]); (8, [PFloat 1000.0])]
  /\ speedup_matrix <$> chart_data d = Ok [[PFloat 2.0]; [PFloat 20.0]].
Proof.
  split; [|repeat split; vm_compute; reflexivity].
  intros d' idx size threads inner Hi Hs.
  unfold table_cell, chart_speedup, get_time. rewrite Hi, Hs.
  split; [reflexivity|]. simpl. unfold speedup_of. simpl.
  destruct (getitem (sequential_times d') idx); reflexivity.
Qed.

(** ** More on [parse_output] *)

(** *** The loop sees a line through four tests only *)

Lemma find_time_same_shape w w' : Forall2 same_shape w w' ->
  forall st, find_time st w = find_time st w'.
Proof.
  induction 1 as [|l l' w w' (_ & _ & Ht & _) _ IH]; intros st; simpl.
  - reflexivity.
  - rewrite <- Ht. destruct (re_search time_re l); [reflexivity|apply IH].
Qed.

Lemma step_same_shape st l l' w w' :
  same_shape l l' -> Forall2 same_shape w w' -> step st l w = step st l' w'.
Proof.
  intros (Hs & Hm & Ht & Hr) Hw.
  unfold step, on_size, on_sequential, on_row. unfold is_marker in Hm.
  rewrite <- Hs, <- Hm, <- Hr.
  destruct (match re_search size_re l with Some _ => _ | None => _ end)
    as [st1|e]; [|reflexivity].
  simpl. rewrite (find_time_same_shape _ _ Hw). reflexivity.
Qed.

Lemma scan_lines_same_shape lines lines' : Forall2 same_shape lines lines' ->
  forall st, scan_lines st lines = scan_lines st lines'.
Proof.
  induction 1 as [|l l' ls ls' Hl Hls IH]; intros st; [reflexivity|].
  cbn [scan_lines].
  rewrite (step_same_shape st l l' (take 5 (l :: ls)) (take 5 (l' :: ls'))).
  - destruct (step st l' (take 5 (l' :: ls'))) as [st1|e]; [|reflexivity].
    simpl. apply IH.
  - exact Hl.
  - apply Forall2_take. constructor; assumption.
Qed.

(** X1: the parser looks at a line only through its size match, its
    marker test, its time match and its row match: two inputs whose lines
    agree on these, line by line, parse alike, errors included. *)
Theorem parse_same_shape (lines lines' : list string)
    (H : Forall2 same_shape lines lines') :
  parse_lines lines = parse_lines lines'.
Proof.
  unfold parse_lines. rewrite (scan_lines_same_shape _ _ H). reflexivity.
Qed.

Lemma parse_same_shape_witness :
  Forall2 same_shape ["hello"; "Matrix size: 4 x 4"] [""; "Matrix size: 4 x 4"]
  /\ parse_lines ["hello"; "Matrix size: 4 x 4"]
     = parse_lines [""; "Matrix size: 4 x 4"].
Proof.
  assert (H : Forall2 same_shape ["hello"; "Matrix size: 4 x 4"]
                                 [""; "Matrix size: 4 x 4"]).
  { repeat constructor; vm_compute; reflexivity. }
  split; [exact H|]. exact (parse_same_shape _ _ H).
Defined.

(** *** The parser raises on unreadable numbers only *)

Lemma py_float_raises tok e : py_float tok = Raise e -> e = ValueError.
Proof.
  unfold py_float. destruct (split_dot tok) as [ip rest].
  destruct (_ && _); [discriminate|]. intros [= <-]. reflexivity.
Qed.

(** The first group of a table row is a numeral. *)
Lemma row_group_numeral line gs :
  re_match thread_re line = Some gs ->
  all_in is_digit (group gs 1) = true /\ group gs 1 <> "".
Proof.
  unfold re_match, thread_re. cbn [run]. intros H.
  apply star_inv in H as (_ & s1 & H & _).
  apply plus_inv in H as (g & s2 & H & Hall & Hne).
  destruct (plus is_space s2 _) as [gs'|]; [|discriminate].
  injection H as <-. split; assumption.
Qed.

Lemma find_time_raises w : forall st e,
  find_time st w = Raise e ->
  e = ValueError
  /\ exists lj tok, lj ∈ w /\ time_token lj = Some tok
       /\ py_float tok = Raise ValueError.
Proof.
  induction w as [|lj w IH]; intros st e H; simpl in H; [discriminate|].
  destruct (re_search time_re lj) as [gs|] eqn:E.
  - destruct (py_float (group gs 1)) as [t|e'] eqn:F; [discriminate|].
    injection H as <-. pose proof (py_float_raises _ _ F) as ->.
    split; [reflexivity|]. exists lj, (group gs 1).
    split; [left|]. unfold time_token. rewrite E. auto.
  - apply IH in H as (-> & lj' & tok & Hin & Ht & Hf).
    split; [reflexivity|]. exists lj', tok. split; [right; exact Hin|auto].
Qed.

Lemma on_size_unreadable st line e :
  on_size st line = Raise e -> e = ValueError /\ unreadable line.
Proof.
  intros H. apply on_size_raises in H as (-> & gs & E & Hlong).
  split; [reflexivity|]. right. exists (group gs 1). split; [|exact Hlong].
  unfold captured_ints. rewrite E. apply elem_of_app. left. left.
Qed.

Lemma on_row_raises st line e :
  on_row st line = Raise e -> e = ValueError /\ unreadable line.
Proof.
  unfold on_row, unreadable, captured_times, captured_ints.
  destruct (re_match thread_re line) as [gs|] eqn:E; [|discriminate].
  destruct (current_size st) as [size|]; [|discriminate].
  destruct (row_group_numeral _ _ E) as (Hall & Hne).
  destruct (py_int (group gs 1)) as [n|e'] eqn:Hint; simpl.
  - destruct (py_float (group gs 2)) as [t|e'] eqn:F; [discriminate|].
    simpl. intros [= <-]. pose proof (py_float_raises _ _ F) as ->.
    split; [reflexivity|]. left. exists (group gs 2).
    split; [|exact F]. apply elem_of_app. right. simpl. left.
  - intros [= <-]. apply py_int_raises in Hint as (-> & Hlong).
    split; [reflexivity|]. right. exists (group gs 1).
    split; [|auto]. apply elem_of_app. right. simpl. left.
Qed.

Lemma step_raises st line w e :
  step st line w = Raise e ->
  e = ValueError /\ exists l, (l = line \/ l ∈ w) /\ unreadable l.
Proof.
  unfold step. destruct (on_size st line) as [st1|e1] eqn:E1; simpl.
  - destruct (on_sequential st1 line w) as [st2|e'] eqn:E; simpl.
    + intros H. apply on_row_raises in H as (-> & Hu).
      split; [reflexivity|]. exists line. auto.
    + intros [= <-]. unfold on_sequential in E.
      destruct (contains "Sequential:" line); [|discriminate].
      apply find_time_raises in E as (-> & lj & tok & Hin & Ht & Hf).
      split; [reflexivity|]. exists lj. split; [right; exact Hin|].
      left. exists tok. split; [|exact Hf]. unfold captured_times. rewrite Ht.
      apply elem_of_app. left. left.
  - intros [= <-]. apply on_size_unreadable in E1 as (-> & Hu).
    split; [reflexivity|]. exists line. auto.
Qed.

Lemma scan_lines_raises lines : forall st e,
  scan_lines st lines = Raise e ->
  e = ValueError /\ exists l, l ∈ lines /\ unreadable l.
Proof.
  induction lines as [|line rest IH]; intros st e H; [discriminate|].
  cbn [scan_lines] in H.
  destruct (step st line (take 5 (line :: rest))) as [st1|e'] eqn:E.
  - simpl in H. apply IH in H as (-> & l & Hin & Hrest).
    split; [reflexivity|]. exists l. split; [right; exact Hin|exact Hrest].
  - injection H as <-. apply step_raises in E as (-> & l & Hl & Hrest).
    split; [reflexivity|]. exists l. split; [|exact Hrest].
    destruct Hl as [->|Hin]; [left|].
    apply elem_of_take in Hin as (i & Hi & _).
    eapply list_elem_of_lookup_2; eexact Hi.
Qed.

(** X2: the only exception of the parser is [ValueError], and it comes
    from a number some line holds and the parser cannot read: [float] on
    the token the line holds as its time or as the time of its row, or
    [int] on a size or a thread count of more than 4300 digits. *)
Theorem parse_raises_on_unreadable_number (output : string) (e : exn)
    (H : parse_output output = Raise e) :
  e = ValueError
  /\ exists line, line ∈ split_lines output /\ unreadable line.
Proof.
  unfold parse_output, parse_lines in H.
  destruct (scan_lines scan_init (split_lines output)) as [st|e'] eqn:E;
    [discriminate|].
  injection H as <-. eapply scan_lines_raises; eexact E.
Qed.

Lemma parse_raises_on_unreadable_number_witness :
  parse_output long_size = Raise ValueError
  /\ exists line, line ∈ split_lines long_size /\ unreadable line.
Proof.
  assert (H : parse_output long_size = Raise ValueError)
    by (vm_compute; reflexivity).
  split; [exact H|].
  exact (proj2 (parse_raises_on_unreadable_number long_size ValueError H)).
Defined.

(** *** Inputs of no recognised line *)

Lemma scan_lines_unclassified lines : forall st,
  Forall unclassified lines -> scan_lines st lines = Ok st.
Proof.
  induction lines as [|line rest IH]; intros st Hall; [reflexivity|].
  apply Forall_cons in Hall as (Hl & Hrest). cbn [scan_lines].
  rewrite (step_unclassified st line _ Hl). simpl. apply IH. exact Hrest.
Qed.

(** X3: an output none of whose lines has a recognised shape (the empty
    output among them) parses, without error, to the empty dataset, and
    [main] answers with its diagnostic, before any plotting call. *)
Theorem parse_unclassified_output (output : string)
    (H : Forall unclassified (split_lines output)) :
  parse_output output = Ok empty_dataset
  /\ forall draw, main draw output = IO (preamble ++ diagnostic output) (Ok tt).
Proof.
  assert (Hp : parse_output output = Ok empty_dataset).
  { unfold parse_output, parse_lines.
    rewrite (scan_lines_unclassified _ _ H). reflexivity. }
  split; [exact Hp|]. intros draw.
  apply (main_no_sizes draw output empty_dataset Hp). reflexivity.
Qed.

Lemma parse_unclassified_output_witness :
  Forall unclassified (split_lines chatter)
  /\ Forall unclassified (split_lines "")
  /\ parse_output chatter = Ok empty_dataset
  /\ parse_output "" = Ok empty_dataset.
Proof.
  assert (H1 : Forall unclassified (split_lines chatter)).
  { repeat constructor; vm_compute; reflexivity. }
  assert (H2 : Forall unclassified (split_lines "")).
  { repeat constructor; vm_compute; reflexivity. }
  split; [exact H1|]. split; [exact H2|].
  split; [exact (proj1 (parse_unclassified_output chatter H1))
         |exact (proj1 (parse_unclassified_output "" H2))].
Defined.

(** *** Table rows *)

Lemma recorded_record_time pr threads size t threads' size' :
  recorded (record_time pr threads size t) threads' size'
  = if decide (threads' = threads /\ size' = size) then Some t
    else recorded pr threads' size'.
Proof.
  unfold recorded, record_time.
  destruct (decide (threads' = threads)) as [->|Hth].
  - rewrite lookup_insert_eq. simpl.
    destruct (decide (size' = size)) as [->|Hsz].
    + rewrite lookup_insert_eq, decide_True by auto. reflexivity.
    + rewrite lookup_insert_ne by auto. rewrite decide_False by tauto.
      destruct (pr !! threads); reflexivity.
  - rewrite lookup_insert_ne by auto. rewrite decide_False by tauto.
    reflexivity.
Qed.

Lemma on_row_effect st line st' :
  on_row st line = Ok st' ->
  exists rows,
    Forall2 reads_row (option_list (row_of (current_size st) line)) rows
    /\ st' = Scan (Dataset (sizes (data st)) (sequential_times (data st))
                           (file_rows (parallel_results (data st)) rows))
                  (current_size st) (seq_time st).
Proof.
  unfold on_row, row_of.
  destruct (re_match thread_re line) as [gs|], (current_size st) as [n|] eqn:E;
    try (intros [= <-]; exists []; split; [constructor|];
         destruct st as [[? ? ?] ? ?]; simpl in *; congruence).
  intros H. apply bind_Ok in H as (th & Hth & H).
  apply bind_Ok in H as (t & Ht & H). injection H as <-.
  exists [(n, th, t)]. split; [|reflexivity].
  constructor; [|constructor]. unfold reads_row. simpl. auto.
Qed.

Lemma step_rows st line w st' :
  step st line w = Ok st' ->
  exists rows,
    Forall2 reads_row
      (option_list (row_of (next_size (current_size st) line) line)) rows
    /\ parallel_results (data st')
       = file_rows (parallel_results (data st)) rows
    /\ current_size st' = next_size (current_size st) line.
Proof.
  unfold step. intros H.
  apply bind_Ok in H as (st1 & H1 & H). apply bind_Ok in H as (st2 & H2 & H3).
  apply on_size_inv in H1 as (_ & Hp1 & _ & Hh).
  apply on_sequential_inv in H2 as (_ & Hp2 & Hc2 & _).
  apply on_row_effect in H3 as (rows & Hr & ->). simpl.
  assert (Hc1 : current_size st1 = next_size (current_size st) line).
  { unfold next_size. destruct (header_of line); [tauto|]. subst st1. reflexivity. }
  exists rows. rewrite Hp2, Hp1, Hc2, Hc1 in *. auto.
Qed.

Lemma scan_lines_rows lines : forall st st',
  scan_lines st lines = Ok st' ->
  exists rows,
    Forall2 reads_row (row_events (current_size st) lines) rows
    /\ parallel_results (data st')
       = file_rows (parallel_results (data st)) rows.
Proof.
  induction lines as [|line rest IH]; intros st st' H; simpl in H.
  - injection H as <-. exists []. split; [constructor|reflexivity].
  - apply bind_Ok in H as (st1 & H1 & H).
    apply step_rows in H1 as (rows1 & Hr1 & Hp1 & Hc1).
    apply IH in H as (rows2 & Hr2 & Hp2).
    exists (rows1 ++ rows2)%list. split.
    + cbn [row_events]. rewrite <- Hc1 in Hr1 |- *.
      apply Forall2_app; assumption.
    + rewrite Hp2, Hp1. unfold file_rows. rewrite foldl_app. reflexivity.
Qed.

(** X4: the rows of a parsed dataset are the table rows of the input
    filed in input order, each under the size of the closest size header
    at or before its line, with its first number read as thread count
    and its second as time; so a later row of a pair replaces an earlier
    one. *)
Theorem parse_rows_in_order (output : string) (d : dataset)
    (H : parse_output output = Ok d) :
  exists rows,
    Forall2 reads_row (row_events None (split_lines output)) rows
    /\ parallel_results d = file_rows ∅ rows
    /\ (forall size threads t,
          last rows = Some (size, threads, t) ->
          recorded (parallel_results d) threads size = Some t).
Proof.
  apply parse_lines_inv in H as (st & Hs & <-).
  apply scan_lines_rows in Hs as (rows & Hr & Hp). simpl in Hp.
  exists rows. split; [exact Hr|]. split; [exact Hp|].
  intros size threads t Hlast. rewrite Hp.
  destruct rows as [|r rows _] using rev_ind; [discriminate|].
  rewrite last_snoc in Hlast. injection Hlast as ->.
  unfold file_rows. rewrite foldl_app. simpl.
  rewrite recorded_record_time, decide_True by auto. reflexivity.
Qed.

Lemma parse_rows_in_order_witness :
  parse_output early_row = Ok (Dataset [4] [] {[3 := {[4 := 1.5%float]}]})
  /\ exists rows,
       Forall2 reads_row (row_events None (split_lines early_row)) rows
       /\ ({[3 := {[4 := 1.5%float]}]} : gmap Z (gmap Z float))
          = file_rows ∅ rows.
Proof.
  assert (H : parse_output early_row
              = Ok (Dataset [4] [] {[3 := {[4 := 1.5%float]}]}))
    by (vm_compute; reflexivity).
  split; [exact H|].
  destruct (parse_rows_in_order early_row _ H) as (rows & Hr & Hp & _).
  exists rows. split; [exact Hr|exact Hp].
Defined.

(** X5: filing a time under a thread count and a size makes it the
    recorded time of that pair, creating the inner dictionary when the
    thread count is new, and leaves every other pair as it was. *)
Theorem record_time_lookup (pr : gmap Z (gmap Z float))
    (threads size : Z) (t : float) :
  recorded (record_time pr threads size t) threads size = Some t
  /\ (forall threads' size',
        (threads', size') <> (threads, size) ->
        recorded (record_time pr threads size t) threads' size'
        = recorded pr threads' size')
  /\ (forall t', record_time (record_time pr threads size t') threads size t
                 = record_time pr threads size t).
Proof.
  split; [|split].
  - rewrite recorded_record_time, decide_True by auto. reflexivity.
  - intros threads' size' Hne. rewrite recorded_record_time.
    rewrite decide_False; [reflexivity|]. intros (-> & ->). congruence.
  - intros t'. unfold record_time.
    rewrite lookup_insert_eq. simpl. rewrite insert_insert_eq.
    rewrite insert_insert_eq. reflexivity.
Qed.

(** *** Recorded sizes are known sizes *)

Lemma add_size_mono l n x : x ∈ l -> x ∈ add_size l n.
Proof.
  unfold add_size. destruct (bool_decide (n ∈ l)); [auto|].
  intros H. apply elem_of_app. left. exact H.
Qed.

Lemma add_size_in l n : n ∈ add_size l n.
Proof.
  unfold add_size. destruct (bool_decide (n ∈ l)) eqn:E.
  - apply bool_decide_eq_true in E. exact E.
  - apply elem_of_app. right. left.
Qed.

Lemma record_time_key pr threads size t threads' :
  is_Some (record_time pr threads size t !! threads') ->
  threads' = threads \/ is_Some (pr !! threads').
Proof.
  unfold record_time. destruct (decide (threads' = threads)) as [->|Hne]; [auto|].
  rewrite lookup_insert_ne by auto. auto.
Qed.

Lemma recorded_key pr threads size t :
  recorded pr threads size = Some t -> is_Some (pr !! threads).
Proof. unfold recorded. destruct (pr !! threads); [eauto|discriminate]. Qed.

Lemma step_rows_known st line w st' :
  rows_known st -> step st line w = Ok st' -> rows_known st'.
Proof.
  intros (HA & HB & HC) H. unfold step in H.
  apply bind_Ok in H as (st1 & H1 & H). apply bind_Ok in H as (st2 & H2 & H3).
  apply on_size_inv in H1 as (_ & Hp1 & _ & Hh).
  apply on_sequential_inv in H2 as (Hs2 & Hp2 & Hc2 & _).
  assert (K1 : rows_known st1).
  { unfold rows_known. rewrite Hp1. destruct (header_of line) as [n|].
    - destruct Hh as (Hc & Hs). rewrite Hs, Hc. repeat split.
      + intros th sz t Hr. apply add_size_mono. eauto.
      + exact HB.
      + intros sz [= <-]. apply add_size_in.
    - subst st1. auto. }
  assert (K2 : rows_known st2).
  { unfold rows_known. rewrite Hs2, Hp2, Hc2. exact K1. }
  clear HA HB HC K1. destruct K2 as (HA & HB & HC).
  apply on_row_effect in H3 as (rows & Hr & ->).
  unfold rows_known. simpl. unfold row_of in Hr.
  destruct (re_match thread_re line) as [gs|], (current_size st2) as [n|] eqn:E;
    simpl in Hr; inversion Hr as [|? r ? rows' Hrow Hnil]; subst;
    try (simpl; auto; fail).
  inversion Hnil; subst. destruct r as [[n' th] t].
  destruct Hrow as (Hn & _ & _). simpl in Hn. subst n'. simpl.
  repeat split.
  - intros th' sz t' Hrec. rewrite recorded_record_time in Hrec.
    destruct (decide (th' = th /\ sz = n)) as [(-> & ->)|_]; [auto|eauto].
  - intros th' Hk. apply record_time_key in Hk as [->|Hk].
    + exists n, t. rewrite recorded_record_time, decide_True by auto. reflexivity.
    + destruct (HB th' Hk) as (sz & t' & Hrec).
      destruct (decide (th' = th /\ sz = n)) as [(-> & ->)|Hne].
      * exists n, t. rewrite recorded_record_time, decide_True by auto. reflexivity.
      * exists sz, t'. rewrite recorded_record_time, decide_False by exact Hne.
        exact Hrec.
  - exact HC.
Qed.

Lemma scan_lines_rows_known lines : forall st st',
  rows_known st -> scan_lines st lines = Ok st' -> rows_known st'.
Proof.
  induction lines as [|line rest IH]; intros st st' K H; simpl in H.
  - injection H as <-. exact K.
  - apply bind_Ok in H as (st1 & H1 & H).
    eapply IH; [|exact H]. eapply step_rows_known; eassumption.
Qed.

Lemma parse_keeps_rows_known output d :
  parse_output output = Ok d -> exists st, data st = d /\ rows_known st.
Proof.
  intros H. apply parse_lines_inv in H as (st & Hs & <-).
  assert (K : rows_known scan_init).
  { unfold rows_known, recorded. simpl. repeat split.
    - intros th sz t. rewrite lookup_empty. discriminate.
    - intros th [x Hx]. rewrite lookup_empty in Hx. discriminate.
    - discriminate. }
  exists st. split; [reflexivity|]. eapply scan_lines_rows_known; eassumption.
Qed.

(** X6: in a parsed dataset every size that has a recorded time is one of
    [sizes], and every thread count of [parallel_results] has a recorded
    time (no inner dictionary is empty). *)
Theorem parse_rows_known (output : string) (d : dataset)
    (H : parse_output output = Ok d) :
  (forall threads size t,
     recorded (parallel_results d) threads size = Some t -> size ∈ sizes d)
  /\ (forall threads,
        is_Some (parallel_results d !! threads) ->
        exists size t, recorded (parallel_results d) threads size = Some t).
Proof.
  destruct (parse_keeps_rows_known output d H) as (st & <- & (HA & HB & _)).
  split; [exact HA|exact HB].
Qed.

Lemma parse_rows_known_witness :
  parse_output scenario_a
    = Ok (Dataset [4] [10.0%float] {[2 := {[4 := 5.0%float]}]})
  /\ (forall threads size t,
        recorded {[2 := {[4 := 5.0%float]}]} threads size = Some t ->
        size ∈ [4]).
Proof.
  assert (H : parse_output scenario_a
              = Ok (Dataset [4] [10.0%float] {[2 := {[4 := 5.0%float]}]}))
    by (vm_compute; reflexivity).
  split; [exact H|]. exact (proj1 (parse_rows_known scenario_a _ H)).
Defined.

(** ** More on the reports *)

Lemma mapM_length {A B} (f : A -> result B) (l : list A) : forall ys,
  mapM f l = Ok ys -> length ys = length l.
Proof.
  induction l as [|x l IH]; intros ys H; simpl in H.
  - injection H as <-. reflexivity.
  - apply bind_Ok in H as (y & _ & H). apply bind_Ok in H as (ys' & Hys & H).
    injection H as <-. simpl. rewrite (IH _ Hys). reflexivity.
Qed.

Lemma enumerate_from_lookup {A} (l : list A) : forall i idx x,
  (idx, x) ∈ enumerate_from i l -> (i <= idx)%nat /\ l !! (idx - i)%nat = Some x.
Proof.
  induction l as [|y l IH]; intros i idx x H; simpl in H.
  - apply elem_of_nil in H. contradiction.
  - apply elem_of_cons in H as [[= -> ->]|H].
    + rewrite Nat.sub_diag. auto.
    + apply IH in H as (Hle & Hl). split; [lia|].
      replace (idx - i)%nat with (S (idx - S i)) by lia. exact Hl.
Qed.

Lemma table_rows_ok d tcs rest : forall i,
  (forall threads, threads ∈ tcs -> is_Some (parallel_results d !! threads)) ->
  (i + length rest <= length (sequential_times d))%nat ->
  outcome (table_rows d tcs (enumerate_from i rest)) = Ok tt.
Proof.
  induction rest as [|size rest IH]; intros i Hk Hle; simpl in *; [reflexivity|].
  rewrite outcome_bind.
  destruct (lookup_lt_is_Some_2 (sequential_times d) i) as (s & Hs); [lia|].
  destruct (table_row_ok d tcs i size s Hs Hk) as (cells & ->). simpl.
  apply IH; [exact Hk|lia].
Qed.

Lemma table_rows_shown d rows :
  (forall idx size, (idx, size) ∈ rows -> sizes d !! idx = Some size) ->
  Forall (row_shown d)
    (trace (table_rows d (sorted_keys (parallel_results d)) rows)).
Proof.
  induction rows as [|[idx size] rows IH]; intros Hrows; simpl; [constructor|].
  rewrite trace_bind.
  assert (Hrow : Forall (row_shown d)
            (trace (table_row d (sorted_keys (parallel_results d)) idx size))).
  { unfold table_row, lift, emit, mbind, io_bind, getitem. simpl.
    destruct (sequential_times d !! idx) as [s|] eqn:Es; simpl; [|constructor].
    destruct (mapM _ _) as [cells|e] eqn:Ec; simpl; constructor; [|constructor].
    exists idx. split; [apply Hrows; left|].
    split; [exact Es|]. split; [exact Ec|]. eapply mapM_length; eexact Ec. }
  destruct (outcome (table_row _ _ _ _)); [|exact Hrow].
  apply Forall_app. split; [exact Hrow|].
  apply IH. intros idx' size' Hin. apply Hrows. right. exact Hin.
Qed.

Lemma print_summary_table_head d :
  exists evs, trace (print_summary_table d) = (table_head d ++ evs)%list
              /\ Forall (row_shown d) evs.
Proof.
  unfold print_summary_table. rewrite !trace_emit, trace_bind.
  eexists. split; [reflexivity|].
  assert (Hrows : Forall (row_shown d)
            (trace (table_rows d (sorted_keys (parallel_results d))
                      (enumerate_from 0 (sizes d))))).
  { apply table_rows_shown. intros idx size Hin.
    apply enumerate_from_lookup in Hin as (_ & Hl).
    rewrite Nat.sub_0_r in Hl. exact Hl. }
  destruct (outcome (table_rows _ _ _)); [|exact Hrows].
  apply Forall_app. split; [exact Hrows|]. constructor; [exact I|constructor].
Qed.

Lemma print_summary_table_ok d :
  (length (sizes d) <= length (sequential_times d))%nat ->
  outcome (print_summary_table d) = Ok tt.
Proof.
  intros H.
  rewrite print_summary_table_outcome, table_rows_ok; [reflexivity| |simpl; lia].
  intros threads. apply sorted_keys_elem.
Qed.

(** X7: when every size has a sequential time the summary table returns
    normally, having printed one row per size, in the order of [sizes];
    and in any case a printed row shows a size of the dataset at its
    index, the sequential time at that index and one cell, time and
    speedup, per thread count of the header. *)
Theorem print_summary_table_complete (d : dataset)
    (H : (length (sizes d) <= length (sequential_times d))%nat) :
  outcome (print_summary_table d) = Ok tt
  /\ printed_rows (trace (print_summary_table d)) = sizes d
  /\ exists evs, trace (print_summary_table d) = (table_head d ++ evs)%list
                 /\ Forall (row_shown d) evs.
Proof.
  split; [|split].
  - apply print_summary_table_ok. exact H.
  - rewrite print_summary_table_rows. apply take_ge. exact H.
  - apply print_summary_table_head.
Qed.

Lemma print_summary_table_complete_witness :
  let d := Dataset [4] [10.0%float] {[2 := {[4 := 5.0%float]}]} in
  (length (sizes d) <= length (sequential_times d))%nat
  /\ outcome (print_summary_table d) = Ok tt
  /\ printed_rows (trace (print_summary_table d)) = [4].
Proof.
  intros d.
  assert (H : (length (sizes d) <= length (sequential_times d))%nat)
    by (simpl; lia).
  split; [exact H|].
  destruct (print_summary_table_complete d H) as (Ho & Hr & _).
  split; [exact Ho|exact Hr].
Defined.

(** X8: the header of the summary table lists the thread counts that
    have a row in [parallel_results], each once, in ascending order,
    whatever the order in which the rows were met. *)
Theorem table_header_sorted (d : dataset) :
  (exists evs, trace (print_summary_table d)
     = ([Print (nl ++ str_repeat "=" 80); Print "PERFORMANCE SUMMARY TABLE";
         Print (str_repeat "=" 80);
         PrintHeader (sorted_keys (parallel_results d))] ++ evs)%list)
  /\ StronglySorted Z.le (sorted_keys (parallel_results d))
  /\ NoDup (sorted_keys (parallel_results d))
  /\ (forall threads,
        threads ∈ sorted_keys (parallel_results d)
        <-> is_Some (parallel_results d !! threads)).
Proof.
  split; [|split; [|split]].
  - unfold print_summary_table. rewrite !trace_emit. eexists. reflexivity.
  - unfold sorted_keys. apply StronglySorted_merge_sort; apply _.
  - unfold sorted_keys. rewrite merge_sort_Permutation. apply NoDup_elements.
  - intros threads. apply sorted_keys_elem.
Qed.

(** *** The data of the charts *)

Lemma per_size_shape (f : nat -> Z -> Z -> result num) tcs szs : forall i series,
  mapM (fun '(idx, size) => ys ← mapM (f idx size) tcs; Ok (size, ys))
       (enumerate_from i szs) = Ok series ->
  series.*1 = szs /\ Forall (fun p => length p.2 = length tcs) series.
Proof.
  induction szs as [|size szs IH]; intros i series H; simpl in H.
  - injection H as <-. split; [reflexivity|constructor].
  - apply bind_Ok in H as (p & Hp & H). apply bind_Ok in H as (ps & Hps & H).
    injection H as <-. apply bind_Ok in Hp as (ys & Hys & Hp).
    injection Hp as <-. apply IH in Hps as (H1 & H2). simpl. split.
    + f_equal. exact H1.
    + constructor; [|exact H2]. simpl. eapply mapM_length; eexact Hys.
Qed.

Lemma bars_shape d tcs : forall bars,
  mapM (bar_times d) tcs = Ok bars ->
  bars.*1 = tcs /\ Forall (fun p => length p.2 = length (sizes d)) bars.
Proof.
  induction tcs as [|th tcs IH]; intros bars H; simpl in H.
  - injection H as <-. split; [reflexivity|constructor].
  - apply bind_Ok in H as (p & Hp & H). apply bind_Ok in H as (ps & Hps & H).
    injection H as <-. unfold bar_times in Hp.
    apply bind_Ok in Hp as (ys & Hys & Hp). injection Hp as <-.
    apply IH in Hps as (H1 & H2). simpl. split.
    + f_equal. exact H1.
    + constructor; [|exact H2]. simpl. eapply mapM_length; eexact Hys.
Qed.

(** X9: the chart data, when they are computed, are rectangular: the bar
    chart has one series per thread count, in ascending order, each with
    one time per size; the speedup and efficiency charts have one series
    per size, in the order of [sizes], each with one value per thread
    count; and the heat matrix is the speedup series, row by row. *)
Theorem chart_data_shape (d : dataset) (c : charts)
    (H : chart_data d = Ok c) :
  let tcs := sorted_keys (parallel_results d) in
  bar_sequential c = sequential_times d
  /\ (bar_parallel c).*1 = tcs
  /\ Forall (fun p => length p.2 = length (sizes d)) (bar_parallel c)
  /\ (speedup_lines c).*1 = sizes d
  /\ Forall (fun p => length p.2 = length tcs) (speedup_lines c)
  /\ (efficiency_lines c).*1 = sizes d
  /\ Forall (fun p => length p.2 = length tcs) (efficiency_lines c)
  /\ speedup_matrix c = (speedup_lines c).*2.
Proof.
  intros tcs. unfold chart_data in H. fold tcs in H.
  apply bind_Ok in H as (bars & Hb & H).
  apply bind_Ok in H as (sp & Hsp & H).
  apply bind_Ok in H as (ef & Hef & H).
  apply bind_Ok in H as (mx & Hmx & H). injection H as <-. simpl.
  rewrite Hsp in Hmx. injection Hmx as <-.
  apply bars_shape in Hb as (Hb1 & Hb2).
  apply per_size_shape in Hsp as (Hs1 & Hs2).
  apply per_size_shape in Hef as (He1 & He2).
  repeat split; assumption.
Qed.

Lemma chart_data_shape_witness :
  let d := Dataset [4] [10.0%float] {[2 := {[4 := 5.0%float]}]} in
  let c := Charts [10.0%float] [(2, [PFloat 5.0])] [(4, [PFloat 2.0])]
                  [(4, [PFloat 100.0])] [[PFloat 2.0]] in
  chart_data d = Ok c
  /\ speedup_matrix c = (speedup_lines c).*2.
Proof.
  intros d c.
  assert (H : chart_data d = Ok c) by (vm_compute; reflexivity).
  split; [exact H|].
  exact (proj2 (proj2 (proj2 (proj2 (proj2 (proj2 (proj2
           (chart_data_shape d c H)))))))).
Defined.

(** *** When the charts are computed *)

Lemma int_to_float_1 : int_to_float 1 = Ok 1%float.
Proof. vm_compute. reflexivity. Qed.

Lemma int_to_float_100 : int_to_float 100 = Ok 100%float.
Proof. vm_compute. reflexivity. Qed.

Lemma int_to_float_0 : int_to_float 0 = Ok 0%float.
Proof. vm_compute. reflexivity. Qed.

Lemma divisor_ok_nonzero threads : divisor_ok threads -> threads <> 0.
Proof.
  intros (f & Hf & He) ->. rewrite int_to_float_0 in Hf. injection Hf as <-.
  vm_compute in He. discriminate.
Qed.

Lemma zero_quotient_finite threads :
  threads <> 0 -> PrimFloat.is_infinity (round_quotient 0 threads) = false.
Proof. destruct threads as [|p|p]; [congruence| |]; intros _; reflexivity. Qed.

Lemma get_time_ok pr threads size dflt :
  is_Some (pr !! threads) ->
  exists v, get_time pr threads size dflt = Ok v
            /\ (v = PInt dflt \/ exists t, v = PFloat t).
Proof.
  intros [inner Hi]. unfold get_time. rewrite Hi.
  destruct (inner !! size) as [t|]; eauto.
Qed.

Lemma speedup_of_default seq_times idx (s : float) :
  seq_times !! idx = Some s ->
  speedup_of seq_times idx (PInt 1) = Ok (PFloat (PrimFloat.div s 1)).
Proof.
  intros Hs. unfold speedup_of, getitem. rewrite Hs. reflexivity.
Qed.

Lemma chart_speedup_ok d idx size threads s :
  sequential_times d !! idx = Some s ->
  is_Some (parallel_results d !! threads) ->
  exists v, chart_speedup d idx size threads = Ok v
            /\ (v = PInt 0 \/ exists x, v = PFloat x).
Proof.
  intros Hs Hk. unfold chart_speedup.
  destruct (get_time_ok _ _ size 1 Hk) as (v0 & -> & [->|(t & ->)]); simpl.
  - rewrite (speedup_of_default _ _ s Hs). eauto.
  - destruct (gt0 (PFloat t)) eqn:E.
    + rewrite (speedup_of_positive _ _ s t E Hs). eauto.
    + rewrite speedup_of_zero by exact E. eauto.
Qed.

Lemma chart_efficiency_ok d idx size threads s :
  sequential_times d !! idx = Some s ->
  is_Some (parallel_results d !! threads) ->
  divisor_ok threads ->
  exists v, chart_efficiency d idx size threads = Ok v.
Proof.
  intros Hs Hk Hd. unfold chart_efficiency.
  destruct (chart_speedup_ok d idx size threads s Hs Hk)
    as (v & -> & [->|(x & ->)]); cbn [mbind result_bind].
  - pose proof (divisor_ok_nonzero _ Hd) as Hne. unfold truediv.
    rewrite (proj2 (Z.eqb_neq _ _) Hne), (zero_quotient_finite _ Hne).
    cbn [mbind result_bind mul]. rewrite int_to_float_100. eauto.
  - destruct Hd as (f & Hf & He). unfold truediv. rewrite Hf.
    cbn [mbind result_bind]. unfold float_truediv. rewrite He.
    cbn [mbind result_bind mul]. rewrite int_to_float_100. eauto.
Qed.

Lemma per_size_ok (f : nat -> Z -> Z -> result num) tcs szs :
  (forall idx size threads,
     szs !! idx = Some size -> threads ∈ tcs ->
     exists v, f idx size threads = Ok v) ->
  exists series, per_size f tcs szs = Ok series.
Proof.
  intros Hf. unfold per_size. apply mapM_ok. intros [idx size] Hin.
  apply enumerate_from_lookup in Hin as (_ & Hl). rewrite Nat.sub_0_r in Hl.
  destruct (mapM_ok (f idx size) tcs) as (ys & ->); [|simpl; eauto].
  intros threads Ht. eapply Hf; eassumption.
Qed.

Lemma bars_ok d :
  exists bars, mapM (bar_times d) (sorted_keys (parallel_results d)) = Ok bars.
Proof.
  apply mapM_ok. intros threads Hin. apply sorted_keys_elem in Hin.
  unfold bar_times.
  destruct (mapM_ok (fun size => get_time (parallel_results d) threads size 0)
              (sizes d)) as (ts & ->); [|simpl; eauto].
  intros size _. destruct (get_time_ok _ _ size 0 Hin) as (v & -> & _). eauto.
Qed.

Lemma speedups_ok d :
  (length (sizes d) <= length (sequential_times d))%nat ->
  exists series,
    per_size (chart_speedup d) (sorted_keys (parallel_results d)) (sizes d)
    = Ok series.
Proof.
  intros Hlen. apply per_size_ok. intros idx size threads Hl Hin.
  apply sorted_keys_elem in Hin. apply lookup_lt_Some in Hl.
  destruct (lookup_lt_is_Some_2 (sequential_times d) idx) as (s & Hs); [lia|].
  destruct (chart_speedup_ok d idx size threads s Hs Hin) as (v & -> & _). eauto.
Qed.

Lemma chart_data_ok d :
  (length (sizes d) <= length (sequential_times d))%nat ->
  (forall threads, is_Some (parallel_results d !! threads) -> divisor_ok threads) ->
  exists c, chart_data d = Ok c.
Proof.
  intros Hlen Hdiv. unfold chart_data.
  destruct (bars_ok d) as (bars & ->). simpl.
  destruct (speedups_ok d Hlen) as (sp & ->). simpl.
  destruct (per_size_ok (chart_efficiency d)
              (sorted_keys (parallel_results d)) (sizes d)) as (ef & ->).
  { intros idx size threads Hl Hin.
    apply sorted_keys_elem in Hin. apply lookup_lt_Some in Hl.
    destruct (lookup_lt_is_Some_2 (sequential_times d) idx) as (s & Hs); [lia|].
    eapply chart_efficiency_ok; eauto. }
  simpl. eauto.
Qed.

(** *** When the figure is drawn *)

Lemma bar_times_threads d threads p :
  bar_times d threads = Ok p -> p = (threads, p.2).
Proof.
  unfold bar_times. intros H. apply bind_Ok in H as (times & _ & H).
  injection H as <-. reflexivity.
Qed.

Lemma bars_stage draw d :
  (forall idx threads heights,
     figure_call d (BarParallel (length (sizes d)) idx threads heights) ->
     draw (BarParallel (length (sizes d)) idx threads heights) = Ok tt) ->
  mapM (fun '(idx, threads) => draw_bars draw d idx threads)
       (enumerate_from 0 (sorted_keys (parallel_results d)))
  = mapM (bar_times d) (sorted_keys (parallel_results d)).
Proof.
  intros Hdraw. rewrite bars_loop, mapM_drawn; [apply bars_pure|].
  intros [idx threads] p Hin Hp. simpl in *. apply Hdraw.
  apply enumerate_from_lookup in Hin as (_ & Hl). rewrite Nat.sub_0_r in Hl.
  cbn [figure_call]. split; [reflexivity|]. split; [exact Hl|].
  rewrite Hp. f_equal. apply (bar_times_threads d threads p Hp).
Qed.

Lemma lines_stage draw d p (f : nat -> Z -> Z -> result num) :
  let tcs := sorted_keys (parallel_results d) in
  (forall idx size,
     f idx size = match p with
                  | SpeedupPanel => chart_speedup d idx size
                  | EfficiencyPanel => chart_efficiency d idx size
                  end) ->
  (forall ys size,
     figure_call d (PlotLine p tcs ys size) ->
     draw (PlotLine p tcs ys size) = Ok tt) ->
  mapM (fun '(idx, size) => draw_line draw p f tcs idx size)
       (enumerate_from 0 (sizes d))
  = per_size f tcs (sizes d).
Proof.
  intros tcs Hf Hdraw. rewrite lines_loop, mapM_drawn; [apply lines_pure|].
  intros [idx size] q Hin Hq. simpl in *. apply Hdraw.
  apply enumerate_from_lookup in Hin as (_ & Hl). rewrite Nat.sub_0_r in Hl.
  apply bind_Ok in Hq as (ys & Hys & Hq). injection Hq as <-.
  cbn [figure_call]. split; [reflexivity|]. exists idx.
  split; [exact Hl|]. rewrite <- Hf. exact Hys.
Qed.

(** Every cell of a heat matrix that has been computed is annotated. *)
Lemma annotate_stage draw d mx :
  let tcs := sorted_keys (parallel_results d) in
  per_size (chart_speedup d) tcs (sizes d) = Ok mx ->
  (forall j i v,
     figure_call d (Annotate j i v) -> draw (Annotate j i v) = Ok tt) ->
  exists r, annotate draw mx.*2 (length (sizes d)) (length tcs) = Ok r.
Proof.
  intros tcs Hmx Hdraw. unfold annotate. apply mapM_ok. intros i Hi.
  apply elem_of_seq in Hi as (_ & Hi). simpl in Hi.
  destruct (lookup_lt_is_Some_2 (sizes d) i Hi) as (size & Hsize).
  destruct (per_size_lookup _ _ _ _ i size Hmx Hsize) as (ys & Hrow & Hys).
  apply mapM_ok. intros j Hj.
  apply elem_of_seq in Hj as (_ & Hj). simpl in Hj.
  destruct (lookup_lt_is_Some_2 tcs j Hj) as (threads & Hth).
  destruct (mapM_lookup _ _ _ j threads Hys Hth) as (v & Hv & Hvc).
  unfold matrix_at. rewrite list_lookup_fmap, Hrow. simpl. rewrite Hv.
  cbn [mbind result_bind]. exists tt. apply Hdraw. cbn [figure_call].
  exists size, threads. auto.
Qed.

(** When the calls of the figure return, the figure holds the chart
    data. *)
Lemma draw_figure_accepted draw d c :
  chart_data d = Ok c ->
  (forall call, figure_call d call -> draw call = Ok tt) ->
  draw_figure draw d = Ok c.
Proof.
  intros Hc Hdraw. unfold chart_data in Hc.
  apply bind_Ok in Hc as (bars & Hb & Hc).
  apply bind_Ok in Hc as (sp & Hsp & Hc).
  apply bind_Ok in Hc as (ef & Hef & Hc).
  apply bind_Ok in Hc as (mx & Hmx & Hc). injection Hc as <-.
  rewrite Hsp in Hmx. injection Hmx as <-.
  unfold draw_figure.
  rewrite (Hdraw Subplots I), (Hdraw (Colors _) eq_refl),
    (Hdraw (BarSequential _ _) (conj eq_refl eq_refl)).
  cbn [mbind result_bind].
  rewrite (bars_stage draw d) by (intros; apply Hdraw; assumption).
  rewrite Hb. cbn [mbind result_bind].
  rewrite (Hdraw (DecorateBars _) eq_refl). cbn [mbind result_bind].
  rewrite (lines_stage draw d SpeedupPanel (chart_speedup d))
    by first [reflexivity|intros; apply Hdraw; assumption].
  rewrite Hsp. cbn [mbind result_bind].
  rewrite (Hdraw (PlotIdeal _) eq_refl),
    (Hdraw (DecorateLines SpeedupPanel _) eq_refl).
  cbn [mbind result_bind].
  rewrite (lines_stage draw d EfficiencyPanel (chart_efficiency d))
    by first [reflexivity|intros; apply Hdraw; assumption].
  rewrite Hef. cbn [mbind result_bind].
  rewrite (Hdraw (DecorateLines EfficiencyPanel _) eq_refl).
  cbn [mbind result_bind].
  rewrite (Hdraw (Imshow _) (ex_intro _ sp (conj Hsp eq_refl))),
    (Hdraw (DecorateHeatmap _ _) (conj eq_refl eq_refl)).
  cbn [mbind result_bind].
  destruct (annotate_stage draw d sp Hsp) as (r & ->);
    [intros; apply Hdraw; assumption|].
  cbn [mbind result_bind].
  rewrite (Hdraw Colorbar I), (Hdraw TightLayout I),
    (Hdraw (Savefig _) eq_refl).
  reflexivity.
Qed.

Lemma main_figure draw output d :
  parse_output output = Ok d -> sizes d <> [] ->
  outcome (print_summary_table d) = Ok tt ->
  main draw output
  = IO (preamble ++ trace (print_summary_table d)
        ++ match draw_figure draw d with
           | Ok c =>
               [Print (nl ++ "Generating visualizations..."); Figure c;
                Print (nl ++ "Chart saved to: jacobi_performance.png")]
           | Raise _ => [Print (nl ++ "Generating visualizations...")]
           end)
       (match draw_figure draw d with
        | Ok _ => draw ShowFigure
        | Raise e => Raise e
        end).
Proof.
  intros H Hne Ht. rewrite (main_report draw output d H Hne). cbn zeta.
  rewrite trace_bind, outcome_bind, Ht, trace_emit, outcome_emit.
  unfold create_visualizations, lift, emit, mbind, io_bind.
  destruct (draw_figure draw d); reflexivity.
Qed.

(** X10: the whole run.  When the output parses to a dataset with at
    least one size, a sequential time for every size and thread counts
    that are finite and not zero as floats, and every plotting call of
    the figure returns, [main] returns normally, and what it emits is its
    preamble, the complete summary table, the announcement, one figure
    holding the chart data, and the name of the saved file. *)
Theorem main_completes (draw : backend) (output : string) (d : dataset)
    (Hparse : parse_output output = Ok d)
    (Hsizes : sizes d <> [])
    (Htimes : (length (sizes d) <= length (sequential_times d))%nat)
    (Hthreads : forall threads,
        is_Some (parallel_results d !! threads) -> divisor_ok threads)
    (Hdraw : forall call, figure_call d call -> draw call = Ok tt) :
  exists c,
    chart_data d = Ok c
    /\ draw_figure draw d = Ok c
    /\ main draw output
       = IO (preamble ++ trace (print_summary_table d)
             ++ [Print (nl ++ "Generating visualizations..."); Figure c;
                 Print (nl ++ "Chart saved to: jacobi_performance.png")])
            (Ok tt)
    /\ printed_rows (trace (print_summary_table d)) = sizes d.
Proof.
  destruct (chart_data_ok d Htimes Hthreads) as (c & Hc).
  pose proof (print_summary_table_ok d Htimes) as Ht.
  pose proof (draw_figure_accepted draw d c Hc Hdraw) as Hf.
  exists c. split; [exact Hc|]. split; [exact Hf|].
  split; [|rewrite print_summary_table_rows; apply take_ge; exact Htimes].
  rewrite (main_figure draw output d Hparse Hsizes Ht), Hf.
  rewrite (Hdraw ShowFigure I). reflexivity.
Qed.

Lemma main_completes_witness :
  let d := Dataset [4] [10.0%float] {[2 := {[4 := 5.0%float]}]} in
  parse_output scenario_a = Ok d
  /\ sizes d <> []
  /\ (length (sizes d) <= length (sequential_times d))%nat
  /\ (forall threads,
        is_Some (parallel_results d !! threads) -> divisor_ok threads)
  /\ (forall call, figure_call d call -> accepting call = Ok tt)
  /\ exists c, draw_figure accepting d = Ok c
       /\ main accepting scenario_a
          = IO (preamble ++ trace (print_summary_table d)
                ++ [Print (nl ++ "Generating visualizations..."); Figure c;
                    Print (nl ++ "Chart saved to: jacobi_performance.png")])
               (Ok tt).
Proof.
  intros d.
  assert (H1 : parse_output scenario_a = Ok d) by (vm_compute; reflexivity).
  assert (H2 : sizes d <> []) by discriminate.
  assert (H3 : (length (sizes d) <= length (sequential_times d))%nat)
    by (simpl; lia).
  assert (H4 : forall threads,
             is_Some (parallel_results d !! threads) -> divisor_ok threads).
  { intros threads [inner Hi]. simpl in Hi.
    apply lookup_singleton_Some in Hi as (<- & _).
    exists 2%float. split; vm_compute; reflexivity. }
  assert (H5 : forall call, figure_call d call -> accepting call = Ok tt)
    by reflexivity.
  split; [exact H1|]. split; [exact H2|]. split; [exact H3|]. split; [exact H4|].
  split; [exact H5|].
  destruct (main_completes accepting scenario_a d H1 H2 H3 H4 H5)
    as (c & _ & Hf & Hm & _).
  exists c. split; [exact Hf|exact Hm].
Defined.

(** *** A thread count of zero *)

Lemma digit_value_nonneg c : is_digit c = true -> 0 <= digit_value c.
Proof.
  unfold is_digit, digit_value. intros H.
  apply andb_true_iff in H as (H & _). apply Nat.leb_le in H. lia.
Qed.

Lemma digits_value_nonneg s : forall acc,
  all_in is_digit s = true -> 0 <= acc -> 0 <= digits_value acc s.
Proof.
  induction s as [|c s IH]; intros acc Hall Hacc; simpl in *; [exact Hacc|].
  apply andb_true_iff in Hall as (Hc & Hall). apply IH; [exact Hall|].
  pose proof (digit_value_nonneg c Hc). lia.
Qed.

Lemma py_int_nonneg s n : py_int s = Ok n -> 0 <= n.
Proof.
  unfold py_int, all_digits. destruct s as [|c s]; [discriminate|].
  destruct (all_in is_digit (String c s)) eqn:E; [|discriminate].
  destruct (_ <=? _); [|discriminate].
  intros [= <-]. apply (digits_value_nonneg (String c s)); [exact E|lia].
Qed.

Lemma file_rows_key rows : forall pr threads,
  is_Some (file_rows pr rows !! threads) ->
  is_Some (pr !! threads) \/ exists r, r ∈ rows /\ r.1.2 = threads.
Proof.
  induction rows as [|r rows IH]; intros pr threads H; simpl in H; [auto|].
  apply IH in H as [H|(r' & Hin & Hr)].
  - apply record_time_key in H as [->|H]; [|auto].
    right. exists r. split; [left|reflexivity].
  - right. exists r'. split; [right; exact Hin|exact Hr].
Qed.

Lemma parse_threads_nonneg output d threads :
  parse_output output = Ok d ->
  is_Some (parallel_results d !! threads) -> 0 <= threads.
Proof.
  intros H Hk. apply parse_lines_inv in H as (st & Hs & <-).
  apply scan_lines_rows in Hs as (rows & Hr & Hp). rewrite Hp in Hk.
  apply file_rows_key in Hk as [[x Hx]|(r & Hin & <-)].
  { simpl in Hx. rewrite lookup_empty in Hx. discriminate. }
  apply list_elem_of_lookup in Hin as (i & Hi).
  destruct (Forall2_lookup_r _ _ _ _ _ Hr Hi) as (ev & _ & (_ & Hint & _)).
  eapply py_int_nonneg; eexact Hint.
Qed.

Lemma sorted_head_zero (l : list Z) :
  StronglySorted Z.le l -> 0 ∈ l -> (forall x, x ∈ l -> 0 <= x) ->
  exists tl, l = 0 :: tl.
Proof.
  intros Hs Hin Hpos. destruct l as [|z l]; [apply elem_of_nil in Hin; tauto|].
  exists l. f_equal. apply StronglySorted_inv in Hs as (_ & Hall).
  assert (0 <= z) by (apply Hpos; left).
  apply elem_of_cons in Hin as [->|Hin]; [reflexivity|].
  rewrite Forall_forall in Hall. specialize (Hall 0 Hin). lia.
Qed.

Lemma truediv_by_zero v :
  v = PInt 0 \/ (exists x, v = PFloat x) ->
  truediv v (PInt 0) = Raise ZeroDivisionError.
Proof.
  intros [->|(x & ->)]; [reflexivity|].
  unfold truediv. rewrite int_to_float_0. reflexivity.
Qed.

Lemma efficiencies_zero_threads d size szs tl s :
  sizes d = size :: szs ->
  sorted_keys (parallel_results d) = 0 :: tl ->
  sequential_times d !! 0%nat = Some s ->
  per_size (chart_efficiency d) (sorted_keys (parallel_results d)) (sizes d)
  = Raise ZeroDivisionError.
Proof.
  intros Hsz Hk Hs.
  assert (He : chart_efficiency d 0 size 0 = Raise ZeroDivisionError).
  { unfold chart_efficiency.
    destruct (chart_speedup_ok d 0 size 0 s Hs) as (v & -> & Hv).
    { apply sorted_keys_elem. rewrite Hk. left. }
    cbn [mbind result_bind]. rewrite (truediv_by_zero v Hv). reflexivity. }
  unfold per_size. rewrite Hsz, Hk.
  cbn [enumerate_from mapM]. rewrite He. reflexivity.
Qed.

(** The figure up to the efficiencies, when the calls made up to there
    return. *)
Lemma draw_figure_zero_threads draw d size szs tl s :
  sizes d = size :: szs ->
  sorted_keys (parallel_results d) = 0 :: tl ->
  sequential_times d !! 0%nat = Some s ->
  (length (sizes d) <= length (sequential_times d))%nat ->
  (forall call, before_efficiency call = true -> figure_call d call ->
     draw call = Ok tt) ->
  draw_figure draw d = Raise ZeroDivisionError.
Proof.
  intros Hsz Hk Hs Htimes Hdraw.
  assert (He : chart_efficiency d 0 size 0 = Raise ZeroDivisionError).
  { unfold chart_efficiency.
    destruct (chart_speedup_ok d 0 size 0 s Hs) as (v & -> & Hv).
    { apply sorted_keys_elem. rewrite Hk. left. }
    cbn [mbind result_bind]. rewrite (truediv_by_zero v Hv). reflexivity. }
  destruct (bars_ok d) as (bars & Hb).
  destruct (speedups_ok d Htimes) as (sp & Hsp).
  unfold draw_figure.
  rewrite (Hdraw Subplots eq_refl I), (Hdraw (Colors _) eq_refl eq_refl),
    (Hdraw (BarSequential _ _) eq_refl (conj eq_refl eq_refl)).
  cbn [mbind result_bind].
  rewrite (bars_stage draw d) by (intros; apply Hdraw; [reflexivity|assumption]).
  rewrite Hb. cbn [mbind result_bind].
  rewrite (Hdraw (DecorateBars _) eq_refl eq_refl). cbn [mbind result_bind].
  rewrite (lines_stage draw d SpeedupPanel (chart_speedup d))
    by first [reflexivity|intros; apply Hdraw; [reflexivity|assumption]].
  rewrite Hsp. cbn [mbind result_bind].
  rewrite (Hdraw (PlotIdeal _) eq_refl eq_refl),
    (Hdraw (DecorateLines SpeedupPanel _) eq_refl eq_refl).
  cbn [mbind result_bind].
  assert (Hl : draw_line draw EfficiencyPanel (chart_efficiency d)
                 (0 :: tl) 0 size = Raise ZeroDivisionError).
  { unfold draw_line. cbn [mapM]. rewrite He. reflexivity. }
  rewrite Hsz, Hk. cbn [enumerate_from mapM]. rewrite Hl. reflexivity.
Qed.

(** X11: a table row with thread count 0 is accepted by the parser, and
    the summary table prints it; but when every size has a sequential
    time the efficiency chart divides by that thread count: once the
    bars and the speedup lines are drawn (the plotting calls up to there
    returning), computing the first efficiency raises
    [ZeroDivisionError], and [main] ends with it after the complete
    table and the announcement, without a figure. *)
Theorem zero_thread_count_raises (draw : backend) (output : string)
    (d : dataset)
    (Hparse : parse_output output = Ok d)
    (Hzero : is_Some (parallel_results d !! 0))
    (Htimes : (length (sizes d) <= length (sequential_times d))%nat)
    (Hdraw : forall call, before_efficiency call = true ->
               figure_call d call -> draw call = Ok tt) :
  outcome (print_summary_table d) = Ok tt
  /\ chart_data d = Raise ZeroDivisionError
  /\ draw_figure draw d = Raise ZeroDivisionError
  /\ main draw output
     = IO (preamble ++ trace (print_summary_table d)
           ++ [Print (nl ++ "Generating visualizations...")])
          (Raise ZeroDivisionError).
Proof.
  pose proof (print_summary_table_ok d Htimes) as Ht.
  destruct (parse_keeps_rows_known output d Hparse)
    as (st & Hd & (Hknown & Hrec & _)).
  rewrite Hd in Hknown, Hrec.
  destruct (Hrec 0 Hzero) as (size0 & t0 & Hr0).
  pose proof (Hknown _ _ _ Hr0) as Hin.
  destruct (sizes d) as [|size szs] eqn:Hsz; [apply elem_of_nil in Hin; tauto|].
  destruct (sorted_head_zero (sorted_keys (parallel_results d))) as (tl & Hk).
  { unfold sorted_keys. apply StronglySorted_merge_sort; apply _. }
  { apply sorted_keys_elem. exact Hzero. }
  { intros x Hx. apply sorted_keys_elem in Hx.
    eapply parse_threads_nonneg; eassumption. }
  destruct (lookup_lt_is_Some_2 (sequential_times d) 0) as (s & Hs);
    [simpl in Htimes; lia|].
  assert (Hc : draw_figure draw d = Raise ZeroDivisionError).
  { apply (draw_figure_zero_threads draw d size szs tl s);
      [exact Hsz|exact Hk|exact Hs|rewrite Hsz; exact Htimes|exact Hdraw]. }
  assert (Hdata : chart_data d = Raise ZeroDivisionError).
  { unfold chart_data.
    destruct (bars_ok d) as (bars & ->). cbn [mbind result_bind].
    destruct (speedups_ok d) as (sp & ->); [rewrite Hsz; exact Htimes|].
    cbn [mbind result_bind].
    rewrite (efficiencies_zero_threads d size szs tl s Hsz Hk Hs). reflexivity. }
  split; [exact Ht|]. split; [exact Hdata|]. split; [exact Hc|].
  rewrite (main_figure draw output d Hparse); [|congruence|exact Ht].
  rewrite Hc. reflexivity.
Qed.

Lemma zero_thread_count_raises_witness :
  let d := Dataset [4] [10.0%float] {[0 := {[4 := 5.0%float]}]} in
  parse_output zero_threads = Ok d
  /\ is_Some (parallel_results d !! 0)
  /\ (length (sizes d) <= length (sequential_times d))%nat
  /\ draw_figure accepting d = Raise ZeroDivisionError
  /\ outcome (main accepting zero_threads) = Raise ZeroDivisionError.
Proof.
  intros d.
  assert (H1 : parse_output zero_threads = Ok d) by (vm_compute; reflexivity).
  assert (H2 : is_Some (parallel_results d !! 0)).
  { exists {[4 := 5.0%float]}. vm_compute. reflexivity. }
  assert (H3 : (length (sizes d) <= length (sequential_times d))%nat)
    by (simpl; lia).
  split; [exact H1|]. split; [exact H2|]. split; [exact H3|].
  destruct (zero_thread_count_raises accepting zero_threads d H1 H2 H3
              (fun _ _ _ => eq_refl)) as (_ & _ & Hf & Hm).
  split; [exact Hf|]. rewrite Hm. reflexivity.
Defined.

(** ** The text layer *)

Lemma split_lines_cons s : exists l ls, split_lines s = l :: ls.
Proof.
  induction s as [|c s (l & ls & IH)]; simpl; [eauto|].
  destruct (Ascii.eqb c "010"); [eauto|]. rewrite IH. eauto.
Qed.

Lemma join_lines_cons l l' ls :
  join_lines (l :: l' :: ls) = l ++ nl ++ join_lines (l' :: ls).
Proof. reflexivity. Qed.

Lemma join_lines_first c l ls :
  join_lines (String c l :: ls) = String c (join_lines (l :: ls)).
Proof. destruct ls; reflexivity. Qed.

(** X12: splitting the output at its newlines loses nothing: the lines,
    joined by newlines again, are the output; there is always at least
    one line, and no line holds a newline. *)
Theorem split_lines_join (s : string) :
  join_lines (split_lines s) = s
  /\ split_lines s <> []
  /\ Forall (fun l => free_of "010"%char l = true) (split_lines s).
Proof.
  split; [|split].
  - induction s as [|c s IH]; [reflexivity|]. simpl.
    destruct (split_lines_cons s) as (l & ls & E). rewrite E in *.
    destruct (Ascii.eqb c "010") eqn:Ec.
    + apply Ascii.eqb_eq in Ec as ->. rewrite join_lines_cons, IH. reflexivity.
    + rewrite join_lines_first, IH. reflexivity.
  - destruct (split_lines_cons s) as (l & ls & ->). discriminate.
  - induction s as [|c s IH]; simpl; [repeat constructor|].
    destruct (Ascii.eqb c "010") eqn:Ec; [constructor; [reflexivity|exact IH]|].
    destruct (split_lines s) as [|l ls].
    + constructor; [|constructor]. unfold free_of. cbn [all_in].
      rewrite (Ascii.eqb_sym "010" c), Ec. reflexivity.
    + apply Forall_cons in IH as (Hl & Hls). constructor; [|exact Hls].
      unfold free_of in *. cbn [all_in].
      rewrite (Ascii.eqb_sym "010" c), Ec. exact Hl.
Qed.

(** *** What the patterns accept *)

Lemma lit_app t s : lit t (t ++ s) = Some s.
Proof.
  induction t as [|a t IH]; [reflexivity|].
  change (String a t ++ s) with (String a (t ++ s)). simpl.
  rewrite Ascii.eqb_refl. exact IH.
Qed.

Lemma star_take {R} cls (k : string -> string -> option R) r g : forall taken rest,
  all_in cls g = true ->
  star cls (taken ++ g) rest k = Some r ->
  star cls taken (g ++ rest) k = Some r.
Proof.
  induction g as [|c g IH]; intros taken rest Hall H.
  - rewrite string_app_nil_r in H. exact H.
  - cbn [all_in] in Hall. apply andb_true_iff in Hall as (Hc & Hall).
    change (String c g ++ rest) with (String c (g ++ rest)). cbn [star].
    rewrite Hc. rewrite (IH (taken ++ String c "") rest Hall); [reflexivity|].
    rewrite string_app_assoc. exact H.
Qed.

Lemma star_stop {R} cls (k : string -> string -> option R) taken rest :
  starts_outside cls rest -> star cls taken rest k = k taken rest.
Proof.
  destruct rest as [|c rest]; simpl; [reflexivity|]. intros ->. reflexivity.
Qed.

Lemma star_exact {R} cls (k : string -> string -> option R) r g taken rest :
  all_in cls g = true -> starts_outside cls rest ->
  k (taken ++ g) rest = Some r ->
  star cls taken (g ++ rest) k = Some r.
Proof.
  intros Hall Hout Hk. apply star_take; [exact Hall|].
  rewrite star_stop by exact Hout. exact Hk.
Qed.

Lemma plus_exact {R} cls (k : string -> string -> option R) r g rest :
  g <> "" -> all_in cls g = true -> starts_outside cls rest ->
  k g rest = Some r ->
  plus cls (g ++ rest) k = Some r.
Proof.
  intros Hne Hall Hout Hk. destruct g as [|c g]; [congruence|].
  cbn [all_in] in Hall. apply andb_true_iff in Hall as (Hc & Hall).
  change (String c g ++ rest) with (String c (g ++ rest)).
  unfold plus. rewrite Hc.
  apply (star_exact cls k r g (String c "") rest Hall Hout). exact Hk.
Qed.

Lemma star_const {R} cls (r : R) s : forall taken,
  star cls taken s (fun _ _ => Some r) = Some r.
Proof.
  induction s as [|c s IH]; intros taken; simpl; [reflexivity|].
  destruct (cls c); [rewrite IH|]; reflexivity.
Qed.

Lemma starts_outside_app cls cls' g rest :
  (forall c, cls' c = true -> cls c = false) ->
  all_in cls' g = true -> starts_outside cls rest ->
  starts_outside cls (g ++ rest).
Proof.
  intros Hdis Hall Hout. destruct g as [|c g]; [exact Hout|].
  cbn [all_in] in Hall. apply andb_true_iff in Hall as (Hc & _).
  simpl. apply Hdis. exact Hc.
Qed.

Lemma starts_outside_nonempty cls cls' g rest :
  (forall c, cls' c = true -> cls c = false) ->
  g <> "" -> all_in cls' g = true -> starts_outside cls (g ++ rest).
Proof.
  intros Hdis Hne Hall. destruct g as [|c g]; [congruence|].
  cbn [all_in] in Hall. apply andb_true_iff in Hall as (Hc & _).
  simpl. apply Hdis. exact Hc.
Qed.

Lemma digit_not_space c : is_digit c = true -> is_space c = false.
Proof. destruct c as [[] [] [] [] [] [] [] []]; vm_compute; congruence. Qed.

Lemma space_not_digit c : is_space c = true -> is_digit c = false.
Proof. destruct c as [[] [] [] [] [] [] [] []]; vm_compute; congruence. Qed.

Lemma number_not_space c : is_digit_or_dot c = true -> is_space c = false.
Proof. destruct c as [[] [] [] [] [] [] [] []]; vm_compute; congruence. Qed.

Lemma space_not_number c : is_space c = true -> is_digit_or_dot c = false.
Proof. destruct c as [[] [] [] [] [] [] [] []]; vm_compute; congruence. Qed.

Lemma re_search_found p s gs : run p s = Some gs -> re_search p s = Some gs.
Proof. intros H. destruct s; simpl; rewrite H; reflexivity. Qed.

(** Text without the first character of the pattern's literal holds no
    match, so the search goes past it. *)
Lemma re_search_skip c0 t p pre : forall s,
  free_of c0 pre = true ->
  re_search (Lit (String c0 t) :: p) (pre ++ s)
  = re_search (Lit (String c0 t) :: p) s.
Proof.
  induction pre as [|c pre IH]; intros s Hfree; [reflexivity|].
  unfold free_of in Hfree. cbn [all_in] in Hfree.
  apply andb_true_iff in Hfree as (Hc & Hfree).
  change (String c pre ++ s) with (String c (pre ++ s)).
  cbn [re_search run lit].
  destruct (Ascii.eqb c0 c); [discriminate|]. apply IH. exact Hfree.
Qed.

Lemma plus_const {R} cls (r : R) g rest :
  g <> "" -> all_in cls g = true ->
  plus cls (g ++ rest) (fun _ _ => Some r) = Some r.
Proof.
  intros Hne Hall. destruct g as [|c g]; [congruence|].
  cbn [all_in] in Hall. apply andb_true_iff in Hall as (Hc & _).
  change (String c g ++ rest) with (String c (g ++ rest)).
  unfold plus. rewrite Hc. apply star_const.
Qed.

Lemma size_re_runs (ws1 g ws2 ws3 g' rest : string) :
  all_in is_space ws1 = true ->
  all_in is_digit g = true -> g <> "" ->
  all_in is_space ws2 = true -> all_in is_space ws3 = true ->
  all_in is_digit g' = true -> g' <> "" ->
  run size_re ("Matrix size:" ++ ws1 ++ g ++ ws2 ++ "x" ++ ws3 ++ g' ++ rest)
  = Some [g].
Proof.
  intros Hws1 Hg Hgne Hws2 Hws3 Hg' Hg'ne.
  unfold size_re. cbn [run]. rewrite lit_app.
  apply star_exact; [exact Hws1| |].
  { apply (starts_outside_nonempty _ is_digit);
      [exact digit_not_space|exact Hgne|exact Hg]. }
  apply plus_exact; [exact Hgne|exact Hg| |].
  { apply (starts_outside_app _ is_space);
      [exact space_not_digit|exact Hws2|reflexivity]. }
  rewrite (star_exact is_space _ [] ws2 "" ("x" ++ ws3 ++ g' ++ rest));
    [reflexivity|exact Hws2|reflexivity|].
  rewrite lit_app.
  apply star_exact; [exact Hws3| |].
  { apply (starts_outside_nonempty _ is_digit);
      [exact digit_not_space|exact Hg'ne|exact Hg']. }
  apply plus_const; assumption.
Qed.

Lemma group_1 x gs : group (x :: gs) 1 = x.
Proof. reflexivity. Qed.

Lemma group_2 x y gs : group (x :: y :: gs) 2 = y.
Proof. reflexivity. Qed.

(** X13: a line that holds [Matrix size:], a numeral, [x] and a second
    numeral, with any white space between them, after text without an
    [M] and before any text, is a size header: the search captures the
    first numeral, whole; when the numeral has at most 4300 digits the
    declared size is its value, and when it has more, reading the line
    raises [ValueError]. *)
Theorem size_header_accepted (pre ws1 g ws2 ws3 g' rest : string)
    (Hpre : free_of "M" pre = true)
    (Hws1 : all_in is_space ws1 = true)
    (Hg : all_in is_digit g = true) (Hgne : g <> "")
    (Hws2 : all_in is_space ws2 = true)
    (Hws3 : all_in is_space ws3 = true)
    (Hg' : all_in is_digit g' = true) (Hg'ne : g' <> "") :
  let line :=
    pre ++ "Matrix size:" ++ ws1 ++ g ++ ws2 ++ "x" ++ ws3 ++ g' ++ rest in
  re_search size_re line = Some [g]
  /\ (Z.of_nat (String.length g) <= int_max_str_digits ->
      header_of line = Some (digits_value 0 g))
  /\ (int_max_str_digits < Z.of_nat (String.length g) ->
      header_of line = None
      /\ forall st, on_size st line = Raise ValueError).
Proof.
  intros line.
  assert (Hs : re_search size_re line = Some [g]).
  { subst line. unfold size_re at 1. rewrite re_search_skip by exact Hpre.
    apply re_search_found. apply size_re_runs; assumption. }
  split; [exact Hs|]. split.
  - intros Hlen. unfold header_of.
    rewrite Hs, group_1, (py_int_digits g Hg Hgne Hlen). reflexivity.
  - intros Hlen. unfold header_of, on_size.
    rewrite Hs, group_1, (py_int_long g Hlen). split; reflexivity.
Qed.

Lemma size_header_accepted_witness :
  re_search size_re
    ("# " ++ "Matrix size:" ++ " " ++ "512" ++ " " ++ "x" ++ " " ++ "512" ++ "")
  = Some ["512"]
  /\ header_of
       ("# " ++ "Matrix size:" ++ " " ++ "512" ++ " " ++ "x" ++ " " ++ "512" ++ "")
     = Some 512.
Proof.
  destruct (size_header_accepted "# " " " "512" " " " " "512" "")
    as (Hs & Hshort & _); first [reflexivity|discriminate|idtac].
  split; [exact Hs|]. apply Hshort. vm_compute. discriminate.
Defined.

Lemma time_re_runs (ws1 tok ws2 rest : string) :
  all_in is_space ws1 = true ->
  all_in is_digit_or_dot tok = true -> tok <> "" ->
  all_in is_space ws2 = true ->
  run time_re ("Time:" ++ ws1 ++ tok ++ ws2 ++ "ms" ++ rest) = Some [tok].
Proof.
  intros Hws1 Htok Hne Hws2. unfold time_re. cbn [run]. rewrite lit_app.
  apply star_exact; [exact Hws1| |].
  { apply (starts_outside_nonempty _ is_digit_or_dot);
      [exact number_not_space|exact Hne|exact Htok]. }
  apply plus_exact; [exact Hne|exact Htok| |].
  { apply (starts_outside_app _ is_space);
      [exact space_not_number|exact Hws2|reflexivity]. }
  rewrite (star_exact is_space _ [] ws2 "" ("ms" ++ rest));
    [reflexivity|exact Hws2|reflexivity|].
  rewrite lit_app. reflexivity.
Qed.

Lemma time_re_found (pre ws1 tok ws2 rest : string) :
  free_of "T" pre = true ->
  all_in is_space ws1 = true ->
  all_in is_digit_or_dot tok = true -> tok <> "" ->
  all_in is_space ws2 = true ->
  re_search time_re (pre ++ "Time:" ++ ws1 ++ tok ++ ws2 ++ "ms" ++ rest)
  = Some [tok].
Proof.
  intros Hpre Hws1 Htok Hne Hws2.
  unfold time_re at 1. rewrite re_search_skip by exact Hpre.
  apply re_search_found. apply time_re_runs; assumption.
Qed.

(** X14: a line that holds [Time:], a token of digits and dots and [ms],
    with any white space around the token, after text without a [T], has
    that token, whole, as its time token. *)
Theorem time_token_accepted (pre ws1 tok ws2 rest : string)
    (Hpre : free_of "T" pre = true)
    (Hws1 : all_in is_space ws1 = true)
    (Htok : all_in is_digit_or_dot tok = true) (Hne : tok <> "")
    (Hws2 : all_in is_space ws2 = true) :
  time_token (pre ++ "Time:" ++ ws1 ++ tok ++ ws2 ++ "ms" ++ rest) = Some tok.
Proof.
  unfold time_token.
  rewrite (time_re_found pre ws1 tok ws2 rest Hpre Hws1 Htok Hne Hws2).
  reflexivity.
Qed.

Lemma time_token_accepted_witness :
  time_token ("Sequential: ... " ++ "Time:" ++ " " ++ "10.0" ++ " " ++ "ms" ++ "")
  = Some "10.0".
Proof.
  apply (time_token_accepted "Sequential: ... " " " "10.0" " " "");
    first [reflexivity|discriminate].
Defined.

Lemma thread_re_runs (ws0 th ws1 tm ws2 a ws3 b rest : string) :
  all_in is_space ws0 = true ->
  all_in is_digit th = true -> th <> "" ->
  all_in is_space ws1 = true -> ws1 <> "" ->
  all_in is_digit_or_dot tm = true -> tm <> "" ->
  all_in is_space ws2 = true -> ws2 <> "" ->
  all_in is_digit_or_dot a = true -> a <> "" ->
  all_in is_space ws3 = true -> ws3 <> "" ->
  all_in is_digit_or_dot b = true -> b <> "" ->
  run thread_re (ws0 ++ th ++ ws1 ++ tm ++ ws2 ++ a ++ ws3 ++ b ++ "%" ++ rest)
  = Some [th; tm; a; b].
Proof.
  intros Hws0 Hth Hthne Hws1 Hws1ne Htm Htmne Hws2 Hws2ne Ha Hane
         Hws3 Hws3ne Hb Hbne.
  unfold thread_re. cbn [run].
  apply star_exact; [exact Hws0| |].
  { apply (starts_outside_nonempty _ is_digit);
      [exact digit_not_space|exact Hthne|exact Hth]. }
  apply plus_exact; [exact Hthne|exact Hth| |].
  { apply (starts_outside_nonempty _ is_space);
      [exact space_not_digit|exact Hws1ne|exact Hws1]. }
  rewrite (plus_exact is_space _ [tm; a; b] ws1);
    [reflexivity|exact Hws1ne|exact Hws1| |].
  { apply (starts_outside_nonempty _ is_digit_or_dot);
      [exact number_not_space|exact Htmne|exact Htm]. }
  apply plus_exact; [exact Htmne|exact Htm| |].
  { apply (starts_outside_nonempty _ is_space);
      [exact space_not_number|exact Hws2ne|exact Hws2]. }
  rewrite (plus_exact is_space _ [a; b] ws2);
    [reflexivity|exact Hws2ne|exact Hws2| |].
  { apply (starts_outside_nonempty _ is_digit_or_dot);
      [exact number_not_space|exact Hane|exact Ha]. }
  apply plus_exact; [exact Hane|exact Ha| |].
  { apply (starts_outside_nonempty _ is_space);
      [exact space_not_number|exact Hws3ne|exact Hws3]. }
  rewrite (plus_exact is_space _ [b] ws3);
    [reflexivity|exact Hws3ne|exact Hws3| |].
  { apply (starts_outside_nonempty _ is_digit_or_dot);
      [exact number_not_space|exact Hbne|exact Hb]. }
  apply plus_exact; [exact Hbne|exact Hb|reflexivity|].
  rewrite lit_app. reflexivity.
Qed.

(** X15: a line that starts, after any white space, with a numeral and
    three tokens of digits and dots, separated by white space and
    followed by [%], is a table row: the match captures the four tokens,
    whole, and under a current size the row holds the first as thread
    count and the second as time. *)
Theorem table_row_accepted (ws0 th ws1 tm ws2 a ws3 b rest : string)
    (Hws0 : all_in is_space ws0 = true)
    (Hth : all_in is_digit th = true) (Hthne : th <> "")
    (Hws1 : all_in is_space ws1 = true) (Hws1ne : ws1 <> "")
    (Htm : all_in is_digit_or_dot tm = true) (Htmne : tm <> "")
    (Hws2 : all_in is_space ws2 = true) (Hws2ne : ws2 <> "")
    (Ha : all_in is_digit_or_dot a = true) (Hane : a <> "")
    (Hws3 : all_in is_space ws3 = true) (Hws3ne : ws3 <> "")
    (Hb : all_in is_digit_or_dot b = true) (Hbne : b <> "") :
  let line := ws0 ++ th ++ ws1 ++ tm ++ ws2 ++ a ++ ws3 ++ b ++ "%" ++ rest in
  re_match thread_re line = Some [th; tm; a; b]
  /\ forall size, row_of (Some size) line = Some (size, th, tm).
Proof.
  intros line.
  assert (Hm : re_match thread_re line = Some [th; tm; a; b]).
  { subst line. unfold re_match. apply thread_re_runs; assumption. }
  split; [exact Hm|]. intros size. unfold row_of. rewrite Hm. reflexivity.
Qed.

Lemma table_row_accepted_witness :
  re_match thread_re
    ("  " ++ "2" ++ "   " ++ "5.0" ++ "   " ++ "2.00" ++ "   " ++ "100.0"
     ++ "%" ++ "")
  = Some ["2"; "5.0"; "2.00"; "100.0"].
Proof.
  apply (table_row_accepted "  " "2" "   " "5.0" "   " "2.00" "   " "100.0" "");
    first [reflexivity|discriminate].
Defined.

(** *** A block of the report *)

Lemma all_in_app cls (a b : string) :
  all_in cls (a ++ b) = all_in cls a && all_in cls b.
Proof.
  induction a as [|c a IH]; [reflexivity|].
  change (String c a ++ b) with (String c (a ++ b)). cbn [all_in].
  rewrite IH, andb_assoc. reflexivity.
Qed.

Lemma free_of_app c0 (a b : string) :
  free_of c0 (a ++ b) = free_of c0 a && free_of c0 b.
Proof. apply all_in_app. Qed.

Lemma free_of_class cls c0 s :
  cls c0 = false -> all_in cls s = true -> free_of c0 s = true.
Proof.
  intros Hc0. unfold free_of. induction s as [|c s IH]; [reflexivity|].
  cbn [all_in]. intros H. apply andb_true_iff in H as (Hc & Hs).
  rewrite (IH Hs), andb_true_r.
  destruct (Ascii.eqb c0 c) eqn:E; [|reflexivity].
  apply Ascii.eqb_eq in E as ->. congruence.
Qed.

Lemma digits_are_numbers s :
  all_in is_digit s = true -> all_in is_digit_or_dot s = true.
Proof.
  induction s as [|c s IH]; [reflexivity|]. cbn [all_in]. intros H.
  apply andb_true_iff in H as (Hc & Hs). rewrite (IH Hs), andb_true_r.
  unfold is_digit_or_dot. rewrite Hc. reflexivity.
Qed.

Lemma re_search_none c0 t p s :
  free_of c0 s = true -> re_search (Lit (String c0 t) :: p) s = None.
Proof.
  intros H. rewrite <- (string_app_nil_r s).
  rewrite re_search_skip by exact H. reflexivity.
Qed.

Lemma contains_none c0 t s :
  free_of c0 s = true -> contains (String c0 t) s = false.
Proof.
  unfold free_of. induction s as [|c s IH]; [reflexivity|].
  cbn [all_in]. intros H. apply andb_true_iff in H as (Hc & Hs).
  cbn [contains lit]. destruct (Ascii.eqb c0 c); [discriminate|]. apply IH, Hs.
Qed.

Lemma split_lines_single l :
  free_of "010" l = true -> split_lines l = [l].
Proof.
  unfold free_of. induction l as [|c l IH]; [reflexivity|].
  cbn [all_in]. intros H. apply andb_true_iff in H as (Hc & Hl).
  cbn [split_lines]. rewrite Ascii.eqb_sym.
  destruct (Ascii.eqb "010" c); [discriminate|]. rewrite (IH Hl). reflexivity.
Qed.

Lemma split_lines_app l s :
  free_of "010" l = true -> split_lines (l ++ nl ++ s) = l :: split_lines s.
Proof.
  unfold free_of. induction l as [|c l IH]; [reflexivity|].
  cbn [all_in]. intros H. apply andb_true_iff in H as (Hc & Hl).
  change (String c l ++ nl ++ s) with (String c (l ++ nl ++ s)).
  cbn [split_lines]. rewrite Ascii.eqb_sym.
  destruct (Ascii.eqb "010" c); [discriminate|]. rewrite (IH Hl). reflexivity.
Qed.

Section Block.

Variables g tok th tm a b : string.
Hypothesis Hg : all_in is_digit g = true.
Hypothesis Hgne : g <> "".
Hypothesis Htok : all_in is_digit_or_dot tok = true.
Hypothesis Htokne : tok <> "".
Hypothesis Hth : all_in is_digit th = true.
Hypothesis Hthne : th <> "".
Hypothesis Htm : all_in is_digit_or_dot tm = true.
Hypothesis Htmne : tm <> "".
Hypothesis Ha : all_in is_digit_or_dot a = true.
Hypothesis Hane : a <> "".
Hypothesis Hb : all_in is_digit_or_dot b = true.
Hypothesis Hbne : b <> "".

Lemma header_line_free c0 :
  is_digit c0 = false -> free_of c0 "Matrix size:  x " = true ->
  free_of c0 (header_line g) = true.
Proof.
  intros Hc0 Hlit. unfold header_line. rewrite !free_of_app.
  rewrite (free_of_class is_digit c0 g Hc0 Hg).
  unfold free_of in *. cbn in Hlit |- *.
  repeat (apply andb_true_iff in Hlit as (? & Hlit)).
  repeat (apply andb_true_iff; split); assumption.
Qed.

Lemma sequential_line_free c0 :
  is_digit_or_dot c0 = false -> free_of c0 "Sequential: Time:  ms" = true ->
  free_of c0 (sequential_line tok) = true.
Proof.
  intros Hc0 Hlit. unfold sequential_line. rewrite !free_of_app.
  rewrite (free_of_class is_digit_or_dot c0 tok Hc0 Htok).
  unfold free_of in *. cbn in Hlit |- *.
  repeat (apply andb_true_iff in Hlit as (? & Hlit)).
  repeat (apply andb_true_iff; split); assumption.
Qed.

Lemma row_line_free c0 :
  is_digit_or_dot c0 = false -> free_of c0 " %" = true ->
  free_of c0 (row_line th tm a b) = true.
Proof.
  intros Hc0 Hlit. unfold row_line. rewrite !free_of_app.
  rewrite (free_of_class is_digit_or_dot c0 th Hc0 (digits_are_numbers _ Hth)).
  rewrite (free_of_class is_digit_or_dot c0 tm Hc0 Htm).
  rewrite (free_of_class is_digit_or_dot c0 a Hc0 Ha).
  rewrite (free_of_class is_digit_or_dot c0 b Hc0 Hb).
  unfold free_of in *. cbn in Hlit |- *.
  repeat (apply andb_true_iff in Hlit as (? & Hlit)).
  repeat (apply andb_true_iff; split); assumption.
Qed.

End Block.

Lemma step_header st g :
  all_in is_digit g = true -> g <> "" ->
  Z.of_nat (String.length g) <= int_max_str_digits ->
  forall window,
  step st (header_line g) window
  = Ok (Scan (if bool_decide (digits_value 0 g ∈ sizes (data st)) then data st
              else Dataset (sizes (data st) ++ [digits_value 0 g])
                           (sequential_times (data st))
                           (parallel_results (data st)))
             (Some (digits_value 0 g)) (seq_time st)).
Proof.
  intros Hg Hgne Hglen window.
  assert (Hs : re_search size_re (header_line g) = Some [g]).
  { replace (header_line g)
      with ("" ++ "Matrix size:" ++ " " ++ g ++ " " ++ "x" ++ " " ++ g ++ "")
      by (rewrite string_app_nil_r; reflexivity).
    apply re_search_found.
    apply (size_re_runs " " g " " " " g ""); first [reflexivity|assumption]. }
  assert (Hm : contains "Sequential:" (header_line g) = false).
  { apply contains_none. apply header_line_free; [exact Hg|reflexivity..]. }
  assert (Hr : re_match thread_re (header_line g) = None) by reflexivity.
  unfold step, on_size, on_sequential, on_row.
  rewrite Hs, group_1.
  rewrite (py_int_digits g Hg Hgne Hglen). cbn [mbind result_bind].
  rewrite Hm. cbn [mbind result_bind]. rewrite Hr. reflexivity.
Qed.

Lemma step_sequential st tok t rest :
  all_in is_digit_or_dot tok = true -> tok <> "" -> py_float tok = Ok t ->
  step st (sequential_line tok) (take 5 (sequential_line tok :: rest))
  = Ok (with_time st t).
Proof.
  intros Htok Hne Ht.
  assert (Hs : re_search size_re (sequential_line tok) = None).
  { apply re_search_none.
    apply sequential_line_free; [exact Htok|reflexivity..]. }
  assert (Hm : contains "Sequential:" (sequential_line tok) = true)
    by reflexivity.
  assert (Hk : time_token (sequential_line tok) = Some tok).
  { assert (E : re_search time_re (sequential_line tok) = Some [tok]).
    { apply (time_re_found "Sequential: " " " tok " " "");
        first [reflexivity|assumption]. }
    unfold time_token. rewrite E. reflexivity. }
  assert (Hr : re_match thread_re (sequential_line tok) = None) by reflexivity.
  unfold step, on_size, on_sequential, on_row.
  rewrite Hs. cbn [mbind result_bind]. rewrite Hm.
  change (take 5 (sequential_line tok :: rest))
    with ([] ++ sequential_line tok :: take 4 rest)%list.
  rewrite (find_time_first [] st _ _ tok t (Forall_nil_2 _) Hk Ht).
  cbn [mbind result_bind]. rewrite Hr. reflexivity.
Qed.

Lemma step_row st th tm a b size u window :
  all_in is_digit th = true -> th <> "" ->
  Z.of_nat (String.length th) <= int_max_str_digits ->
  all_in is_digit_or_dot tm = true -> tm <> "" ->
  all_in is_digit_or_dot a = true -> a <> "" ->
  all_in is_digit_or_dot b = true -> b <> "" ->
  current_size st = Some size -> py_float tm = Ok u ->
  step st (row_line th tm a b) window
  = Ok (Scan (Dataset (sizes (data st)) (sequential_times (data st))
                      (record_time (parallel_results (data st))
                                   (digits_value 0 th) size u))
             (Some size) (seq_time st)).
Proof.
  intros Hth Hthne Hthlen Htm Htmne Ha Hane Hb Hbne Hc Hu.
  assert (Hs : re_search size_re (row_line th tm a b) = None).
  { apply re_search_none. apply row_line_free; first [assumption|reflexivity]. }
  assert (Hm : contains "Sequential:" (row_line th tm a b) = false).
  { apply contains_none. apply row_line_free; first [assumption|reflexivity]. }
  assert (Hr : re_match thread_re (row_line th tm a b) = Some [th; tm; a; b]).
  { apply (thread_re_runs "  " th "   " tm "   " a "   " b "");
      first [reflexivity|assumption|discriminate]. }
  unfold step, on_size, on_sequential, on_row.
  rewrite Hs. cbn [mbind result_bind]. rewrite Hm. cbn [mbind result_bind].
  rewrite Hr, Hc, group_1, group_2.
  rewrite (py_int_digits th Hth Hthne Hthlen), Hu. reflexivity.
Qed.

(** X16: a block of the report in the benchmark's layout, a size header,
    the sequential line and a table row, parses to the numbers it shows:
    the size, the sequential time and the time of the row under its
    thread count and that size, for every choice of the numerals whose
    size and thread count have at most 4300 digits and whose times
    [float] reads. *)
Theorem report_block_parses (g tok th tm a b : string) (t u : float)
    (Hg : all_in is_digit g = true) (Hgne : g <> "")
    (Hglen : Z.of_nat (String.length g) <= int_max_str_digits)
    (Htok : all_in is_digit_or_dot tok = true) (Htokne : tok <> "")
    (Hth : all_in is_digit th = true) (Hthne : th <> "")
    (Hthlen : Z.of_nat (String.length th) <= int_max_str_digits)
    (Htm : all_in is_digit_or_dot tm = true) (Htmne : tm <> "")
    (Ha : all_in is_digit_or_dot a = true) (Hane : a <> "")
    (Hb : all_in is_digit_or_dot b = true) (Hbne : b <> "")
    (Ht : py_float tok = Ok t) (Hu : py_float tm = Ok u) :
  parse_output (header_line g ++ nl ++ sequential_line tok ++ nl
                ++ row_line th tm a b)
  = Ok (Dataset [digits_value 0 g] [t]
                {[digits_value 0 th := {[digits_value 0 g := u]}]}).
Proof.
  unfold parse_output.
  rewrite split_lines_app
    by (apply header_line_free; [exact Hg|reflexivity..]).
  rewrite split_lines_app
    by (apply sequential_line_free; [exact Htok|reflexivity..]).
  rewrite split_lines_single
    by (apply row_line_free; first [assumption|reflexivity]).
  unfold parse_lines. cbn [scan_lines].
  rewrite (step_header scan_init g Hg Hgne Hglen). cbn [mbind result_bind].
  rewrite (step_sequential _ tok t _ Htok Htokne Ht). cbn [mbind result_bind].
  rewrite (step_row _ th tm a b (digits_value 0 g) u)
    by first [assumption|reflexivity].
  cbn [mbind result_bind]. simpl. unfold record_time.
  rewrite lookup_empty. simpl. rewrite !insert_empty. reflexivity.
Qed.

Lemma report_block_parses_witness :
  parse_output (header_line "512" ++ nl ++ sequential_line "10.0" ++ nl
                ++ row_line "2" "5.0" "2.00" "100.0")
  = Ok (Dataset [512] [10.0%float] {[2 := {[512 := 5.0%float]}]}).
Proof.
  apply (report_block_parses "512" "10.0" "2" "5.0" "2.00" "100.0");
    first [reflexivity|discriminate|vm_compute; reflexivity
          |vm_compute; discriminate].
Defined.

(** *** A time within reach of two markers *)

Lemma step_marker_only st m before lj after tok t :
  marker_only m ->
  Forall (fun l => time_token l = None) (m :: before) ->
  time_token lj = Some tok -> py_float tok = Ok t ->
  step st m (m :: before ++ lj :: after) = Ok (with_time st t).
Proof.
  intros (Hs & Hm & _ & Hr) Hb Hk Ht. unfold is_marker in Hm.
  unfold step, on_size, on_sequential, on_row.
  rewrite Hs. cbn [mbind result_bind]. rewrite Hm.
  change (m :: before ++ lj :: after)%list
    with ((m :: before) ++ lj :: after)%list.
  rewrite (find_time_first (m :: before) st lj after tok t Hb Hk Ht).
  cbn [mbind result_bind]. rewrite Hr. reflexivity.
Qed.

(** X17: the search of a marker does not use up the line it finds: when
    two marker lines without a time of their own are followed by a line
    with a time, both markers find it, and its time is appended twice;
    the line itself, not being a marker, appends nothing more. *)
Theorem time_shared_by_markers (st : scan) (m1 m2 tl : string)
    (rest : list string) (tok : string) (t : float)
    (H1 : marker_only m1) (H2 : marker_only m2) (H3 : time_only tl tok)
    (Ht : py_float tok = Ok t) :
  scan_lines st (m1 :: m2 :: tl :: rest)
  = scan_lines (with_time (with_time st t) t) rest.
Proof.
  pose proof H1 as (_ & _ & Hn1 & _). pose proof H2 as (_ & _ & Hn2 & _).
  destruct H3 as (Hs3 & Hm3 & Hk3 & Hr3).
  cbn [scan_lines].
  change (take 5 (m1 :: m2 :: tl :: rest))
    with (m1 :: [m2] ++ tl :: take 2 rest)%list.
  rewrite (step_marker_only st m1 [m2] tl (take 2 rest) tok t H1);
    [|repeat constructor; assumption|exact Hk3|exact Ht].
  cbn [mbind result_bind].
  change (take 5 (m2 :: tl :: rest)) with (m2 :: [] ++ tl :: take 3 rest)%list.
  rewrite (step_marker_only _ m2 [] tl (take 3 rest) tok t H2);
    [|repeat constructor; assumption|exact Hk3|exact Ht].
  cbn [mbind result_bind].
  unfold step at 1, on_size, on_sequential, on_row. unfold is_marker in Hm3.
  rewrite Hs3. cbn [mbind result_bind]. rewrite Hm3. cbn [mbind result_bind].
  rewrite Hr3. reflexivity.
Qed.

Lemma time_shared_by_markers_witness :
  marker_only "Sequential:" /\ marker_only "Sequential: run 2"
  /\ time_only "Time: 5 ms" "5" /\ py_float "5" = Ok 5%float
  /\ parse_lines ["Sequential:"; "Sequential: run 2"; "Time: 5 ms"]
     = Ok (Dataset [] [5%float; 5%float] ∅).
Proof.
  assert (H1 : marker_only "Sequential:")
    by (repeat split; vm_compute; reflexivity).
  assert (H2 : marker_only "Sequential: run 2")
    by (repeat split; vm_compute; reflexivity).
  assert (H3 : time_only "Time: 5 ms" "5")
    by (repeat split; vm_compute; reflexivity).
  assert (H4 : py_float "5" = Ok 5%float) by (vm_compute; reflexivity).
  split; [exact H1|]. split; [exact H2|]. split; [exact H3|]. split; [exact H4|].
  unfold parse_lines.
  rewrite (time_shared_by_markers scan_init _ _ _ [] "5" 5%float H1 H2 H3 H4).
  reflexivity.
Defined.

(** ** The derived speedup of a recorded time *)

(** C7: in the dataset parsed from an output, take a size and a thread
    count with a recorded parallel time [t].  The size has an index
    [idx] in [sizes] and the thread count a column [j] of the table and
    of the charts.  When [t] is 0.0 the speedup of the pair is computed
    as the integer 0, without a division and without an error.  In the
    summary table, when the size has a sequential time, the row at [idx]
    is the row of the size and its cell at [j] shows [t] and the derived
    speedup; in a figure that has been drawn, the speedup line and the
    row of the heat matrix at [idx] hold the derived speedup at [j], and
    the efficiency line holds the efficiency of that speedup.  The
    derived speedup is the integer 0 when [t] is 0.0, and the sequential
    time at [idx] divided by [t] when [t] is positive. *)
Theorem C7_speedup_guarded (output : string) (d : dataset)
    (size threads : Z) (t : float)
    (Hparse : parse_output output = Ok d)
    (Htime : recorded (parallel_results d) threads size = Some t) :
  exists idx j,
    sizes d !! idx = Some size
    /\ sorted_keys (parallel_results d) !! j = Some threads
    /\ (t = 0.0%float ->
          table_cell d idx size threads = Ok (PFloat t, PInt 0)
          /\ chart_speedup d idx size threads = Ok (PInt 0))
    /\ (forall s, sequential_times d !! idx = Some s ->
          exists cells v,
            shown_rows (trace (print_summary_table d)) !! idx
            = Some (size, s, cells)
            /\ cells !! j = Some (PFloat t, v)
            /\ guarded_speedup (Some s) t v)
    /\ (forall draw c, draw_figure draw d = Ok c ->
          exists ys es v e,
            speedup_lines c !! idx = Some (size, ys)
            /\ speedup_matrix c !! idx = Some ys
            /\ ys !! j = Some v
            /\ guarded_speedup (sequential_times d !! idx) t v
            /\ efficiency_lines c !! idx = Some (size, es)
            /\ es !! j = Some e
            /\ efficiency_of v threads = Ok e).
Proof.
  destruct (parse_keeps_rows_known output d Hparse)
    as (st & Hd & (Hknown & _ & _)).
  rewrite Hd in Hknown. pose proof (Hknown _ _ _ Htime) as Hin.
  apply list_elem_of_lookup in Hin as (idx & Hidx).
  unfold recorded in Htime.
  destruct (parallel_results d !! threads) as [inner|] eqn:Hthreads;
    [|discriminate].
  simpl in Htime. rename Htime into Hsize.
  assert (Hcol : threads ∈ sorted_keys (parallel_results d)).
  { apply sorted_keys_elem. eauto. }
  apply list_elem_of_lookup in Hcol as (j & Hj). exists idx, j.
  split; [exact Hidx|]. split; [exact Hj|]. split; [|split].
  - intros ->. unfold table_cell, chart_speedup, get_time.
    rewrite Hthreads, Hsize. split; reflexivity.
  - intros s Hs.
    destruct (print_summary_table_shown_at d idx size s Hidx Hs)
      as (cells & Hrow & Hc).
    destruct (mapM_lookup _ _ _ j threads Hc Hj) as (cell & Hcell & Hcomp).
    destruct (table_cell_recorded d idx size threads inner t cell
                Hthreads Hsize Hcomp) as (v & -> & Hv).
    exists cells, v. rewrite Hs in Hv. auto.
  - intros draw c Hc. apply draw_figure_data in Hc.
    unfold chart_data in Hc.
    apply bind_Ok in Hc as (bars & _ & Hc).
    apply bind_Ok in Hc as (sp & Hsp & Hc).
    apply bind_Ok in Hc as (ef & Hef & Hc).
    apply bind_Ok in Hc as (mx & Hmx & Hc). injection Hc as <-.
    rewrite Hsp in Hmx. injection Hmx as <-.
    cbn [speedup_lines speedup_matrix efficiency_lines].
    destruct (per_size_lookup _ _ _ _ idx size Hsp Hidx) as (ys & Hys & Hyc).
    destruct (per_size_lookup _ _ _ _ idx size Hef Hidx) as (es & Hes & Hec).
    destruct (mapM_lookup _ _ _ j threads Hyc Hj) as (v & Hv & Hvc).
    destruct (mapM_lookup _ _ _ j threads Hec Hj) as (e & He & Hee).
    exists ys, es, v, e.
    split; [exact Hys|]. split; [rewrite list_lookup_fmap, Hys; reflexivity|].
    split; [exact Hv|].
    split; [exact (chart_speedup_recorded d idx size threads inner t v
                     Hthreads Hsize Hvc)|].
    split; [exact Hes|]. split; [exact He|].
    unfold chart_efficiency in Hee. rewrite Hvc in Hee. exact Hee.
Qed.

Lemma C7_witness :
  let d := Dataset [4; 8] [10.0%float; 20.0%float]
             {[2 := {[4 := 5.0%float; 8 := 0.0%float]}]} in
  parse_output zero_time = Ok d
  /\ recorded (parallel_results d) 2 8 = Some 0.0%float
  /\ exists j cells,
       sorted_keys (parallel_results d) !! j = Some 2
       /\ shown_rows (trace (print_summary_table d)) !! 1%nat
          = Some (8, 20.0%float, cells)
       /\ cells !! j = Some (PFloat 0.0, PInt 0)
       /\ table_cell d 1 8 2 = Ok (PFloat 0.0, PInt 0)
       /\ chart_speedup d 1 8 2 = Ok (PInt 0)
       /\ exists c ys,
            draw_figure accepting d = Ok c
            /\ speedup_lines c !! 1%nat = Some (8, ys)
            /\ speedup_matrix c !! 1%nat = Some ys
            /\ ys !! j = Some (PInt 0).
Proof.
  intros d.
  assert (H1 : parse_output zero_time = Ok d) by (vm_compute; reflexivity).
  assert (H2 : recorded (parallel_results d) 2 8 = Some 0.0%float)
    by (vm_compute; reflexivity).
  split; [exact H1|]. split; [exact H2|].
  assert (H3 : exists c, draw_figure accepting d = Ok c)
    by (eexists; vm_compute; reflexivity).
  destruct H3 as (c & H3).
  destruct (C7_speedup_guarded zero_time d 8 2 _ H1 H2)
    as (idx & j & Hidx & Hj & Hzero & Htable & Hchart).
  assert (Hi : idx = 1%nat).
  { destruct idx as [|[|idx]]; simpl in Hidx;
      [discriminate|reflexivity|destruct idx; discriminate]. }
  subst idx.
  destruct (Htable 20.0%float eq_refl) as (cells & v & Hrow & Hcell & Hv).
  destruct (Hzero eq_refl) as (Hc1 & Hc2).
  exists j, cells. split; [exact Hj|]. split; [exact Hrow|].
  split; [rewrite Hcell, (proj1 Hv eq_refl); reflexivity|].
  split; [exact Hc1|]. split; [exact Hc2|].
  destruct (Hchart accepting c H3)
    as (ys & es & w & e & Hys & Hmx & Hw & Hg & _).
  exists c, ys. split; [exact H3|]. split; [exact Hys|]. split; [exact Hmx|].
  rewrite Hw, (proj1 Hg eq_refl). reflexivity.
Defined.
